(** * essay-pipeline: frontmatter validator and essay indexer

    A shallow embedding of [src/validator.py], [src/indexer.py] and
    [src/schema_loader.py].

    - Python values coming out of the YAML loader are a tagged union
      ([pyval]) of the kinds PyYAML's safe loader makes of YAML that carries
      no explicit tag: null, boolean, integer, float, string, date and
      datetime (the YAML timestamps), sequence and mapping.  A [str] is a
      [string] whose characters stand for code points; a value is a finite
      tree.
    - A Python function that can raise is a function into [result]; [exn]
      names the exception classes these modules meet and has a constructor
      for any other class.
    - A [dict] (and a [Counter]) is an association list in insertion order,
      the order Python iterates it in.
    - The library functions the modules call but do not define are variables
      of the section: the YAML loader, [re.compile], [repr] of a [str] and of
      a [float], the text of a date or datetime, and the order [sorted]
      leaves items in when [<] is not an order on them. *)

From Stdlib Require Import List String Ascii ZArith Lia Bool Arith.
From Stdlib Require Import Sorting.Sorted Sorting.Permutation.
From Stdlib Require Import Numbers.DecimalString.
From Stdlib Require Import Structures.OrderedTypeEx.
From Stdlib Require Import QArith.QArith_base.
Import ListNotations.

Open Scope string_scope.
Open Scope Z_scope.

Set Implicit Arguments.
Set Warnings "-register-all".

(* ------------------------------------------------------------------ *)
(** ** Exceptions *)

(** The exception classes; [YAMLError] is [yaml.YAMLError] with its
    subclasses, [ReError] is [re.error]. *)
Inductive exn : Type :=
| TypeError
| AttributeError
| KeyError
| IndexError
| ValueError
| OverflowError
| RecursionError
| FileNotFoundError
| YAMLError
| ReError
| OtherError (class_name : string).

Inductive result (A : Type) : Type :=
| Ok (a : A)
| Raise (e : exn).

Arguments Ok {A} a.
Arguments Raise {A} e.

Definition bind {A B : Type} (r : result A) (k : A -> result B) : result B :=
  match r with
  | Ok a => k a
  | Raise e => Raise e
  end.

Notation "x <- c1 ;; c2" := (bind c1 (fun x => c2))
  (at level 61, c1 at next level, right associativity).

Definition is_ok {A : Type} (r : result A) : bool :=
  match r with Ok _ => true | Raise _ => false end.

(** [for x in xs: st = step(st, x)] with a body that can raise. *)
Fixpoint for_each {S X : Type} (step : S -> X -> result S) (xs : list X) (st : S)
  : result S :=
  match xs with
  | [] => Ok st
  | x :: xs' => st' <- step st x ;; for_each step xs' st'
  end.

(* ------------------------------------------------------------------ *)
(** ** Python values *)

(** A [float]: not a number, an infinity, or the finite value
    [(-1)^s * m * 2^e]; [m = 0] is the zero of that sign. *)
Inductive pyfloat : Type :=
| FNan
| FInf (negative : bool)
| FNum (negative : bool) (m : N) (e : Z).

(** What a YAML timestamp loads as: a [datetime.date], or a
    [datetime.datetime], given by the microseconds [wall] its own clock shows
    since the start of year 1 and, when it is aware, by its offset from UTC
    in microseconds. *)
Inductive pytime : Type :=
| Date (year month day : Z)
| DateTime (wall : Z) (utcoffset : option Z).

(** Hashable values: the keys of a [dict]. *)
Inductive pykey : Type :=
| KNone
| KBool (b : bool)
| KInt (z : Z)
| KStr (s : string)
| KFloat (f : pyfloat)
| KTime (t : pytime).

Inductive pyval : Type :=
| VNone
| VBool (b : bool)
| VInt (z : Z)
| VStr (s : string)
| VList (items : list pyval)
| VDict (entries : list (pykey * pyval))
| VFloat (f : pyfloat)
| VTime (t : pytime).

Definition pydict : Type := list (pykey * pyval).

Definition b2z (b : bool) : Z := if b then 1 else 0.

(** [hash(v)]: lists and dicts are unhashable. *)
Definition to_key (v : pyval) : option pykey :=
  match v with
  | VNone => Some KNone
  | VBool b => Some (KBool b)
  | VInt z => Some (KInt z)
  | VStr s => Some (KStr s)
  | VFloat f => Some (KFloat f)
  | VTime t => Some (KTime t)
  | VList _ | VDict _ => None
  end.

Definition of_key (k : pykey) : pyval :=
  match k with
  | KNone => VNone
  | KBool b => VBool b
  | KInt z => VInt z
  | KStr s => VStr s
  | KFloat f => VFloat f
  | KTime t => VTime t
  end.

(** ** Numbers *)

(** The value of a number, whatever its type: Python compares an [int], a
    [bool] and a [float] exactly, by their values. *)
Inductive number : Type :=
| NaN
| NegInf
| Fin (q : Q)
| PosInf.

(** [2^e] *)
Definition pow2 (e : Z) : Q :=
  match e with
  | Z0 => inject_Z 1
  | Zpos p => inject_Z (Z.pow_pos 2 p)
  | Zneg p => Qmake 1 (Pos.pow 2 p)
  end.

Definition int_number (z : Z) : number := Fin (inject_Z z).

Definition float_number (f : pyfloat) : number :=
  match f with
  | FNan => NaN
  | FInf true => NegInf
  | FInf false => PosInf
  | FNum s m e =>
      Fin (Qmult (inject_Z (if s then - Z.of_N m else Z.of_N m)) (pow2 e))
  end.

(** [a < b]; a comparison with NaN is false. *)
Definition num_ltb (a b : number) : bool :=
  match a, b with
  | NaN, _ | _, NaN => false
  | _, NegInf => false
  | NegInf, _ => true
  | PosInf, _ => false
  | _, PosInf => true
  | Fin p, Fin q => match Qcompare p q with Lt => true | _ => false end
  end.

(** [a == b], as a [dict] and the operator [in] test it: the identical
    object first.  [.nan] loads as one object of the loader, so that as a key
    or an item it is found again, although [nan == nan] is false. *)
Definition num_eqb (a b : number) : bool :=
  match a, b with
  | NaN, NaN | NegInf, NegInf | PosInf, PosInf => true
  | Fin p, Fin q => Qeq_bool p q
  | _, _ => false
  end.

(** ** Equality and order of hashable values *)

(** What [==], [hash] and [<] see of a hashable value: a number by its value
    ([True == 1 == 1.0]), a string, a date, a naive datetime by its wall
    clock, an aware one by its instant. *)
Inductive key_view : Type :=
| AsNone
| AsNumber (n : number)
| AsStr (s : string)
| AsDate (year month day : Z)
| AsNaive (wall : Z)
| AsAware (instant : Z).

Definition view (k : pykey) : key_view :=
  match k with
  | KNone => AsNone
  | KBool b => AsNumber (int_number (b2z b))
  | KInt z => AsNumber (int_number z)
  | KFloat f => AsNumber (float_number f)
  | KStr s => AsStr s
  | KTime (Date y m d) => AsDate y m d
  | KTime (DateTime wall None) => AsNaive wall
  | KTime (DateTime wall (Some offset)) => AsAware (wall - offset)
  end.

Definition view_eqb (a b : key_view) : bool :=
  match a, b with
  | AsNone, AsNone => true
  | AsNumber x, AsNumber y => num_eqb x y
  | AsStr s, AsStr t => String.eqb s t
  | AsDate y m d, AsDate y' m' d' => (y =? y') && (m =? m') && (d =? d')
  | AsNaive w, AsNaive w' => w =? w'
  | AsAware i, AsAware i' => i =? i'
  | _, _ => false
  end.

(** [k1 == k2] on hashable values: [True == 1] and [False == 0], a float
    equals the integer of its value, a date never equals a datetime nor a
    naive datetime an aware one. *)
Definition key_eqb (k1 k2 : pykey) : bool := view_eqb (view k1) (view k2).

(** [k == v] for a hashable [k] and any [v]. *)
Definition key_eq_val (k : pykey) (v : pyval) : bool :=
  match to_key v with
  | Some k' => key_eqb k k'
  | None => false
  end.

(** [type(v).__name__] *)
Definition type_name (v : pyval) : string :=
  match v with
  | VNone => "NoneType"
  | VBool _ => "bool"
  | VInt _ => "int"
  | VStr _ => "str"
  | VList _ => "list"
  | VDict _ => "dict"
  | VFloat _ => "float"
  | VTime (Date _ _ _) => "date"
  | VTime (DateTime _ _) => "datetime"
  end.

(** [bool(v)] *)
Definition truthy (v : pyval) : bool :=
  match v with
  | VNone => false
  | VBool b => b
  | VInt z => negb (Z.eqb z 0)
  | VStr s => negb (String.eqb s "")
  | VList l => match l with [] => false | _ => true end
  | VDict d => match d with [] => false | _ => true end
  | VFloat (FNum _ m _) => negb (N.eqb m 0)
  | VFloat _ => true
  | VTime _ => true
  end.

(** [v == s] for a string literal [s]. *)
Definition is_str_lit (v : pyval) (s : string) : bool :=
  match v with
  | VStr t => String.eqb t s
  | _ => false
  end.

(* ------------------------------------------------------------------ *)
(** ** Dictionaries *)

Fixpoint dict_lookup {V : Type} (k : pykey) (d : list (pykey * V)) : option V :=
  match d with
  | [] => None
  | (k', v) :: d' => if key_eqb k k' then Some v else dict_lookup k d'
  end.

(** [k in d] *)
Definition dict_mem {V : Type} (k : pykey) (d : list (pykey * V)) : bool :=
  match dict_lookup k d with Some _ => true | None => false end.

(** [d.get(k, default)] *)
Definition dict_get (d : pydict) (k : string) (default : pyval) : pyval :=
  match dict_lookup (KStr k) d with
  | Some v => v
  | None => default
  end.

(** [d[k] = v]: an existing key keeps its place (and its first key object). *)
Fixpoint dict_set {V : Type} (k : pykey) (v : V) (d : list (pykey * V))
  : list (pykey * V) :=
  match d with
  | [] => [(k, v)]
  | (k', v') :: d' =>
      if key_eqb k k' then (k', v) :: d' else (k', v') :: dict_set k v d'
  end.

(** [del d[k]] for a key that is present; used to state that a constraint is
    absent from a field specification. *)
Fixpoint dict_remove {V : Type} (k : pykey) (d : list (pykey * V))
  : list (pykey * V) :=
  match d with
  | [] => []
  | (k', v') :: d' =>
      if key_eqb k k' then dict_remove k d' else (k', v') :: dict_remove k d'
  end.

(** [obj.get(...)]: only a dict has the attribute. *)
Definition as_dict (v : pyval) : result pydict :=
  match v with
  | VDict d => Ok d
  | _ => Raise AttributeError
  end.

(* ------------------------------------------------------------------ *)
(** ** Strings *)

Definition strlen (s : string) : Z := Z.of_nat (String.length s).

Fixpoint drop (n : nat) (s : string) : string :=
  match n, s with
  | O, _ => s
  | S n', String _ s' => drop n' s'
  | S _, EmptyString => EmptyString
  end.

(** [s.find(sep)] as the text before and after the first occurrence. *)
Fixpoint find_sub (sep s : string) : option (string * string) :=
  if String.prefix sep s then Some (EmptyString, drop (String.length sep) s)
  else match s with
       | EmptyString => None
       | String c s' =>
           match find_sub sep s' with
           | Some (before, after) => Some (String c before, after)
           | None => None
           end
       end.

(** [sub in s] *)
Definition str_contains (sub s : string) : bool :=
  match find_sub sub s with Some _ => true | None => false end.

(** [s.split(sep, maxsplit)] for a non-empty [sep]. *)
Fixpoint split_max (sep : string) (maxsplit : nat) (s : string) : list string :=
  match maxsplit with
  | O => [s]
  | S n =>
      match find_sub sep s with
      | Some (before, after) => before :: split_max sep n after
      | None => [s]
      end
  end.

(** [str(z)] for an int. *)
Definition str_of_Z (z : Z) : string := NilZero.string_of_int (Z.to_int z).

Fixpoint join (sep : string) (l : list string) : string :=
  match l with
  | [] => EmptyString
  | [s] => s
  | s :: l' => s ++ sep ++ join sep l'
  end.

Fixpoint chars (s : string) : list string :=
  match s with
  | EmptyString => []
  | String c s' => String c EmptyString :: chars s'
  end.

(* ------------------------------------------------------------------ *)
(** ** Library functions the modules call *)

(** A [Counter] in insertion order. *)
Definition counter : Type := list (pykey * Z).

Section Pipeline.

(** [yaml.safe_load]: the value of the text, or the exception it raises.
    That is [yaml.YAMLError] for a text that is not YAML, and whatever the
    construction of a value raises, as [ValueError] for the timestamp
    [2026-02-30], which names no day. *)
Variable safe_load : string -> result pyval.

(** [re.compile(pattern)] as the test [re.match(pattern, s) is not None], or
    the exception the pattern makes it raise: [re.error] when it is
    malformed, [OverflowError] for a repetition count that is too large. *)
Variable re_compile : string -> result (string -> bool).

(** [repr(s)] for a [str]. *)
Variable repr_str : string -> string.

(** [repr(f)] for a [float], which is also its [str]. *)
Variable repr_float : pyfloat -> string.

(** [repr(t)], when the flag is set, and [str(t)] for a date or datetime. *)
Variable time_text : bool -> pytime -> string.

(** [sorted(items)] for items with NaN among their keys: [<] is not an order
    on them, and where the sort leaves each item depends on the merges it
    happens to make. *)
Variable nan_sorted : counter -> counter.

Definition key_repr (k : pykey) : string :=
  match k with
  | KNone => "None"
  | KBool true => "True"
  | KBool false => "False"
  | KInt z => str_of_Z z
  | KStr s => repr_str s
  | KFloat f => repr_float f
  | KTime t => time_text true t
  end.

(** [repr(v)] *)
Fixpoint py_repr (v : pyval) : string :=
  match v with
  | VNone => "None"
  | VBool true => "True"
  | VBool false => "False"
  | VInt z => str_of_Z z
  | VStr s => repr_str s
  | VList l => "[" ++ join ", " (map py_repr l) ++ "]"
  | VDict d =>
      "{" ++ join ", " (map (fun kv => key_repr (fst kv) ++ ": " ++ py_repr (snd kv)) d)
          ++ "}"
  | VFloat f => repr_float f
  | VTime t => time_text true t
  end.

(** [str(v)], what an f-string interpolates. *)
Definition py_str (v : pyval) : string :=
  match v with
  | VStr s => s
  | VTime t => time_text false t
  | _ => py_repr v
  end.

(* ------------------------------------------------------------------ *)
(** ** Operators of the dynamic language *)

Definition as_number (v : pyval) : option number :=
  match v with
  | VInt z => Some (int_number z)
  | VBool b => Some (int_number (b2z b))
  | VFloat f => Some (float_number f)
  | _ => None
  end.

(** [n < v] for an int [n] *)
Definition int_lt (n : Z) (v : pyval) : result bool :=
  match as_number v with
  | Some m => Ok (num_ltb (int_number n) m)
  | None => Raise TypeError
  end.

(** [n > v] for an int [n] *)
Definition int_gt (n : Z) (v : pyval) : result bool :=
  match as_number v with
  | Some m => Ok (num_ltb m (int_number n))
  | None => Raise TypeError
  end.

(** [k in container] for a hashable [k] *)
Definition key_in (k : pykey) (container : pyval) : result bool :=
  match container with
  | VDict d => Ok (dict_mem k d)
  | VList l => Ok (existsb (key_eq_val k) l)
  | VStr s =>
      match k with
      | KStr sub => Ok (str_contains sub s)
      | _ => Raise TypeError
      end
  | _ => Raise TypeError
  end.

Definition key_index (k : pykey) : option Z :=
  match k with
  | KInt z => Some z
  | KBool b => Some (b2z b)
  | _ => None
  end.

(** [seq[i]] with Python's negative indices *)
Definition seq_index {A : Type} (l : list A) (i : Z) : result A :=
  let n := Z.of_nat (List.length l) in
  let j := if i <? 0 then i + n else i in
  if (j <? 0) || (n <=? j) then Raise IndexError
  else match nth_error l (Z.to_nat j) with
       | Some a => Ok a
       | None => Raise IndexError
       end.

(** [obj[k]] *)
Definition py_getitem (obj : pyval) (k : pykey) : result pyval :=
  match obj with
  | VDict d =>
      match dict_lookup k d with
      | Some v => Ok v
      | None => Raise KeyError
      end
  | VList l =>
      match key_index k with
      | Some i => seq_index l i
      | None => Raise TypeError
      end
  | VStr s =>
      match key_index k with
      | Some i => c <- seq_index (chars s) i ;; Ok (VStr c)
      | None => Raise TypeError
      end
  | _ => Raise TypeError
  end.

(** [for x in v] *)
Definition py_iter (v : pyval) : result (list pyval) :=
  match v with
  | VList l => Ok l
  | VStr s => Ok (map VStr (chars s))
  | VDict d => Ok (map (fun kv => of_key (fst kv)) d)
  | _ => Raise TypeError
  end.

(** [re.match(pattern, s)] seen as a truth value: a pattern that is no
    [str] is refused, and an exception of the compilation goes through. *)
Definition py_re_match (pattern : pyval) (s : string) : result bool :=
  match pattern with
  | VStr p => matches <- re_compile p ;; Ok (matches s)
  | _ => Raise TypeError
  end.

(* ------------------------------------------------------------------ *)
(** ** validator.py *)

(** [extract_frontmatter]: the file's text is the input; Python's [None] is
    [VNone].  The handler catches [yaml.YAMLError] and nothing else. *)
Definition extract_frontmatter (text : string) : result pyval :=
  if negb (String.prefix "---" text) then Ok VNone
  else
    let parts := split_max "---" 2 text in
    if (List.length parts <? 3)%nat then Ok VNone
    else match safe_load (nth 1 parts EmptyString) with
         | Ok fm => Ok fm
         | Raise YAMLError => Ok VNone
         | Raise e => Raise e
         end.

(** [errors.append(msg)] *)
Definition append_error (errors : list string) (msg : string) : list string :=
  (errors ++ [msg])%list.

Definition is_str (v : pyval) : bool :=
  match v with VStr _ => true | _ => false end.

(** The string branch of [validate_field], after the type test. *)
Definition validate_string (s : string) (spec : pydict) : result (list string) :=
  let errors := [] in
  errors <-
    match dict_lookup (KStr "enum") spec with
    | Some enum =>
        found <- key_in (KStr s) enum ;;
        Ok (if negb found
            then append_error errors ("must be one of " ++ py_str enum ++ ", got '" ++ s ++ "'")
            else errors)
    | None => Ok errors
    end ;;
  errors <-
    match dict_lookup (KStr "min_length") spec with
    | Some bound =>
        short <- int_lt (strlen s) bound ;;
        Ok (if short
            then append_error errors ("too short (" ++ str_of_Z (strlen s) ++ " chars, min "
                              ++ py_str bound ++ ")")
            else errors)
    | None => Ok errors
    end ;;
  errors <-
    match dict_lookup (KStr "max_length") spec with
    | Some bound =>
        long <- int_gt (strlen s) bound ;;
        Ok (if long
            then append_error errors ("too long (" ++ str_of_Z (strlen s) ++ " chars, max "
                              ++ py_str bound ++ ")")
            else errors)
    | None => Ok errors
    end ;;
  match dict_lookup (KStr "pattern") spec with
  | Some pattern =>
      matched <- py_re_match pattern s ;;
      Ok (if negb matched
          then append_error errors ("does not match pattern " ++ py_str pattern)
          else errors)
  | None => Ok errors
  end.

(** The integer branch of [validate_field], after the type test. *)
Definition validate_integer (z : Z) (spec : pydict) : result (list string) :=
  let errors := [] in
  match dict_lookup (KStr "min") spec with
  | Some bound =>
      below <- int_lt z bound ;;
      Ok (if below
          then append_error errors ("value " ++ str_of_Z z ++ " below minimum " ++ py_str bound)
          else errors)
  | None => Ok errors
  end.

(** [for i, item in enumerate(value)] of the list branch. *)
Fixpoint validate_items (item_type item_pattern : pyval) (i : Z)
         (items : list pyval) (errors : list string) : result (list string) :=
  match items with
  | [] => Ok errors
  | item :: rest =>
      errors' <-
        (if is_str_lit item_type "string" && negb (is_str item) then
           Ok (append_error errors ("item [" ++ str_of_Z i ++ "] expected string, got "
                            ++ type_name item))
         else if truthy item_pattern then
           match item with
           | VStr s =>
               matched <- py_re_match item_pattern s ;;
               Ok (if negb matched
                   then append_error errors ("item [" ++ str_of_Z i ++ "] '" ++ s
                                     ++ "' does not match pattern "
                                     ++ py_str item_pattern)
                   else errors)
           | _ => Ok errors
           end
         else Ok errors) ;;
      validate_items item_type item_pattern (i + 1) rest errors'
  end.

(** The list branch of [validate_field], after the type test. *)
Definition validate_list (l : list pyval) (spec : pydict) : result (list string) :=
  let errors := [] in
  let n := Z.of_nat (List.length l) in
  errors <-
    match dict_lookup (KStr "min_items") spec with
    | Some bound =>
        few <- int_lt n bound ;;
        Ok (if few
            then append_error errors ("too few items (" ++ str_of_Z n ++ ", min "
                              ++ py_str bound ++ ")")
            else errors)
    | None => Ok errors
    end ;;
  errors <-
    match dict_lookup (KStr "max_items") spec with
    | Some bound =>
        many <- int_gt n bound ;;
        Ok (if many
            then append_error errors ("too many items (" ++ str_of_Z n ++ ", max "
                              ++ py_str bound ++ ")")
            else errors)
    | None => Ok errors
    end ;;
  let item_type := dict_get spec "item_type" VNone in
  let item_pattern := dict_get spec "item_pattern" VNone in
  validate_items item_type item_pattern 0 l errors.

(** [validate_field(field_name, value, spec)] *)
Definition validate_field (field_name : pykey) (value spec : pyval)
  : result (list string) :=
  sp <- as_dict spec ;;
  let field_type := dict_get sp "type" VNone in
  if is_str_lit field_type "string" then
    match value with
    | VStr s => validate_string s sp
    | _ => Ok ["expected string, got " ++ type_name value]
    end
  else if is_str_lit field_type "integer" then
    match value with
    | VInt z => validate_integer z sp
    | _ => Ok ["expected integer, got " ++ type_name value]
    end
  else if is_str_lit field_type "list" then
    match value with
    | VList l => validate_list l sp
    | _ => Ok ["expected list, got " ++ type_name value]
    end
  else Ok [].

(** One turn of [for field_name, spec in required.items()]. *)
Definition validate_required (name : string) (fm : pyval)
           (errors : list string) (item : pykey * pyval) : result (list string) :=
  let (field_name, spec) := item in
  present <- key_in field_name fm ;;
  if negb present then
    Ok (append_error errors (name ++ ": missing required field '"
                     ++ py_str (of_key field_name) ++ "'"))
  else
    value <- py_getitem fm field_name ;;
    field_errors <- validate_field field_name value spec ;;
    Ok (List.app errors
          (map (fun err => name ++ ": field '" ++ py_str (of_key field_name)
                                ++ "' — " ++ err) field_errors)).

(** [validate_essay(filepath, schema)]; [name] is [filepath.name] and [text]
    the file's content. *)
Definition validate_essay (name text : string) (schema : pyval)
  : result (list string) :=
  fm <- extract_frontmatter text ;;
  match fm with
  | VNone => Ok [name ++ ": no valid frontmatter found"]
  | _ =>
      required <- py_getitem schema (KStr "required_fields") ;;
      fields <- as_dict required ;;
      for_each (validate_required name fm) fields []
  end.

(* ------------------------------------------------------------------ *)
(** ** schema_loader.py *)

(** [load_schema(schema_path)]; the argument is what the path holds, [None]
    when it does not exist.  No exception of the loader is caught. *)
Definition load_schema (schema_file : option string) : result pyval :=
  match schema_file with
  | None => Raise FileNotFoundError
  | Some content =>
      schema <- safe_load content ;;
      match schema with
      | VDict d =>
          if dict_mem (KStr "required_fields") d then Ok schema
          else Raise ValueError
      | _ => Raise ValueError
      end
  end.

(** [validate_all(posts_dir, schema_path)]; [posts] is the sorted result of the
    glob, each file with its name and content. *)
Definition validate_all (posts_dir : string) (schema_file : option string)
           (posts : list (string * string)) : result (list string) :=
  schema <- load_schema schema_file ;;
  match posts with
  | [] => Ok ["No .md files found in " ++ posts_dir]
  | _ =>
      for_each (fun all_errors post =>
                  errs <- validate_essay (fst post) (snd post) schema ;;
                  Ok (List.app all_errors errs))
               posts []
  end.

(* ------------------------------------------------------------------ *)
(** ** indexer.py: the word count *)

(** [c.isspace()], which is also what [\s] matches, on code points below 256. *)
Definition is_space (c : ascii) : bool :=
  let n := nat_of_ascii c in
  ((9 <=? n) && (n <=? 13) || (28 <=? n) && (n <=? 32)
   || (n =? 133) || (n =? 160))%nat.

Fixpoint lstrip (s : string) : string :=
  match s with
  | EmptyString => EmptyString
  | String c s' => if is_space c then lstrip s' else s
  end.

Fixpoint rstrip (s : string) : string :=
  match s with
  | EmptyString => EmptyString
  | String c s' =>
      match rstrip s' with
      | EmptyString => if is_space c then EmptyString else String c EmptyString
      | r => String c r
      end
  end.

(** [s.strip()] *)
Definition strip (s : string) : string := rstrip (lstrip s).

(** The character class of the first substitution. *)
Definition is_markup (c : ascii) : bool :=
  existsb (Ascii.eqb c)
          ["#"; "*"; "_"; "`"; "["; "]"; "("; ")"; ">"; "|"]%char.

(** [re.sub(r"[#*_`\[\]()>|]", " ", s)] *)
Fixpoint sub_markup (s : string) : string :=
  match s with
  | EmptyString => EmptyString
  | String c s' => String (if is_markup c then " "%char else c) (sub_markup s')
  end.

Definition starts_nonspace (s : string) : bool :=
  match s with
  | EmptyString => false
  | String c _ => negb (is_space c)
  end.

(** Whether [https?://\S+] matches at the start of [s]. *)
Definition url_here (s : string) : bool :=
  (String.prefix "http://" s && starts_nonspace (drop 7 s))
  || (String.prefix "https://" s && starts_nonspace (drop 8 s)).

(** [re.sub(r"https?://\S+", "", s)]; [in_url] holds inside a match, which
    runs to the next white space. *)
Fixpoint sub_urls (in_url : bool) (s : string) : string :=
  match s with
  | EmptyString => EmptyString
  | String c s' =>
      if in_url then
        if is_space c then String c (sub_urls false s') else sub_urls true s'
      else if url_here s then sub_urls true s'
      else String c (sub_urls false s')
  end.

(** [re.sub(r"\s+", " ", s)]; [in_space] holds inside a run of white space. *)
Fixpoint sub_spaces (in_space : bool) (s : string) : string :=
  match s with
  | EmptyString => EmptyString
  | String c s' =>
      if is_space c then
        if in_space then sub_spaces true s'
        else String " " (sub_spaces true s')
      else String c (sub_spaces false s')
  end.

(** [len(s.split())]: the number of maximal runs of non-space characters. *)
Fixpoint count_words (in_word : bool) (s : string) : Z :=
  match s with
  | EmptyString => 0
  | String c s' =>
      if is_space c then count_words false s'
      else (if in_word then 0 else 1) + count_words true s'
  end.

Definition word_count (body_part : string) : Z :=
  let body := strip body_part in
  let clean := sub_markup body in
  let clean := sub_urls false clean in
  let clean := strip (sub_spaces false clean) in
  if String.eqb clean "" then 0 else count_words false clean.

(* ------------------------------------------------------------------ *)
(** ** indexer.py: extraction *)

Record essay_data : Type := {
  filename : string;
  frontmatter : pyval;
  computed_word_count : Z
}.

(** [extract_essay_data(filepath)]; the handler catches [yaml.YAMLError] and
    nothing else. *)
Definition extract_essay_data (name text : string) : result (option essay_data) :=
  if negb (String.prefix "---" text) then Ok None
  else
    let parts := split_max "---" 2 text in
    if (List.length parts <? 3)%nat then Ok None
    else match safe_load (nth 1 parts EmptyString) with
         | Raise YAMLError => Ok None
         | Raise e => Raise e
         | Ok fm =>
             Ok (Some {| filename := name;
                         frontmatter := fm;
                         computed_word_count :=
                           word_count (nth 2 parts EmptyString) |})
         end.

(* ------------------------------------------------------------------ *)
(** ** indexer.py: counters and sorting *)

(** [c[k] += 1] for a hashable [k] *)
Fixpoint counter_add (k : pykey) (c : counter) : counter :=
  match c with
  | [] => [(k, 1)]
  | (k', n) :: c' =>
      if key_eqb k k' then (k', n + 1) :: c' else (k', n) :: counter_add k c'
  end.

(** [c[v] += 1]: an unhashable [v] raises. *)
Definition counter_incr (c : counter) (v : pyval) : result counter :=
  match to_key v with
  | Some k => Ok (counter_add k c)
  | None => Raise TypeError
  end.

(** [sorted(c.items(), key=lambda x: -x[1])].  [sorted] is stable, so its
    result is the one of a stable insertion sort on the keys [-x[1]]: [x],
    which came before every element of [l], goes before the first element
    whose key is not smaller. *)
Fixpoint insert_desc (x : pykey * Z) (l : counter) : counter :=
  match l with
  | [] => [x]
  | y :: l' => if - snd x <=? - snd y then x :: l else y :: insert_desc x l'
  end.

Fixpoint sorted_desc (c : counter) : counter :=
  match c with
  | [] => []
  | x :: c' => insert_desc x (sorted_desc c')
  end.

(** [a < b] on dates: the year, then the month, then the day. *)
Definition date_ltb (y m d y' m' d' : Z) : bool :=
  (y <? y') || ((y =? y') && ((m <? m') || ((m =? m') && (d <? d')))).

Definition view_lt (a b : key_view) : result bool :=
  match a, b with
  | AsNumber x, AsNumber y => Ok (num_ltb x y)
  | AsStr s, AsStr t => Ok (String.ltb s t)
  | AsDate y m d, AsDate y' m' d' => Ok (date_ltb y m d y' m' d')
  | AsNaive w, AsNaive w' => Ok (w <? w')
  | AsAware i, AsAware i' => Ok (i <? i')
  | _, _ => Raise TypeError
  end.

(** [a < b] on hashable values: strings with strings, numbers (booleans and
    floats among them) with numbers, dates with dates, datetimes with
    datetimes when both are naive or both aware, [TypeError] otherwise, also
    for [None] with [None]. *)
Definition key_lt (a b : pykey) : result bool := view_lt (view a) (view b).

(** [x < y] on the pairs of [items()]: the first components that differ
    decide. *)
Definition item_lt (x y : pykey * Z) : result bool :=
  if key_eqb (fst x) (fst y) then Ok (snd x <? snd y)
  else key_lt (fst x) (fst y).

Fixpoint insert_item (x : pykey * Z) (l : counter) : result counter :=
  match l with
  | [] => Ok [x]
  | y :: l' =>
      before <- item_lt y x ;;
      if before then l'' <- insert_item x l' ;; Ok (y :: l'')
      else Ok (x :: l)
  end.

Fixpoint insertion_sorted (c : counter) : result counter :=
  match c with
  | [] => Ok []
  | x :: c' => l <- insertion_sorted c' ;; insert_item x l
  end.

Definition is_nan_key (k : pykey) : bool :=
  match k with
  | KFloat FNan => true
  | _ => false
  end.

(** [sorted(c.items())].  Every comparison sort compares each element with
    another one, so the call raises [TypeError] exactly when two keys of
    different kinds meet; when it returns, the result is the one of a stable
    insertion sort, unless NaN is one of several keys. *)
Definition sorted_items (c : counter) : result counter :=
  l <- insertion_sorted c ;;
  Ok (if existsb is_nan_key (map fst c) && (2 <=? List.length c)%nat
      then nan_sorted c
      else l).

(* ------------------------------------------------------------------ *)
(** ** indexer.py: the three indexes *)

Record index_entry : Type := {
  entry_filename : string;
  entry_title : pyval;
  entry_date : pyval;
  entry_category : pyval;
  entry_tags : pyval;
  entry_word_count : Z;
  entry_reading_time : pyval;
  entry_portfolio_relevance : pyval
}.

Record essays_index : Type := {
  version : string;
  updated : string;
  generated_by : string;
  total_essays : Z;
  total_words : Z;
  categories : counter;
  tag_frequency : counter;
  essays : list index_entry
}.

(** The local variables of the loop of [build_essays_index]. *)
Record index_state : Type := {
  st_categories : counter;
  st_tags : counter;
  st_total_words : Z;
  st_entries : list index_entry
}.

(** One turn of [for e in essays] in [build_essays_index]. *)
Definition index_essay (st : index_state) (e : essay_data) : result index_state :=
  fm <- as_dict (frontmatter e) ;;
  let cat := dict_get fm "category" (VStr "uncategorized") in
  categories' <- counter_incr (st_categories st) cat ;;
  tag_items <- py_iter (dict_get fm "tags" (VList [])) ;;
  tags' <- for_each counter_incr tag_items (st_tags st) ;;
  let wc := computed_word_count e in
  Ok {| st_categories := categories';
        st_tags := tags';
        st_total_words := st_total_words st + wc;
        st_entries :=
          List.app (st_entries st)
            [{| entry_filename := filename e;
                entry_title := dict_get fm "title" (VStr "");
                entry_date := dict_get fm "date" (VStr "");
                entry_category := cat;
                entry_tags := dict_get fm "tags" (VList []);
                entry_word_count := wc;
                entry_reading_time := dict_get fm "reading_time" (VStr "");
                entry_portfolio_relevance :=
                  dict_get fm "portfolio_relevance" (VStr "") |}] |}.

(** [build_essays_index(essays)]; [today] is [date.today().isoformat()]. *)
Definition build_essays_index (today : string) (corpus : list essay_data)
  : result essays_index :=
  st <- for_each index_essay corpus
          {| st_categories := []; st_tags := []; st_total_words := 0;
             st_entries := [] |} ;;
  Ok {| version := "1.1";
        updated := today;
        generated_by := "essay-pipeline indexer v0.1.0";
        total_essays := Z.of_nat (List.length corpus);
        total_words := st_total_words st;
        categories := sorted_desc (st_categories st);
        tag_frequency := sorted_desc (st_tags st);
        essays := st_entries st |}.

Record xref_entry : Type := {
  xref_title : pyval;
  xref_related_repos : pyval;
  xref_tags : pyval;
  xref_category : pyval
}.

Record cross_references : Type := {
  xrefs_version : string;
  xrefs_updated : string;
  xrefs_total : Z;
  xrefs_entries : list (pykey * xref_entry)
}.

(** One turn of [for e in essays] in [build_cross_references]. *)
Definition xref_essay (refs : list (pykey * xref_entry)) (e : essay_data)
  : result (list (pykey * xref_entry)) :=
  fm <- as_dict (frontmatter e) ;;
  Ok (dict_set (KStr (filename e))
        {| xref_title := dict_get fm "title" (VStr "");
           xref_related_repos := dict_get fm "related_repos" (VList []);
           xref_tags := dict_get fm "tags" (VList []);
           xref_category := dict_get fm "category" (VStr "") |}
        refs).

(** [build_cross_references(essays)] *)
Definition build_cross_references (today : string) (corpus : list essay_data)
  : result cross_references :=
  refs <- for_each xref_essay corpus [] ;;
  Ok {| xrefs_version := "1.1";
        xrefs_updated := today;
        xrefs_total := Z.of_nat (List.length refs);
        xrefs_entries := refs |}.

Record publication_calendar : Type := {
  calendar_version : string;
  calendar_updated : string;
  calendar_total_essays : Z;
  calendar_dates : counter
}.

(** One turn of [for e in essays] in [build_publication_calendar]. *)
Definition calendar_essay (by_date : counter) (e : essay_data) : result counter :=
  fm <- as_dict (frontmatter e) ;;
  counter_incr by_date (dict_get fm "date" (VStr "unknown")).

(** [build_publication_calendar(essays)] *)
Definition build_publication_calendar (today : string) (corpus : list essay_data)
  : result publication_calendar :=
  by_date <- for_each calendar_essay corpus [] ;;
  dates <- sorted_items by_date ;;
  Ok {| calendar_version := "1.1";
        calendar_updated := today;
        calendar_total_essays := Z.of_nat (List.length corpus);
        calendar_dates := dates |}.

(* ------------------------------------------------------------------ *)
(** ** indexer.py: the files *)

(** The dicts the three functions return, as values. *)
Definition counter_value (c : counter) : pyval :=
  VDict (map (fun kv => (fst kv, VInt (snd kv))) c).

Definition entry_value (x : index_entry) : pyval :=
  VDict [(KStr "filename", VStr (entry_filename x));
         (KStr "title", entry_title x);
         (KStr "date", entry_date x);
         (KStr "category", entry_category x);
         (KStr "tags", entry_tags x);
         (KStr "word_count", VInt (entry_word_count x));
         (KStr "reading_time", entry_reading_time x);
         (KStr "portfolio_relevance", entry_portfolio_relevance x)].

Definition essays_index_value (index : essays_index) : pyval :=
  VDict [(KStr "version", VStr (version index));
         (KStr "updated", VStr (updated index));
         (KStr "generated_by", VStr (generated_by index));
         (KStr "total_essays", VInt (total_essays index));
         (KStr "total_words", VInt (total_words index));
         (KStr "categories", counter_value (categories index));
         (KStr "tag_frequency", counter_value (tag_frequency index));
         (KStr "essays", VList (map entry_value (essays index)))].

Definition xref_value (x : xref_entry) : pyval :=
  VDict [(KStr "title", xref_title x);
         (KStr "related_repos", xref_related_repos x);
         (KStr "tags", xref_tags x);
         (KStr "category", xref_category x)].

Definition cross_references_value (xrefs : cross_references) : pyval :=
  VDict [(KStr "version", VStr (xrefs_version xrefs));
         (KStr "updated", VStr (xrefs_updated xrefs));
         (KStr "total", VInt (xrefs_total xrefs));
         (KStr "entries",
          VDict (map (fun kx => (fst kx, xref_value (snd kx)))
                     (xrefs_entries xrefs)))].

Definition publication_calendar_value (calendar : publication_calendar) : pyval :=
  VDict [(KStr "version", VStr (calendar_version calendar));
         (KStr "updated", VStr (calendar_updated calendar));
         (KStr "total_essays", VInt (calendar_total_essays calendar));
         (KStr "dates", counter_value (calendar_dates calendar))].

(** The keys [json.dumps] accepts: [str], [int], [float], [bool] and [None]. *)
Definition json_key (k : pykey) : bool :=
  match k with
  | KTime _ => false
  | _ => true
  end.

(** The values [json.dumps] can serialise: no date and no datetime, neither
    as a value nor as a key. *)
Fixpoint json_serializable (v : pyval) : bool :=
  match v with
  | VTime _ => false
  | VList l => forallb json_serializable l
  | VDict d => forallb (fun kv => json_key (fst kv) && json_serializable (snd kv)) d
  | _ => true
  end.

(** [json.dumps(v, indent=2, ensure_ascii=False)], as far as it can fail. *)
Definition json_dumps (v : pyval) : result unit :=
  if json_serializable v then Ok tt else Raise TypeError.

(** What [index_all] returns. *)
Record index_summary : Type := {
  summary_essays : Z;
  summary_categories : Z;
  summary_total_words : Z
}.

(** What a run of [index_all] that returns leaves behind: the content of the
    three files it writes (before [json.dumps]) and the summary it returns.
    Of a run that raises the model keeps the exception, not the directory and
    the files made by then. *)
Record index_run : Type := {
  essays_index_json : essays_index;
  cross_references_json : cross_references;
  publication_calendar_json : publication_calendar;
  summary : index_summary
}.

(** The loop of [index_all] that collects the essays: [data] is [None] or a
    dict with three keys, which is true.  The first extraction that raises
    ends it. *)
Fixpoint collect_essays (posts : list (string * string))
  : result (list essay_data) :=
  match posts with
  | [] => Ok []
  | p :: posts' =>
      data <- extract_essay_data (fst p) (snd p) ;;
      essays <- collect_essays posts' ;;
      Ok (match data with
          | Some d => d :: essays
          | None => essays
          end)
  end.

(** [index_all(posts_dir, output_dir)]; [posts] is the sorted result of the
    glob.  The three structures are built before the first file is written;
    [json.dumps] raises on a date or datetime. *)
Definition index_all (today : string) (posts : list (string * string))
  : result index_run :=
  corpus <- collect_essays posts ;;
  index <- build_essays_index today corpus ;;
  xrefs <- build_cross_references today corpus ;;
  calendar <- build_publication_calendar today corpus ;;
  _ <- json_dumps (essays_index_value index) ;;
  _ <- json_dumps (cross_references_value xrefs) ;;
  _ <- json_dumps (publication_calendar_value calendar) ;;
  Ok {| essays_index_json := index;
        cross_references_json := xrefs;
        publication_calendar_json := calendar;
        summary :=
          {| summary_essays := Z.of_nat (List.length corpus);
             summary_categories := Z.of_nat (List.length (categories index));
             summary_total_words := total_words index |} |}.

(* ------------------------------------------------------------------ *)
(** ** validator.py: the command *)

(** The end of a printed line. *)
Definition eol : string := String "010" EmptyString.

(** [main] of validator.py, after the arguments are parsed: what it prints and
    the status it exits with.  [posts] is what both globs of the directory
    give. *)
Definition validator_main (posts_dir : string) (schema_file : option string)
           (posts : list (string * string)) : result (string * Z) :=
  errors <- validate_all posts_dir schema_file posts ;;
  match errors with
  | _ :: _ =>
      Ok ("FAILED — " ++ str_of_Z (Z.of_nat (List.length errors)) ++ " error(s):"
            ++ eol ++ eol
            ++ String.concat EmptyString (map (fun err => "  " ++ err ++ eol) errors),
          1)
  | [] =>
      let posts_count := Z.of_nat (List.length posts) in
      Ok ("PASSED — " ++ str_of_Z posts_count ++ " essays validated, 0 errors" ++ eol,
          0)
  end.

End Pipeline.

(* ------------------------------------------------------------------ *)
(** ** Sample library behaviour, for concrete runs *)

Module Sample.

(** The texts the concrete runs below hand to the YAML loader, with what
    PyYAML makes of each: a value, or [ValueError] for the block whose date is
    the 30th of February; any other text is outside this table and is given
    [yaml.YAMLError]. *)
Definition essay_block : string :=
  String "010" ("title: T" ++ String "010" ("category: meta-system"
    ++ String "010" ("tags: [governance, ai]" ++ String "010" ""))).

Definition essay_fm : pyval :=
  VDict [(KStr "title", VStr "T");
         (KStr "category", VStr "meta-system");
         (KStr "tags", VList [VStr "governance"; VStr "ai"])].

Definition schema_text : string :=
  "required_fields: {title: {type: string, min_length: 1}, tags: {type: list, min_items: 2}}".

Definition schema : pyval :=
  VDict [(KStr "required_fields",
          VDict [(KStr "title",
                  VDict [(KStr "type", VStr "string"); (KStr "min_length", VInt 1)]);
                 (KStr "tags",
                  VDict [(KStr "type", VStr "list"); (KStr "min_items", VInt 2)])])].

Definition nl : string := String "010" "".

Definition safe_load (text : string) : result pyval :=
  if String.eqb text essay_block then Ok essay_fm
  else if String.eqb text schema_text then Ok schema
  else if String.eqb text nl then Ok VNone
  else if String.eqb text (nl ++ "42" ++ nl) then Ok (VInt 42)
  else if String.eqb text (nl ++ "- title" ++ nl) then Ok (VList [VStr "title"])
  else if String.eqb text (nl ++ "date: 2024" ++ nl)
       then Ok (VDict [(KStr "date", VInt 2024)])
  else if String.eqb text (nl ++ "{}" ++ nl) then Ok (VDict [])
  else if String.eqb text (nl ++ "date: 2026-02-10" ++ nl)
       then Ok (VDict [(KStr "date", VTime (Date 2026 2 10))])
  else if String.eqb text (nl ++ "date: 2026-02-30" ++ nl) then Raise ValueError
  else Raise YAMLError.

(** [re.match] on the patterns of the concrete runs: [^@] asks for a leading
    [@]; any other pattern is outside this table and is given [re.error], as
    an unbalanced parenthesis would be. *)
Definition re_compile (pattern : string) : result (string -> bool) :=
  if String.eqb pattern "^@" then Ok (String.prefix "@")
  else Raise ReError.

(** [repr] of a [str] of printable ASCII characters without quotes or
    backslashes. *)
Definition repr_str (s : string) : string := "'" ++ s ++ "'".

(** [repr] of the floats of the concrete runs: 2.5 and 3.0; any other float
    is outside this table. *)
Definition repr_float (f : pyfloat) : string :=
  match f with
  | FNum false 5 (-1) => "2.5"
  | FNum false 3 0 => "3.0"
  | _ => "nan"
  end.

Definition two_digits (n : Z) : string :=
  (if n <? 10 then "0" else "") ++ str_of_Z n.

(** The text of the dates of the concrete runs, which have years of four
    digits; a datetime is outside this table. *)
Definition time_text (as_repr : bool) (t : pytime) : string :=
  match t with
  | Date y m d =>
      if as_repr
      then "datetime.date(" ++ str_of_Z y ++ ", " ++ str_of_Z m ++ ", "
                            ++ str_of_Z d ++ ")"
      else str_of_Z y ++ "-" ++ two_digits m ++ "-" ++ two_digits d
  | DateTime _ _ => "datetime"
  end.

(** No concrete run sorts items with NaN among their keys. *)
Definition nan_sorted (c : counter) : counter := c.

Definition essay_text : string :=
  "---" ++ essay_block ++ "---" ++ nl ++ "# Heading" ++ nl
        ++ "Some *bold* words, see https://example.org/x for more." ++ nl.

(** A document whose metadata block is empty: PyYAML loads it as null. *)
Definition null_block_text : string := "---" ++ nl ++ "---" ++ nl ++ "Hello".

(** A document whose metadata block is the scalar 42. *)
Definition scalar_block_text : string :=
  "---" ++ nl ++ "42" ++ nl ++ "---" ++ nl ++ "Hello".

(** A document without metadata. *)
Definition bare_text : string := "Just plain markdown with no frontmatter.".

(** A document whose metadata block is never closed. *)
Definition unclosed_text : string := "---" ++ nl ++ "title: T" ++ nl.

(** A document whose metadata block is not YAML. *)
Definition broken_text : string := "---" ++ nl ++ "title: [" ++ nl ++ "---" ++ nl.

(** A document dated with a day that does not exist: the loader finds a
    timestamp and raises [ValueError] when it builds the date. *)
Definition bad_date_text : string :=
  "---" ++ nl ++ "date: 2026-02-30" ++ nl ++ "---" ++ nl ++ "Hello".

(** A document with an unquoted date, which loads as a [datetime.date]. *)
Definition dated_text : string :=
  "---" ++ nl ++ "date: 2026-02-10" ++ nl ++ "---" ++ nl ++ "Hello".


(** Field specifications with every bound at the value the runs use. *)
Definition string_spec : pydict :=
  [(KStr "type", VStr "string"); (KStr "min_length", VInt 3);
   (KStr "max_length", VInt 3); (KStr "pattern", VStr "^@")].

Definition integer_spec : pydict :=
  [(KStr "type", VStr "integer"); (KStr "min", VInt 500)].

Definition list_spec : pydict :=
  [(KStr "type", VStr "list"); (KStr "min_items", VInt 2);
   (KStr "max_items", VInt 2); (KStr "item_type", VStr "string")].

(** The posts of a small run: a valid essay, a file without metadata. *)
Definition posts : list (string * string) :=
  [("a.md", essay_text); ("bare.md", bare_text)].

(** Parsed essays with tags and categories that repeat. *)
Definition corpus : list essay_data :=
  [ {| filename := "a.md";
       frontmatter :=
         VDict [(KStr "category", VStr "meta"); (KStr "date", VStr "2026-02-10");
                (KStr "tags", VList [VStr "ai"; VStr "governance"])];
       computed_word_count := 120 |};
    {| filename := "b.md";
       frontmatter :=
         VDict [(KStr "date", VStr "2026-01-05");
                (KStr "tags", VList [VStr "governance"; VStr "art"; VStr "ai"])];
       computed_word_count := 80 |};
    {| filename := "c.md";
       frontmatter := VDict [(KStr "category", VStr "meta")];
       computed_word_count := 10 |};
    {| filename := "d.md";
       frontmatter :=
         VDict [(KStr "category", VStr "guide"); (KStr "date", VStr "2026-01-05")];
       computed_word_count := 10 |} ].

(** Two parsed essays, one dated with the integer 2024 (the YAML [date: 2024])
    and one without a date. *)
Definition mixed_corpus : list essay_data :=
  [ {| filename := "a.md";
       frontmatter := VDict [(KStr "date", VInt 2024)];
       computed_word_count := 1 |};
    {| filename := "b.md";
       frontmatter := VDict [];
       computed_word_count := 1 |} ].


(** Two parsed essays dated with integers (the YAML [date: 2024] and
    [date: 999]). *)
Definition numeric_corpus : list essay_data :=
  [ {| filename := "a.md";
       frontmatter := VDict [(KStr "date", VInt 2024)];
       computed_word_count := 1 |};
    {| filename := "b.md";
       frontmatter := VDict [(KStr "date", VInt 999)];
       computed_word_count := 1 |} ].


(** A document whose metadata are the empty mapping. *)
Definition empty_mapping_text : string := "---" ++ nl ++ "{}" ++ nl ++ "---" ++ nl.

(** A list specification that only declares string items. *)
Definition items_spec : pydict :=
  [(KStr "type", VStr "list"); (KStr "item_type", VStr "string")].

(** Two essays under one file name, and a third. *)
Definition renamed_corpus : list essay_data :=
  [ {| filename := "a.md";
       frontmatter := VDict [(KStr "title", VStr "first")];
       computed_word_count := 3 |};
    {| filename := "b.md";
       frontmatter := VDict [(KStr "title", VStr "other")];
       computed_word_count := 4 |};
    {| filename := "a.md";
       frontmatter := VDict [(KStr "title", VStr "second")];
       computed_word_count := 5 |} ].


(** Three essays with unquoted dates, which load as [datetime.date]. *)
Definition dated_corpus : list essay_data :=
  [ {| filename := "a.md";
       frontmatter := VDict [(KStr "date", VTime (Date 2026 2 10))];
       computed_word_count := 3 |};
    {| filename := "b.md";
       frontmatter := VDict [(KStr "date", VTime (Date 2026 1 5))];
       computed_word_count := 4 |};
    {| filename := "c.md";
       frontmatter := VDict [(KStr "date", VTime (Date 2026 2 10))];
       computed_word_count := 5 |} ].

End Sample.

(* ------------------------------------------------------------------ *)
(** * Specification vocabulary *)

Section Vocabulary.

Variable safe_load : string -> result pyval.
Variable re_compile : string -> result (string -> bool).

(** The second of the parts the text splits in, the metadata block. *)
Definition metadata_block (text : string) : string :=
  nth 1 (split_max "---" 2 text) EmptyString.

(** The three ways extraction fails: no opening delimiter, no closing
    delimiter, a block the YAML loader rejects with [yaml.YAMLError]. *)
Definition no_opening_delimiter (text : string) : bool :=
  negb (String.prefix "---" text).

Definition no_closing_delimiter (text : string) : bool :=
  (List.length (split_max "---" 2 text) <? 3)%nat.

Definition block_rejected (text : string) : bool :=
  match safe_load (metadata_block text) with
  | Raise YAMLError => true
  | _ => false
  end.

Definition extraction_fails (text : string) : bool :=
  no_opening_delimiter text || no_closing_delimiter text || block_rejected text.

(** ** Schemas the validator can apply *)

Definition is_number (v : pyval) : bool :=
  match v with
  | VInt _ | VBool _ | VFloat _ => true
  | _ => false
  end.

Definition is_container (v : pyval) : bool :=
  match v with
  | VList _ | VDict _ | VStr _ => true
  | _ => false
  end.

Definition compiles (v : pyval) : bool :=
  match v with
  | VStr p => is_ok (re_compile p)
  | _ => false
  end.

(** The constraint [k], when the specification has it, passes [check]. *)
Definition constraint_ok (check : pyval -> bool) (spec : pydict) (k : string) : bool :=
  match dict_lookup (KStr k) spec with
  | Some v => check v
  | None => true
  end.

(** A field specification whose constraints have the types their checks
    need: bounds are numbers, [enum] is a container, patterns compile. *)
Definition spec_well_formed (spec : pyval) : bool :=
  match spec with
  | VDict sp =>
      let field_type := dict_get sp "type" VNone in
      if is_str_lit field_type "string" then
        constraint_ok is_container sp "enum"
        && constraint_ok is_number sp "min_length"
        && constraint_ok is_number sp "max_length"
        && constraint_ok compiles sp "pattern"
      else if is_str_lit field_type "integer" then
        constraint_ok is_number sp "min"
      else if is_str_lit field_type "list" then
        constraint_ok is_number sp "min_items"
        && constraint_ok is_number sp "max_items"
        && (negb (truthy (dict_get sp "item_pattern" VNone))
            || compiles (dict_get sp "item_pattern" VNone))
      else true
  | _ => false
  end.

(** A schema whose [required_fields] is a mapping of such specifications. *)
Definition schema_well_formed (schema : pyval) : bool :=
  match schema with
  | VDict d =>
      match dict_lookup (KStr "required_fields") d with
      | Some (VDict fields) => forallb (fun kv => spec_well_formed (snd kv)) fields
      | _ => false
      end
  | _ => false
  end.

(** The metadata the validator is written for: a mapping, or none. *)
Definition mapping_or_none (fm : result pyval) : bool :=
  match fm with
  | Ok VNone | Ok (VDict _) => true
  | _ => false
  end.

End Vocabulary.

(** ** Views of an essay, as the indexer reads it *)

(** [hash] of every item, in order. *)
Fixpoint hash_each (items : list pyval) : result (list pykey) :=
  match items with
  | [] => Ok []
  | v :: vs =>
      match to_key v with
      | Some k => ks <- hash_each vs ;; Ok (k :: ks)
      | None => Raise TypeError
      end
  end.

(** The key an essay is counted under in [categories]. *)
Definition essay_category (e : essay_data) : result pykey :=
  fm <- as_dict (frontmatter e) ;;
  match to_key (dict_get fm "category" (VStr "uncategorized")) with
  | Some k => Ok k
  | None => Raise TypeError
  end.

(** The keys an essay adds to [tag_frequency], in order. *)
Definition essay_tags (e : essay_data) : result (list pykey) :=
  fm <- as_dict (frontmatter e) ;;
  items <- py_iter (dict_get fm "tags" (VList [])) ;;
  hash_each items.

(** The essays [build_essays_index] can count: the metadata is a mapping, the
    category is hashable, the tags can be iterated and are hashable. *)
Definition indexable (corpus : list essay_data) : bool :=
  forallb (fun e => is_ok (essay_category e) && is_ok (essay_tags e)) corpus.

(** The sequence of keys the loop counts, in the order it meets them. *)
Definition category_trace (corpus : list essay_data) : list pykey :=
  flat_map (fun e => match essay_category e with Ok k => [k] | Raise _ => [] end)
           corpus.

Definition tag_trace (corpus : list essay_data) : list pykey :=
  flat_map (fun e => match essay_tags e with Ok ks => ks | Raise _ => [] end)
           corpus.

(** The counter after counting a sequence of keys. *)
Definition count_from (c : counter) (ks : list pykey) : counter :=
  fold_left (fun acc k => counter_add k acc) ks c.

Definition count_keys (ks : list pykey) : counter := count_from [] ks.

Definition sum_counts (c : counter) : Z :=
  fold_right (fun kv acc => snd kv + acc) 0 c.

(** [len(tags)] of an essay, when [tags] is something one can iterate. *)
Definition tag_occurrences (e : essay_data) : Z :=
  match frontmatter e with
  | VDict fm =>
      match py_iter (dict_get fm "tags" (VList [])) with
      | Ok items => Z.of_nat (List.length items)
      | Raise _ => 0
      end
  | _ => 0
  end.

Definition total_tag_occurrences (corpus : list essay_data) : Z :=
  fold_right (fun e acc => tag_occurrences e + acc) 0 corpus.

(** The position of the first key equal to [k]; the length when there is
    none. *)
Fixpoint first_index (k : pykey) (ks : list pykey) : nat :=
  match ks with
  | [] => O
  | k' :: ks' => if key_eqb k k' then O else S (first_index k ks')
  end.

(** [k in ks] for a list of keys *)
Definition occurs (k : pykey) (ks : list pykey) : bool := existsb (key_eqb k) ks.

(** [a] holds a key the traversal [ks] met before the key of [b]. *)
Definition met_before (ks : list pykey) (a b : pykey * Z) : Prop :=
  (first_index (fst a) ks < first_index (fst b) ks)%nat.

(** The order of a frequency table: larger counts first, and among equal
    counts the key met first in the traversal [ks]. *)
Definition freq_order (ks : list pykey) (a b : pykey * Z) : Prop :=
  snd a > snd b
  \/ (snd a = snd b /\ (first_index (fst a) ks < first_index (fst b) ks)%nat).

(** [c[k]] of a [Counter]: 0 for a key it does not hold. *)
Definition counter_get (k : pykey) (c : counter) : Z :=
  match dict_lookup k c with
  | Some n => n
  | None => 0
  end.

(** The essays whose metadata is a mapping with a string, or nothing, under
    [date]. *)
Definition string_dated (e : essay_data) : bool :=
  match frontmatter e with
  | VDict fm =>
      match dict_get fm "date" (VStr "unknown") with
      | VStr _ => true
      | _ => false
      end
  | _ => false
  end.

(** The date such an essay is filed under. *)
Definition date_of (e : essay_data) : string :=
  match frontmatter e with
  | VDict fm =>
      match dict_get fm "date" (VStr "unknown") with
      | VStr d => d
      | _ => "unknown"
      end
  | _ => "unknown"
  end.

(** The number of essays filed under [d]. *)
Definition essays_on (d : string) (corpus : list essay_data) : Z :=
  Z.of_nat (List.length (filter (fun e => String.eqb d (date_of e)) corpus)).

(** An entry of a counter under a string. *)
Definition has_str_key (kv : pykey * Z) : Prop := exists s, fst kv = KStr s.

(** Two entries of a counter under different keys. *)
Definition other_key (x y : pykey * Z) : Prop := key_eqb (fst x) (fst y) = false.

(** Ascending order of date strings. *)
Definition date_before (a b : pykey * Z) : Prop :=
  match fst a, fst b with
  | KStr s, KStr t => String.ltb s t = true
  | _, _ => False
  end.

(** The run with another date in the three [updated] fields. *)
Definition restamp (today : string) (run : index_run) : index_run :=
  let index := essays_index_json run in
  let xrefs := cross_references_json run in
  let calendar := publication_calendar_json run in
  {| essays_index_json :=
       {| version := version index;
          updated := today;
          generated_by := generated_by index;
          total_essays := total_essays index;
          total_words := total_words index;
          categories := categories index;
          tag_frequency := tag_frequency index;
          essays := essays index |};
     cross_references_json :=
       {| xrefs_version := xrefs_version xrefs;
          xrefs_updated := today;
          xrefs_total := xrefs_total xrefs;
          xrefs_entries := xrefs_entries xrefs |};
     publication_calendar_json :=
       {| calendar_version := calendar_version calendar;
          calendar_updated := today;
          calendar_total_essays := calendar_total_essays calendar;
          calendar_dates := calendar_dates calendar |};
     summary := summary run |}.

Definition map_result {A B : Type} (f : A -> B) (r : result A) : result B :=
  match r with
  | Ok a => Ok (f a)
  | Raise e => Raise e
  end.

(** A field specification without one of its constraints. *)
Definition without (constraint : string) (spec : pydict) : pydict :=
  dict_remove (KStr constraint) spec.

(* ------------------------------------------------------------------ *)
(** * Vocabulary of the further properties *)

(** Every character of [s] passes [p]. *)
Fixpoint all_chars (p : ascii -> bool) (s : string) : bool :=
  match s with
  | EmptyString => true
  | String c s' => p c && all_chars p s'
  end.

(** White space or one of the markup characters the word count blanks. *)
Definition is_blank (c : ascii) : bool := is_space c || is_markup c.

(** No position of [s] starts a match of [https?://\S+]. *)
Fixpoint no_url (s : string) : bool :=
  negb (url_here s)
  && match s with
     | EmptyString => true
     | String _ s' => no_url s'
     end.

(** The number of tokens left once the markup characters are blanked and the
    URLs removed. *)
Definition token_count (s : string) : Z :=
  count_words false (sub_urls false (sub_markup s)).

(** [[f(x) for x in xs]] with an [f] that can raise: the first exception
    ends it. *)
Fixpoint map_m {X Y : Type} (f : X -> result Y) (xs : list X) : result (list Y) :=
  match xs with
  | [] => Ok []
  | x :: xs' => y <- f x ;; ys <- map_m f xs' ;; Ok (y :: ys)
  end.

Section FurtherVocabulary.

Variable safe_load : string -> result pyval.
Variable re_compile : string -> result (string -> bool).
Variable repr_str : string -> string.
Variable repr_float : pyfloat -> string.
Variable time_text : bool -> pytime -> string.

(** What one required field adds to the errors of a document. *)
Definition field_report (name : string) (fm : pyval) (item : pykey * pyval)
  : result (list string) :=
  validate_required re_compile repr_str repr_float time_text name fm [] item.

(** The error for a required field the metadata do not have. *)
Definition missing_field_error (name : string) (field_name : pykey) : string :=
  name ++ ": missing required field '" ++ py_str repr_str repr_float time_text (of_key field_name) ++ "'".

(** A required field that is present and gets no error. *)
Definition field_passes (fm : pydict) (item : pykey * pyval) : Prop :=
  exists value : pyval,
    dict_lookup (fst item) fm = Some value
    /\ validate_field re_compile repr_str repr_float time_text (fst item) value (snd item) = Ok [].

(** A document that gets no error. *)
Definition essay_passes (schema : pyval) (post : string * string) : Prop :=
  validate_essay safe_load re_compile repr_str repr_float time_text (fst post) (snd post) schema = Ok [].

End FurtherVocabulary.

(** Whether an essay is counted under the category [k]. *)
Definition in_category (k : pykey) (e : essay_data) : bool :=
  match essay_category e with
  | Ok k' => key_eqb k k'
  | Raise _ => false
  end.

(** How many times an essay uses the tag [k]. *)
Definition tag_uses (k : pykey) (e : essay_data) : Z :=
  match essay_tags e with
  | Ok ks => Z.of_nat (List.length (filter (key_eqb k) ks))
  | Raise _ => 0
  end.

(** The entry a count has in a frequency table: none when it is zero. *)
Definition table_entry (n : Z) : option Z := if n =? 0 then None else Some n.

(** What [build_cross_references] files an essay under, taken alone. *)
Definition essay_xref (e : essay_data) : option xref_entry :=
  match xref_essay [] e with
  | Ok ((_, x) :: _) => Some x
  | _ => None
  end.

(** The last essay of the corpus with the file name [name]. *)
Definition last_named (name : string) (corpus : list essay_data) : option essay_data :=
  find (fun e => String.eqb name (filename e)) (rev corpus).

(** The kinds of keys that [<] compares: it orders two keys of one kind and
    raises for two keys of different kinds. *)
Inductive key_kind : Type :=
| NumberKind
| StrKind
| DateKind
| NaiveKind
| AwareKind
| NoneKind.

Definition kind_of (k : pykey) : key_kind :=
  match view k with
  | AsNone => NoneKind
  | AsNumber _ => NumberKind
  | AsStr _ => StrKind
  | AsDate _ _ _ => DateKind
  | AsNaive _ => NaiveKind
  | AsAware _ => AwareKind
  end.

(** What an essay is filed under in the calendar. *)
Definition essay_date (e : essay_data) : result pykey :=
  fm <- as_dict (frontmatter e) ;;
  match to_key (dict_get fm "date" (VStr "unknown")) with
  | Some k => Ok k
  | None => Raise TypeError
  end.

(** The dates of the essays, one for each essay that has one. *)
Definition date_trace (corpus : list essay_data) : list pykey :=
  flat_map (fun e => match essay_date e with Ok k => [k] | Raise _ => [] end)
           corpus.

Section ExtractionVocabulary.

Variable safe_load : string -> result pyval.

(** The posts [index_all] keeps. *)
Definition extracts (post : string * string) : bool :=
  match extract_essay_data safe_load (fst post) (snd post) with
  | Ok (Some _) => true
  | _ => false
  end.

End ExtractionVocabulary.

(* ------------------------------------------------------------------ *)
(** * Properties *)

(** ** Equality of keys *)

Lemma num_eqb_refl (a : number) : num_eqb a a = true.
Proof.
  destruct a; simpl; try reflexivity. apply Qeq_bool_iff. apply Qeq_refl.
Qed.

Lemma num_eqb_sym (a b : number) : num_eqb a b = num_eqb b a.
Proof.
  destruct a as [| | p |], b as [| | q |]; simpl; try reflexivity.
  destruct (Qeq_bool p q) eqn:E1, (Qeq_bool q p) eqn:E2; try reflexivity.
  - apply Qeq_bool_iff, Qeq_sym, Qeq_bool_iff in E1. congruence.
  - apply Qeq_bool_iff, Qeq_sym, Qeq_bool_iff in E2. congruence.
Qed.

Lemma num_eqb_trans (a b c : number) :
  num_eqb a b = true -> num_eqb b c = true -> num_eqb a c = true.
Proof.
  destruct a as [| | p |], b as [| | q |], c as [| | r |]; simpl;
    try discriminate; try reflexivity.
  rewrite !Qeq_bool_iff. apply Qeq_trans.
Qed.

Lemma num_ltb_irrefl (a : number) : num_ltb a a = false.
Proof.
  destruct a as [| | q |]; simpl; try reflexivity.
  assert (E : Qcompare q q = Eq) by (apply Qeq_alt; apply Qeq_refl).
  now rewrite E.
Qed.

Lemma view_eqb_refl (a : key_view) : view_eqb a a = true.
Proof.
  destruct a; simpl; rewrite ?Z.eqb_refl; try reflexivity.
  - apply num_eqb_refl.
  - apply String.eqb_refl.
Qed.

Lemma view_eqb_sym (a b : key_view) : view_eqb a b = view_eqb b a.
Proof.
  destruct a, b; simpl; try reflexivity.
  - apply num_eqb_sym.
  - apply String.eqb_sym.
  - now rewrite (Z.eqb_sym year), (Z.eqb_sym month), (Z.eqb_sym day).
  - apply Z.eqb_sym.
  - apply Z.eqb_sym.
Qed.

Lemma view_eqb_trans (a b c : key_view) :
  view_eqb a b = true -> view_eqb b c = true -> view_eqb a c = true.
Proof.
  destruct a, b, c; simpl; try discriminate; try reflexivity.
  - apply num_eqb_trans.
  - rewrite !String.eqb_eq. congruence.
  - rewrite !andb_true_iff, !Z.eqb_eq. intuition congruence.
  - rewrite !Z.eqb_eq. congruence.
  - rewrite !Z.eqb_eq. congruence.
Qed.

Lemma key_eqb_refl (a : pykey) : key_eqb a a = true.
Proof. apply view_eqb_refl. Qed.

Lemma key_eqb_sym (a b : pykey) : key_eqb a b = key_eqb b a.
Proof. apply view_eqb_sym. Qed.

Lemma key_eqb_trans (a b c : pykey) :
  key_eqb a b = true -> key_eqb b c = true -> key_eqb a c = true.
Proof. apply view_eqb_trans. Qed.

(** Strings are equal as keys exactly when they are the same string. *)
Lemma key_eqb_str (s t : string) : key_eqb (KStr s) (KStr t) = String.eqb s t.
Proof. reflexivity. Qed.

Lemma key_eqb_str_inv (k : pykey) (s : string) :
  key_eqb k (KStr s) = true -> k = KStr s.
Proof.
  destruct k as [| b | z | t | f | [y m d | w [o |]]]; cbn; try discriminate.
  intro E. apply String.eqb_eq in E. now subst.
Qed.

Lemma key_eqb_congr (a b c : pykey) :
  key_eqb a b = true -> key_eqb a c = key_eqb b c.
Proof.
  intro H.
  destruct (key_eqb b c) eqn:E.
  - eapply key_eqb_trans; eassumption.
  - destruct (key_eqb a c) eqn:E'; [| reflexivity].
    rewrite key_eqb_sym in H.
    rewrite <- E. symmetry. eapply key_eqb_trans; eassumption.
Qed.

(** ** Dictionaries *)

Lemma dict_lookup_remove_same {V : Type} (k : pykey) (d : list (pykey * V)) :
  dict_lookup k (dict_remove k d) = None.
Proof.
  induction d as [| [k' v] d IH]; simpl; [reflexivity |].
  destruct (key_eqb k k') eqn:E; simpl; [exact IH | now rewrite E].
Qed.

Lemma dict_lookup_remove_other {V : Type} (k c : pykey) (d : list (pykey * V)) :
  key_eqb k c = false ->
  dict_lookup k (dict_remove c d) = dict_lookup k d.
Proof.
  intro N. induction d as [| [k' v] d IH]; simpl; [reflexivity |].
  destruct (key_eqb c k') eqn:E; simpl.
  - rewrite IH.
    assert (K : key_eqb k k' = false).
    { rewrite key_eqb_sym. rewrite <- (key_eqb_congr _ _ k E).
      now rewrite key_eqb_sym. }
    now rewrite K.
  - now rewrite IH.
Qed.

(** ** Loops *)

Lemma for_each_app {S X : Type} (step : S -> X -> result S) (xs ys : list X) (st : S) :
  for_each step (xs ++ ys)%list st = (st' <- for_each step xs st ;; for_each step ys st').
Proof.
  revert st. induction xs as [| x xs IH]; intro st; simpl.
  - reflexivity.
  - destruct (step st x); simpl; [apply IH | reflexivity].
Qed.

Section Properties.

Variable safe_load : string -> result pyval.
Variable re_compile : string -> result (string -> bool).
Variable repr_str : string -> string.
Variable repr_float : pyfloat -> string.
Variable time_text : bool -> pytime -> string.
Variable nan_sorted : counter -> counter.

(** ** Extraction *)

(** The two extractions agree up to the way they report: the validator's
    result is the indexer's metadata, or [None] when the indexer has none,
    and they raise the same exception. *)
Lemma extract_frontmatter_of_essay_data (name text : string) :
  extract_frontmatter safe_load text =
  match extract_essay_data safe_load name text with
  | Ok (Some data) => Ok (frontmatter data)
  | Ok None => Ok VNone
  | Raise e => Raise e
  end.
Proof.
  unfold extract_frontmatter, extract_essay_data.
  destruct (negb (String.prefix "---" text)); [reflexivity |].
  destruct (List.length (split_max "---" 2 text) <? 3)%nat; [reflexivity |].
  destruct (safe_load _) as [fm | e]; [reflexivity |].
  destruct e; reflexivity.
Qed.

Lemma extraction_fails_essay_data (name text : string) :
  extraction_fails safe_load text = true ->
  extract_essay_data safe_load name text = Ok None.
Proof.
  unfold extraction_fails, no_opening_delimiter, no_closing_delimiter,
    block_rejected, metadata_block, extract_essay_data.
  intro H.
  destruct (negb (String.prefix "---" text)); [reflexivity |].
  destruct (List.length (split_max "---" 2 text) <? 3)%nat; [reflexivity |].
  simpl in H. destruct (safe_load _) as [fm | e]; [discriminate |].
  destruct e; try discriminate. reflexivity.
Qed.

Lemma extraction_fails_frontmatter (text : string) :
  extraction_fails safe_load text = true ->
  extract_frontmatter safe_load text = Ok VNone.
Proof.
  intro H. rewrite (extract_frontmatter_of_essay_data EmptyString).
  now rewrite extraction_fails_essay_data.
Qed.

(** Extraction gives the "no metadata" outcome, [None], when the text does
    not start with [---], when splitting on [---] gives fewer than three
    parts, and when the loader rejects the block with [yaml.YAMLError], the
    exception the handler names. *)
Lemma extraction_none_cases (name text : string) :
  String.prefix "---" text = false
  \/ (List.length (split_max "---" 2 text) < 3)%nat
  \/ safe_load (nth 1 (split_max "---" 2 text) EmptyString) = Raise YAMLError ->
  extract_frontmatter safe_load text = Ok VNone
  /\ extract_essay_data safe_load name text = Ok None.
Proof.
  intro H.
  assert (F : extraction_fails safe_load text = true).
  { unfold extraction_fails, no_opening_delimiter, no_closing_delimiter,
      block_rejected, metadata_block.
    destruct H as [H | [H | H]].
    - now rewrite H.
    - apply Nat.ltb_lt in H. rewrite H. apply orb_true_iff. left.
      apply orb_true_r.
    - rewrite H. apply orb_true_r. }
  split.
  - now apply extraction_fails_frontmatter.
  - now apply extraction_fails_essay_data.
Qed.

Lemma extraction_raises (name text : string) (e : exn) :
  String.prefix "---" text = true ->
  (3 <= List.length (split_max "---" 2 text))%nat ->
  safe_load (metadata_block text) = Raise e ->
  e <> YAMLError ->
  extract_essay_data safe_load name text = Raise e.
Proof.
  unfold metadata_block, extract_essay_data. intros P L Y N.
  rewrite P. cbn [negb].
  assert (L' : (List.length (split_max "---" 2 text) <? 3)%nat = false)
    by (apply Nat.ltb_ge; exact L).
  rewrite L', Y. destruct e; try reflexivity. contradiction.
Qed.

(** C4. Parsing the metadata block can fail with an exception that is not a
    [yaml.YAMLError], and the handler of the two extractions names only that
    class: on a text with both delimiters whose block makes the loader raise
    another exception, as [ValueError] for a date that names no day, neither
    the validator's [extract_frontmatter] nor the indexer's
    [extract_essay_data] returns [None]; both raise that exception. *)
Theorem loader_exception_escapes_extraction (name text : string) (e : exn) :
  String.prefix "---" text = true ->
  (3 <= List.length (split_max "---" 2 text))%nat ->
  safe_load (metadata_block text) = Raise e ->
  e <> YAMLError ->
  extract_frontmatter safe_load text = Raise e
  /\ extract_essay_data safe_load name text = Raise e.
Proof.
  intros P L Y N.
  pose proof (extraction_raises name text P L Y N) as E.
  split; [| exact E].
  rewrite (extract_frontmatter_of_essay_data name). now rewrite E.
Qed.

Lemma collect_essays_app (xs ys : list (string * string)) :
  collect_essays safe_load (xs ++ ys)
  = (a <- collect_essays safe_load xs ;;
     b <- collect_essays safe_load ys ;;
     Ok (a ++ b)%list).
Proof.
  induction xs as [| x xs IH]; simpl.
  - now destruct (collect_essays safe_load ys).
  - destruct (extract_essay_data safe_load (fst x) (snd x)) as [data | e];
      simpl; [| reflexivity].
    rewrite IH.
    destruct (collect_essays safe_load xs) as [a | e]; simpl; [| reflexivity].
    destruct (collect_essays safe_load ys) as [b | e]; simpl; [| reflexivity].
    now destruct data.
Qed.

(** ** Skipped documents *)

(** A document whose extraction fails the way the code foresees (no opening
    delimiter, no closing delimiter, or a block the loader rejects with
    [yaml.YAMLError]) is left out of the corpus the indexer works on: the
    collected essays, and so the whole result of [index_all], are those of
    the posts without it.  In validation it yields exactly the one error "no
    valid frontmatter found", whatever the schema. *)
Lemma caught_failure_is_skipped
      (name text today : string) (schema : pyval)
      (before after : list (string * string)) :
  extraction_fails safe_load text = true ->
  collect_essays safe_load (before ++ (name, text) :: after)
  = collect_essays safe_load (before ++ after)
  /\ index_all safe_load nan_sorted today (before ++ (name, text) :: after)
     = index_all safe_load nan_sorted today (before ++ after)
  /\ validate_essay safe_load re_compile repr_str repr_float time_text name text schema
     = Ok [name ++ ": no valid frontmatter found"].
Proof.
  intro F.
  assert (C : collect_essays safe_load (before ++ (name, text) :: after)
              = collect_essays safe_load (before ++ after)).
  { rewrite !collect_essays_app. simpl.
    rewrite (extraction_fails_essay_data name text F). simpl.
    destruct (collect_essays safe_load before); simpl; [| reflexivity].
    now destruct (collect_essays safe_load after). }
  split; [exact C |]. split.
  - unfold index_all. now rewrite C.
  - unfold validate_essay. now rewrite (extraction_fails_frontmatter text F).
Qed.

Lemma map_m_app {X Y : Type} (f : X -> result Y) (xs ys : list X) :
  map_m f (xs ++ ys)
  = (a <- map_m f xs ;; b <- map_m f ys ;; Ok (a ++ b)%list).
Proof.
  induction xs as [| x xs IH]; simpl.
  - now destruct (map_m f ys).
  - destruct (f x) as [y | e]; simpl; [| reflexivity].
    rewrite IH. destruct (map_m f xs) as [a | e]; simpl; [| reflexivity].
    now destruct (map_m f ys).
Qed.

(** A loop that appends to a list what each element reports, whatever the
    list holds, returns the list followed by the reports. *)
Lemma for_each_reports {X : Type} (report : X -> result (list string))
      (step : list string -> X -> result (list string)) :
  (forall acc x, step acc x = (r <- report x ;; Ok (List.app acc r))) ->
  forall (xs : list X) (acc : list string),
    for_each step xs acc
    = (rs <- map_m report xs ;; Ok (List.app acc (List.concat rs))).
Proof.
  intros H xs. induction xs as [| x xs IH]; intro acc; simpl.
  - now rewrite app_nil_r.
  - rewrite H. destruct (report x) as [r |]; simpl; [| reflexivity].
    rewrite IH. destruct (map_m report xs) as [rs |]; simpl; [| reflexivity].
    now rewrite app_assoc.
Qed.

Lemma validate_all_by_document
      (posts_dir : string) (schema_file : option string)
      (post : string * string) (posts : list (string * string)) :
  validate_all safe_load re_compile repr_str repr_float time_text posts_dir schema_file (post :: posts)
  = (schema <- load_schema safe_load schema_file ;;
     reports <- map_m (fun p => validate_essay safe_load re_compile repr_str repr_float time_text
                                               (fst p) (snd p) schema)
                      (post :: posts) ;;
     Ok (List.concat reports)).
Proof.
  unfold validate_all.
  destruct (load_schema safe_load schema_file) as [schema |]; [| reflexivity].
  cbn [bind].
  now rewrite (for_each_reports
                 (fun p => validate_essay safe_load re_compile repr_str repr_float time_text
                                          (fst p) (snd p) schema)).
Qed.

(** C2. A document with malformed or absent metadata is not always skipped.
    When the block of a delimited document makes the loader raise an
    exception that is no [yaml.YAMLError] ([ValueError] for a date that names
    no day), then, once the posts before it are read, [index_all] raises
    that exception, and once the schema is loaded and the posts before it
    validated, so does [validate_all]: the run stops at the document and
    neither indexes nor validates the posts after it.  When the block is
    empty and loads as null, validation reports "no valid frontmatter found"
    for the document but the indexer keeps it and raises [AttributeError]. *)
Theorem malformed_metadata_stops_the_run
        (name text today posts_dir : string) (schema_file : option string)
        (schema : pyval) (before after : list (string * string)) :
  String.prefix "---" text = true ->
  (3 <= List.length (split_max "---" 2 text))%nat ->
  (forall (e : exn) (essays : list essay_data) (reports : list (list string)),
      safe_load (metadata_block text) = Raise e ->
      e <> YAMLError ->
      collect_essays safe_load before = Ok essays ->
      load_schema safe_load schema_file = Ok schema ->
      map_m (fun p => validate_essay safe_load re_compile repr_str repr_float time_text
                        (fst p) (snd p) schema) before = Ok reports ->
      index_all safe_load nan_sorted today (before ++ (name, text) :: after) = Raise e
      /\ validate_essay safe_load re_compile repr_str repr_float time_text name text schema
         = Raise e
      /\ validate_all safe_load re_compile repr_str repr_float time_text posts_dir schema_file
           (before ++ (name, text) :: after) = Raise e)
  /\ (forall essays : list essay_data,
      safe_load (metadata_block text) = Ok VNone ->
      collect_essays safe_load after = Ok essays ->
      validate_essay safe_load re_compile repr_str repr_float time_text name text schema
      = Ok [name ++ ": no valid frontmatter found"]
      /\ index_all safe_load nan_sorted today ((name, text) :: after)
         = Raise AttributeError).
Proof.
  intros P L.
  assert (L' : (List.length (split_max "---" 2 text) <? 3)%nat = false)
    by (apply Nat.ltb_ge; exact L).
  split.
  - intros e essays reports Y N C S R.
    pose proof (extraction_raises name text P L Y N) as E.
    assert (V : validate_essay safe_load re_compile repr_str repr_float time_text name text schema
                = Raise e).
    { unfold validate_essay.
      rewrite (extract_frontmatter_of_essay_data name), E. reflexivity. }
    split; [| split; [exact V |]].
    + unfold index_all. rewrite collect_essays_app, C. simpl. now rewrite E.
    + destruct before as [| post before]; simpl app.
      * rewrite validate_all_by_document, S. simpl. now rewrite V.
      * change (post :: (before ++ (name, text) :: after)%list)
          with ((post :: before) ++ (name, text) :: after)%list.
        assert (A : forall xs : list (string * string),
                   validate_all safe_load re_compile repr_str repr_float time_text
                     posts_dir schema_file ((post :: before) ++ xs)
                   = validate_all safe_load re_compile repr_str repr_float time_text
                       posts_dir schema_file (post :: (before ++ xs))) by reflexivity.
        rewrite A, validate_all_by_document, S. cbn [bind].
        change (post :: (before ++ (name, text) :: after)%list)
          with ((post :: before) ++ (name, text) :: after)%list.
        rewrite map_m_app, R. simpl. now rewrite V.
  - intros essays Y C.
    assert (E : extract_essay_data safe_load name text
                = Ok (Some {| filename := name; frontmatter := VNone;
                              computed_word_count :=
                                word_count (nth 2 (split_max "---" 2 text)
                                                EmptyString) |})).
    { unfold extract_essay_data. unfold metadata_block in Y.
      rewrite P. cbn [negb]. now rewrite L', Y. }
    split.
    + unfold validate_essay.
      rewrite (extract_frontmatter_of_essay_data name), E. reflexivity.
    + unfold index_all. simpl. rewrite E. simpl. rewrite C. reflexivity.
Qed.

(** C3. The two extractions differ on a block that loads as YAML null: the
    validator's [extract_frontmatter] reports no metadata, and the document
    gets the "no valid frontmatter found" error, while the indexer's
    [extract_essay_data] returns a record whose metadata is null, which
    [index_all] keeps and then fails on. *)
Theorem null_block_splits_the_extractions (name today : string) (schema : pyval) :
  safe_load Sample.nl = Ok VNone ->
  extract_frontmatter safe_load Sample.null_block_text = Ok VNone
  /\ extract_essay_data safe_load name Sample.null_block_text
     = Ok (Some {| filename := name; frontmatter := VNone;
                   computed_word_count := 1 |})
  /\ validate_essay safe_load re_compile repr_str repr_float time_text name Sample.null_block_text schema
     = Ok [name ++ ": no valid frontmatter found"]
  /\ index_all safe_load nan_sorted today [(name, Sample.null_block_text)]
     = Raise AttributeError.
Proof.
  intro H.
  assert (E : extract_essay_data safe_load name Sample.null_block_text
              = Ok (Some {| filename := name; frontmatter := VNone;
                            computed_word_count := 1 |})).
  { vm_compute in H. unfold extract_essay_data. vm_compute. now rewrite H. }
  assert (V : extract_frontmatter safe_load Sample.null_block_text = Ok VNone).
  { rewrite (extract_frontmatter_of_essay_data name). now rewrite E. }
  repeat split.
  - exact V.
  - exact E.
  - unfold validate_essay. now rewrite V.
  - unfold index_all. simpl. rewrite E. reflexivity.
Qed.

(** ** Documents that stop the validation *)

(** C1. A block that loads as a scalar makes [validate_essay] raise: the
    membership test [field_name not in fm] has no meaning on the integer 42.
    [validate_all] lets the exception through, so the valid document that
    follows is never validated. *)
Theorem scalar_block_aborts_validation (posts_dir : string) (schema_file : option string) :
  safe_load (Sample.nl ++ "42" ++ Sample.nl) = Ok (VInt 42) ->
  safe_load Sample.essay_block = Ok Sample.essay_fm ->
  load_schema safe_load schema_file = Ok Sample.schema ->
  validate_essay safe_load re_compile repr_str repr_float time_text "a.md" Sample.scalar_block_text Sample.schema
  = Raise TypeError
  /\ validate_all safe_load re_compile repr_str repr_float time_text posts_dir schema_file
       [("b.md", Sample.essay_text)] = Ok []
  /\ validate_all safe_load re_compile repr_str repr_float time_text posts_dir schema_file
       [("a.md", Sample.scalar_block_text); ("b.md", Sample.essay_text)]
     = Raise TypeError.
Proof.
  intros H42 Hfm Hschema.
  assert (E1 : extract_frontmatter safe_load Sample.scalar_block_text = Ok (VInt 42)).
  { vm_compute in H42. unfold extract_frontmatter. vm_compute. now rewrite H42. }
  assert (E2 : extract_frontmatter safe_load Sample.essay_text = Ok Sample.essay_fm).
  { vm_compute in Hfm. unfold extract_frontmatter. vm_compute. now rewrite Hfm. }
  assert (V1 : validate_essay safe_load re_compile repr_str repr_float time_text "a.md"
                 Sample.scalar_block_text Sample.schema = Raise TypeError).
  { unfold validate_essay. rewrite E1. reflexivity. }
  assert (V2 : validate_essay safe_load re_compile repr_str repr_float time_text "b.md"
                 Sample.essay_text Sample.schema = Ok []).
  { unfold validate_essay. rewrite E2. reflexivity. }
  repeat split.
  - exact V1.
  - unfold validate_all. rewrite Hschema. simpl. unfold fst, snd. now rewrite V2.
  - unfold validate_all. rewrite Hschema. simpl. unfold fst, snd. now rewrite V1.
Qed.

(** ** Where validation returns *)

Lemma validate_items_returns (item_type item_pattern : pyval) (items : list pyval) :
  negb (truthy item_pattern) || compiles re_compile item_pattern = true ->
  forall (i : Z) (errors : list string),
    is_ok (validate_items re_compile repr_str repr_float time_text item_type item_pattern i items errors)
    = true.
Proof.
  intro W. induction items as [| item rest IH]; intros i errors; simpl; [reflexivity |].
  destruct (is_str_lit item_type "string" && negb (is_str item)); simpl;
    [apply IH |].
  destruct (truthy item_pattern) eqn:T; simpl; [| apply IH].
  simpl in W.
  destruct item; simpl; try apply IH.
  unfold py_re_match. unfold compiles in W.
  destruct item_pattern; try discriminate.
  destruct (re_compile s0); [| discriminate]. simpl. apply IH.
Qed.

Lemma bound_check_returns (n : Z) (spec : pydict) (k : string) :
  constraint_ok is_number spec k = true ->
  forall bound, dict_lookup (KStr k) spec = Some bound ->
    exists b b', int_lt n bound = Ok b /\ int_gt n bound = Ok b'.
Proof.
  unfold constraint_ok. intros W bound E. rewrite E in W.
  unfold int_lt, int_gt. destruct bound; try discriminate; simpl; eauto.
Qed.

(** [validate_field] returns on every value when the specification is well
    formed. *)
Lemma validate_field_returns (field_name : pykey) (value spec : pyval) :
  spec_well_formed re_compile spec = true ->
  is_ok (validate_field re_compile repr_str repr_float time_text field_name value spec) = true.
Proof.
  unfold spec_well_formed, validate_field.
  destruct spec as [| | | | | sp | |]; try discriminate. simpl.
  destruct (is_str_lit (dict_get sp "type" VNone) "string").
  { intro W. apply andb_true_iff in W. destruct W as [W Wp].
    apply andb_true_iff in W. destruct W as [W Wmax].
    apply andb_true_iff in W. destruct W as [We Wmin].
    destruct value as [| | | s | | | |]; try reflexivity.
    unfold validate_string.
    assert (R1 : exists e1, match dict_lookup (KStr "enum") sp with
                            | Some enum =>
                                found <- key_in (KStr s) enum ;;
                                Ok (if negb found
                                    then append_error []
                                           ("must be one of " ++ py_str repr_str repr_float time_text enum
                                              ++ ", got '" ++ s ++ "'")
                                    else [])
                            | None => Ok []
                            end = Ok e1).
    { unfold constraint_ok in We.
      destruct (dict_lookup (KStr "enum") sp) as [enum |]; [| eauto].
      destruct enum; try discriminate; simpl; eauto. }
    destruct R1 as [e1 ->]. cbn [bind].
    destruct (dict_lookup (KStr "min_length") sp) as [bound |] eqn:E2.
    - destruct (bound_check_returns (strlen s) _ _ Wmin E2) as (b & _ & -> & _).
      cbn [bind].
      destruct (dict_lookup (KStr "max_length") sp) as [bound' |] eqn:E3.
      + destruct (bound_check_returns (strlen s) _ _ Wmax E3) as (_ & b' & _ & ->).
        cbn [bind]. unfold constraint_ok in Wp.
        destruct (dict_lookup (KStr "pattern") sp) as [pattern |]; [| reflexivity].
        unfold py_re_match. unfold compiles in Wp.
        destruct pattern; try discriminate.
        destruct (re_compile s0); [reflexivity | discriminate].
      + cbn [bind]. unfold constraint_ok in Wp.
        destruct (dict_lookup (KStr "pattern") sp) as [pattern |]; [| reflexivity].
        unfold py_re_match. unfold compiles in Wp.
        destruct pattern; try discriminate.
        destruct (re_compile s0); [reflexivity | discriminate].
    - cbn [bind].
      destruct (dict_lookup (KStr "max_length") sp) as [bound' |] eqn:E3.
      + destruct (bound_check_returns (strlen s) _ _ Wmax E3) as (_ & b' & _ & ->).
        cbn [bind]. unfold constraint_ok in Wp.
        destruct (dict_lookup (KStr "pattern") sp) as [pattern |]; [| reflexivity].
        unfold py_re_match. unfold compiles in Wp.
        destruct pattern; try discriminate.
        destruct (re_compile s0); [reflexivity | discriminate].
      + cbn [bind]. unfold constraint_ok in Wp.
        destruct (dict_lookup (KStr "pattern") sp) as [pattern |]; [| reflexivity].
        unfold py_re_match. unfold compiles in Wp.
        destruct pattern; try discriminate.
        destruct (re_compile s0); [reflexivity | discriminate]. }
  destruct (is_str_lit (dict_get sp "type" VNone) "integer").
  { intro W. destruct value as [| | z | | | | |]; try reflexivity.
    unfold validate_integer.
    destruct (dict_lookup (KStr "min") sp) as [bound |] eqn:E; [| reflexivity].
    destruct (bound_check_returns z _ _ W E) as (b & _ & -> & _). reflexivity. }
  destruct (is_str_lit (dict_get sp "type" VNone) "list"); [| reflexivity].
  intro W. apply andb_true_iff in W. destruct W as [W Wp].
  apply andb_true_iff in W. destruct W as [Wmin Wmax].
  destruct value as [| | | | l | | |]; try reflexivity.
  unfold validate_list.
  destruct (dict_lookup (KStr "min_items") sp) as [bound |] eqn:E2.
  - destruct (bound_check_returns (Z.of_nat (List.length l)) _ _ Wmin E2)
      as (b & _ & -> & _).
    cbn [bind].
    destruct (dict_lookup (KStr "max_items") sp) as [bound' |] eqn:E3.
    + destruct (bound_check_returns (Z.of_nat (List.length l)) _ _ Wmax E3)
        as (_ & b' & _ & ->).
      cbn [bind]. now apply validate_items_returns.
    + cbn [bind]. now apply validate_items_returns.
  - cbn [bind].
    destruct (dict_lookup (KStr "max_items") sp) as [bound' |] eqn:E3.
    + destruct (bound_check_returns (Z.of_nat (List.length l)) _ _ Wmax E3)
        as (_ & b' & _ & ->).
      cbn [bind]. now apply validate_items_returns.
    + cbn [bind]. now apply validate_items_returns.
Qed.

Lemma dict_mem_getitem (k : pykey) (d : pydict) :
  dict_mem k d = true -> exists v, py_getitem (VDict d) k = Ok v.
Proof.
  unfold dict_mem, py_getitem.
  destruct (dict_lookup k d) as [v |]; [eauto | discriminate].
Qed.

Lemma validate_fields_return (name : string) (fm : pydict) (fields : pydict) :
  forallb (fun kv => spec_well_formed re_compile (snd kv)) fields = true ->
  forall errors : list string,
    is_ok (for_each (validate_required re_compile repr_str repr_float time_text name (VDict fm))
                    fields errors) = true.
Proof.
  induction fields as [| [field_name spec] fields IH]; intros W errors; simpl;
    [reflexivity |].
  simpl in W. apply andb_true_iff in W. destruct W as [Ws Wf].
  destruct (dict_mem field_name fm) eqn:M; simpl.
  - destruct (dict_mem_getitem _ _ M) as [value G]. simpl in G. rewrite G. simpl.
    pose proof (validate_field_returns field_name value spec Ws) as V.
    destruct (validate_field re_compile repr_str repr_float time_text field_name value spec);
      [| discriminate].
    simpl. now apply IH.
  - now apply IH.
Qed.

(** With a well-formed schema, [validate_essay] returns a list of errors on
    every document whose metadata is a mapping or that has none. *)
Lemma validate_essay_returns (name text : string) (schema : pyval) :
  schema_well_formed re_compile schema = true ->
  mapping_or_none (extract_frontmatter safe_load text) = true ->
  is_ok (validate_essay safe_load re_compile repr_str repr_float time_text name text schema) = true.
Proof.
  unfold schema_well_formed, validate_essay. intros W M.
  destruct (extract_frontmatter safe_load text) as [[| | | | | fm | |] | e];
    try discriminate; [reflexivity |].
  destruct schema as [| | | | | d | |]; try discriminate. simpl.
  destruct (dict_lookup (KStr "required_fields") d) as [required |];
    [| discriminate].
  destruct required as [| | | | | fields | |]; try discriminate. simpl.
  now apply validate_fields_return.
Qed.

(** With a schema that loads and is well formed, [validate_all] returns on
    every corpus of such documents: the errors accumulate. *)
Lemma validate_all_returns (posts_dir : string) (schema_file : option string)
      (schema : pyval) (posts : list (string * string)) :
  load_schema safe_load schema_file = Ok schema ->
  schema_well_formed re_compile schema = true ->
  forallb (fun p => mapping_or_none (extract_frontmatter safe_load (snd p))) posts
  = true ->
  is_ok (validate_all safe_load re_compile repr_str repr_float time_text posts_dir schema_file posts)
  = true.
Proof.
  intros L W M. unfold validate_all. rewrite L. cbn [bind].
  destruct posts as [| p posts]; [reflexivity |].
  generalize (@nil string) as all_errors.
  revert M. generalize (p :: posts) as ps. clear p posts.
  induction ps as [| p ps IH]; intros M all_errors; simpl; [reflexivity |].
  simpl in M. apply andb_true_iff in M. destruct M as [Mp Mps].
  pose proof (validate_essay_returns (fst p) (snd p) schema W Mp) as V.
  destruct (validate_essay safe_load re_compile repr_str repr_float time_text (fst p) (snd p) schema);
    [| discriminate].
  simpl. now apply IH.
Qed.

(** ** Field validation *)

(** C5. Against a specification of type [integer], a boolean gets exactly the
    one error "expected integer, got bool", whatever else the specification
    holds: the minimum is not looked at. *)
Theorem boolean_is_not_an_integer (field_name : pykey) (b : bool) (spec : pydict) :
  dict_lookup (KStr "type") spec = Some (VStr "integer") ->
  validate_field re_compile repr_str repr_float time_text field_name (VBool b) (VDict spec)
  = Ok ["expected integer, got bool"].
Proof.
  intro H. unfold validate_field, dict_get. simpl. rewrite H. reflexivity.
Qed.

Ltac forget_constraint :=
  unfold without;
  repeat match goal with
         | |- context [dict_lookup ?k (dict_remove ?c ?d)] =>
             first [ rewrite (@dict_lookup_remove_other _ k c d) by reflexivity
                   | rewrite (@dict_lookup_remove_same _ c d) ]
         end.

(** C6. The bounds are inclusive: a constraint whose bound the value meets
    exactly has no effect on the result of [validate_field], which is the one
    for the specification without that constraint.  This holds for the
    minimum and maximum length of a string, the minimum of an integer and the
    minimum and maximum number of items of a list. *)
Theorem bounds_are_inclusive (field_name : pykey) (spec : pydict) :
  (forall s : string,
      dict_lookup (KStr "type") spec = Some (VStr "string") ->
      dict_lookup (KStr "min_length") spec = Some (VInt (strlen s)) ->
      validate_field re_compile repr_str repr_float time_text field_name (VStr s) (VDict spec)
      = validate_field re_compile repr_str repr_float time_text field_name (VStr s)
          (VDict (without "min_length" spec)))
  /\ (forall s : string,
      dict_lookup (KStr "type") spec = Some (VStr "string") ->
      dict_lookup (KStr "max_length") spec = Some (VInt (strlen s)) ->
      validate_field re_compile repr_str repr_float time_text field_name (VStr s) (VDict spec)
      = validate_field re_compile repr_str repr_float time_text field_name (VStr s)
          (VDict (without "max_length" spec)))
  /\ (forall z : Z,
      dict_lookup (KStr "type") spec = Some (VStr "integer") ->
      dict_lookup (KStr "min") spec = Some (VInt z) ->
      validate_field re_compile repr_str repr_float time_text field_name (VInt z) (VDict spec)
      = validate_field re_compile repr_str repr_float time_text field_name (VInt z)
          (VDict (without "min" spec)))
  /\ (forall l : list pyval,
      dict_lookup (KStr "type") spec = Some (VStr "list") ->
      dict_lookup (KStr "min_items") spec = Some (VInt (Z.of_nat (List.length l))) ->
      validate_field re_compile repr_str repr_float time_text field_name (VList l) (VDict spec)
      = validate_field re_compile repr_str repr_float time_text field_name (VList l)
          (VDict (without "min_items" spec)))
  /\ (forall l : list pyval,
      dict_lookup (KStr "type") spec = Some (VStr "list") ->
      dict_lookup (KStr "max_items") spec = Some (VInt (Z.of_nat (List.length l))) ->
      validate_field re_compile repr_str repr_float time_text field_name (VList l) (VDict spec)
      = validate_field re_compile repr_str repr_float time_text field_name (VList l)
          (VDict (without "max_items" spec))).
Proof.
  repeat split; intros v T B; unfold validate_field, dict_get; simpl;
    forget_constraint; rewrite T; simpl.
  - unfold validate_string. forget_constraint. rewrite B.
    unfold int_lt. cbn [as_number]. rewrite num_ltb_irrefl. reflexivity.
  - unfold validate_string. forget_constraint. rewrite B.
    unfold int_gt. cbn [as_number]. rewrite num_ltb_irrefl. reflexivity.
  - unfold validate_integer. forget_constraint. rewrite B.
    unfold int_lt. cbn [as_number]. rewrite num_ltb_irrefl. reflexivity.
  - unfold validate_list, dict_get. forget_constraint. rewrite B.
    unfold int_lt. cbn [as_number]. rewrite num_ltb_irrefl. reflexivity.
  - unfold validate_list, dict_get. forget_constraint. rewrite B.
    unfold int_gt. cbn [as_number]. rewrite num_ltb_irrefl. reflexivity.
Qed.

(** ** The empty corpus *)

(** C10. With no input file, and a schema that loads, [validate_all] returns
    exactly one error, the "No .md files found" message, which is not the
    empty list of the all-valid outcome; [index_all] returns normally and
    writes indexes of zero documents, with no category, tag, entry or date. *)
Theorem empty_corpus (posts_dir today : string) (schema_file : option string)
        (schema : pyval) :
  load_schema safe_load schema_file = Ok schema ->
  validate_all safe_load re_compile repr_str repr_float time_text posts_dir schema_file []
  = Ok ["No .md files found in " ++ posts_dir]
  /\ validate_all safe_load re_compile repr_str repr_float time_text posts_dir schema_file [] <> Ok []
  /\ exists run : index_run,
      index_all safe_load nan_sorted today [] = Ok run
      /\ total_essays (essays_index_json run) = 0
      /\ total_words (essays_index_json run) = 0
      /\ categories (essays_index_json run) = []
      /\ tag_frequency (essays_index_json run) = []
      /\ essays (essays_index_json run) = []
      /\ xrefs_total (cross_references_json run) = 0
      /\ xrefs_entries (cross_references_json run) = []
      /\ calendar_total_essays (publication_calendar_json run) = 0
      /\ calendar_dates (publication_calendar_json run) = []
      /\ summary_essays (summary run) = 0.
Proof.
  intro H. unfold validate_all. rewrite H. simpl.
  split; [reflexivity |]. split; [discriminate |].
  eexists. split; [reflexivity |]. repeat split.
Qed.

(** ** Counters *)

Lemma sum_counts_cons (x : pykey * Z) (c : counter) :
  sum_counts (x :: c) = snd x + sum_counts c.
Proof. reflexivity. Qed.

Lemma sum_counts_add (k : pykey) (c : counter) :
  sum_counts (counter_add k c) = sum_counts c + 1.
Proof.
  induction c as [| [k' n] c IH]; [reflexivity |].
  simpl counter_add. destruct (key_eqb k k').
  - rewrite !sum_counts_cons. simpl. lia.
  - rewrite !sum_counts_cons, IH. lia.
Qed.

Lemma count_from_app (c : counter) (ks ks' : list pykey) :
  count_from c (ks ++ ks') = count_from (count_from c ks) ks'.
Proof. unfold count_from. apply fold_left_app. Qed.

Lemma sum_counts_count_from (ks : list pykey) (c : counter) :
  sum_counts (count_from c ks) = sum_counts c + Z.of_nat (List.length ks).
Proof.
  revert c. induction ks as [| k ks IH]; intro c.
  - simpl. lia.
  - change (count_from c (k :: ks)) with (count_from (counter_add k c) ks).
    rewrite IH, sum_counts_add. simpl List.length. lia.
Qed.

Lemma sum_counts_insert_desc (x : pykey * Z) (l : counter) :
  sum_counts (insert_desc x l) = snd x + sum_counts l.
Proof.
  induction l as [| y l IH]; [reflexivity |].
  simpl insert_desc. destruct (- snd x <=? - snd y).
  - reflexivity.
  - rewrite !sum_counts_cons, IH. lia.
Qed.

Lemma sum_counts_sorted_desc (c : counter) :
  sum_counts (sorted_desc c) = sum_counts c.
Proof.
  induction c as [| x c IH]; [reflexivity |].
  simpl sorted_desc. now rewrite sum_counts_insert_desc, sum_counts_cons, IH.
Qed.

Lemma hash_each_length (items : list pyval) (ks : list pykey) :
  hash_each items = Ok ks -> List.length ks = List.length items.
Proof.
  revert ks. induction items as [| v vs IH]; intros ks H; simpl in H.
  - injection H as <-. reflexivity.
  - destruct (to_key v); [| discriminate].
    destruct (hash_each vs) as [ks' |]; [| discriminate].
    injection H as <-. simpl. now rewrite (IH ks').
Qed.

(** The loop [for tag in ...: tags[tag] += 1] counts the hashes of the items. *)
Lemma count_items (items : list pyval) (c : counter) :
  for_each counter_incr items c = (ks <- hash_each items ;; Ok (count_from c ks)).
Proof.
  revert c. induction items as [| v vs IH]; intro c; simpl; [reflexivity |].
  unfold counter_incr at 1. destruct (to_key v) as [k |]; simpl; [| reflexivity].
  rewrite IH. destruct (hash_each vs); reflexivity.
Qed.

(** ** The essays index *)

Lemma index_essay_inv (st st' : index_state) (e : essay_data) :
  index_essay st e = Ok st' ->
  exists (k : pykey) (ks : list pykey),
    essay_category e = Ok k
    /\ essay_tags e = Ok ks
    /\ st_categories st' = counter_add k (st_categories st)
    /\ st_tags st' = count_from (st_tags st) ks
    /\ tag_occurrences e = Z.of_nat (List.length ks).
Proof.
  unfold index_essay, essay_category, essay_tags, tag_occurrences, counter_incr.
  destruct (frontmatter e) as [| | | | | fm | |]; simpl; try discriminate.
  destruct (to_key (dict_get fm "category" (VStr "uncategorized"))) as [k |];
    simpl; [| discriminate].
  destruct (py_iter (dict_get fm "tags" (VList []))) as [items |];
    simpl; [| discriminate].
  rewrite count_items.
  destruct (hash_each items) as [ks |] eqn:Hk; simpl; [| discriminate].
  intro H. injection H as <-. simpl.
  exists k, ks. rewrite (hash_each_length _ Hk). repeat split.
Qed.

Lemma index_essay_total (st : index_state) (e : essay_data) :
  is_ok (essay_category e) && is_ok (essay_tags e) = true ->
  exists st' : index_state, index_essay st e = Ok st'.
Proof.
  unfold index_essay, essay_category, essay_tags, counter_incr.
  destruct (frontmatter e) as [| | | | | fm | |]; simpl; try discriminate.
  destruct (to_key (dict_get fm "category" (VStr "uncategorized"))) as [k |];
    simpl; [| discriminate].
  destruct (py_iter (dict_get fm "tags" (VList []))) as [items |];
    simpl; [| discriminate].
  rewrite count_items.
  destruct (hash_each items) as [ks |]; simpl; [| discriminate].
  intros _. eexists. reflexivity.
Qed.

Lemma index_loop (corpus : list essay_data) :
  forall st st' : index_state,
    for_each index_essay corpus st = Ok st' ->
    st_categories st' = count_from (st_categories st) (category_trace corpus)
    /\ st_tags st' = count_from (st_tags st) (tag_trace corpus)
    /\ List.length (category_trace corpus) = List.length corpus
    /\ Z.of_nat (List.length (tag_trace corpus)) = total_tag_occurrences corpus
    /\ indexable corpus = true.
Proof.
  induction corpus as [| e corpus IH]; intros st st' H; simpl in H.
  - injection H as <-. repeat split.
  - destruct (index_essay st e) as [st1 |] eqn:E; simpl in H; [| discriminate].
    destruct (index_essay_inv _ _ E) as (k & ks & Hc & Ht & Ec & Et & Eo).
    destruct (IH _ _ H) as (Ic & It & Il & Io & Ix).
    unfold category_trace, tag_trace, indexable in *. simpl.
    rewrite Hc, Ht. simpl.
    repeat split.
    + now rewrite Ic, Ec.
    + now rewrite It, Et, count_from_app.
    + now rewrite Il.
    + rewrite length_app, Nat2Z.inj_add, Io, Eo. reflexivity.
    + exact Ix.
Qed.

Lemma index_loop_total (corpus : list essay_data) :
  indexable corpus = true ->
  forall st : index_state, exists st' : index_state,
      for_each index_essay corpus st = Ok st'.
Proof.
  unfold indexable.
  induction corpus as [| e corpus IH]; intros H st; simpl.
  - now exists st.
  - simpl in H. apply andb_true_iff in H. destruct H as [He Hc].
    destruct (index_essay_total st e He) as [st1 E]. rewrite E. simpl.
    now apply IH.
Qed.

(** [build_essays_index] returns exactly on the corpora of [indexable]. *)
Lemma build_essays_index_returns (today : string) (corpus : list essay_data) :
  is_ok (build_essays_index today corpus) = indexable corpus.
Proof.
  unfold build_essays_index.
  destruct (indexable corpus) eqn:X.
  - destruct (index_loop_total corpus X
                {| st_categories := []; st_tags := []; st_total_words := 0;
                   st_entries := [] |}) as [st' E].
    now rewrite E.
  - destruct (for_each index_essay corpus _) as [st' |] eqn:E; [| reflexivity].
    apply index_loop in E. destruct E as (_ & _ & _ & _ & E). congruence.
Qed.

Lemma tag_occurrences_list (e : essay_data) (fm : pydict) (tags : list pyval) :
  frontmatter e = VDict fm ->
  dict_get fm "tags" (VList []) = VList tags ->
  tag_occurrences e = Z.of_nat (List.length tags).
Proof.
  intros F T. unfold tag_occurrences. now rewrite F, T.
Qed.

(** C7. In every essays index [build_essays_index] produces, the category
    counts (with "uncategorized" for an absent category) sum to
    [total_essays], the number of documents, and the tag counts sum to the
    number of tag occurrences over the documents.  It produces one on every
    corpus it can count: the metadata are mappings, the categories hashable,
    the tags iterable and hashable. *)
Theorem frequency_tables_sum (today : string) (corpus : list essay_data) :
  (indexable corpus = true ->
   exists index : essays_index, build_essays_index today corpus = Ok index)
  /\ forall index : essays_index,
      build_essays_index today corpus = Ok index ->
      total_essays index = Z.of_nat (List.length corpus)
      /\ sum_counts (categories index) = total_essays index
      /\ sum_counts (tag_frequency index) = total_tag_occurrences corpus.
Proof.
  split.
  - intro X. pose proof (build_essays_index_returns today corpus) as R.
    rewrite X in R.
    destruct (build_essays_index today corpus) as [index |]; [| discriminate].
    now exists index.
  - unfold build_essays_index. intros index H.
    destruct (for_each index_essay corpus _) as [st |] eqn:E; simpl in H;
      [| discriminate].
    injection H as <-. simpl.
    destruct (index_loop _ _ E) as (Ic & It & Il & Io & _). simpl in Ic, It.
    rewrite !sum_counts_sorted_desc, Ic, It, !sum_counts_count_from.
    simpl. rewrite Il, Io. repeat split.
Qed.

(** ** Order of the frequency tables *)

Lemma StronglySorted_weaken {A : Type} (R R' : A -> A -> Prop) (l : list A) :
  StronglySorted R l ->
  (forall a b, In a l -> In b l -> R a b -> R' a b) ->
  StronglySorted R' l.
Proof.
  induction 1 as [| a l S IH F]; intro W; constructor.
  - apply IH. intros x y Hx Hy. apply W; now right.
  - rewrite Forall_forall in *. intros x Hx.
    apply W; [now left | now right | now apply F].
Qed.

Lemma StronglySorted_snoc {A : Type} (R : A -> A -> Prop) (l : list A) (x : A) :
  StronglySorted R l ->
  Forall (fun a => R a x) l ->
  StronglySorted R (l ++ [x]).
Proof.
  induction 1 as [| a l S IH F]; intro H; simpl.
  - repeat constructor.
  - inversion H as [| ? ? Ha Hl]; subst.
    constructor; [now apply IH |].
    apply Forall_app. split; [exact F | now constructor].
Qed.

Lemma StronglySorted_map_inv {A B : Type} (f : A -> B) (R : B -> B -> Prop)
      (l : list A) :
  StronglySorted R (map f l) ->
  StronglySorted (fun a b => R (f a) (f b)) l.
Proof.
  induction l as [| a l IH]; simpl; intro H; [constructor |].
  inversion H as [| ? ? S F]; subst.
  constructor; [now apply IH |].
  rewrite Forall_map in F. exact F.
Qed.

Lemma first_index_congr (a b : pykey) (ks : list pykey) :
  key_eqb a b = true -> first_index a ks = first_index b ks.
Proof.
  intro E. induction ks as [| k ks IH]; simpl; [reflexivity |].
  rewrite (key_eqb_congr _ _ k E). now rewrite IH.
Qed.

Lemma occurs_congr (a b : pykey) (ks : list pykey) :
  key_eqb a b = true -> occurs a ks = occurs b ks.
Proof.
  intro E. unfold occurs. induction ks as [| k ks IH]; simpl; [reflexivity |].
  rewrite (key_eqb_congr _ _ k E). now rewrite IH.
Qed.

Lemma first_index_app_in (k : pykey) (p q : list pykey) :
  occurs k p = true -> first_index k (p ++ q) = first_index k p.
Proof.
  unfold occurs. induction p as [| k' p IH]; simpl; [discriminate |].
  destruct (key_eqb k k'); simpl; [reflexivity |].
  intro H. now rewrite IH.
Qed.

Lemma first_index_app_out (k : pykey) (p q : list pykey) :
  occurs k p = false ->
  first_index k (p ++ q) = (List.length p + first_index k q)%nat.
Proof.
  unfold occurs. induction p as [| k' p IH]; simpl; [reflexivity |].
  destruct (key_eqb k k'); simpl; [discriminate |].
  intro H. now rewrite IH.
Qed.

Lemma first_index_in (k : pykey) (p : list pykey) :
  occurs k p = true -> (first_index k p < List.length p)%nat.
Proof.
  unfold occurs. induction p as [| k' p IH]; simpl; [discriminate |].
  destruct (key_eqb k k'); simpl; [lia |].
  intro H. apply IH in H. lia.
Qed.

Lemma keys_counter_add (k : pykey) (c : counter) :
  map fst (counter_add k c)
  = if occurs k (map fst c) then map fst c else (map fst c ++ [k])%list.
Proof.
  unfold occurs. induction c as [| [k' n] c IH]; simpl; [reflexivity |].
  destruct (key_eqb k k'); simpl; [reflexivity |].
  rewrite IH. now destruct (existsb (key_eqb k) (map fst c)).
Qed.

(** The keys of a counter stand in the order in which the traversal met them
    first. *)
Lemma count_keys_first_occurrence (ks : list pykey) :
  StronglySorted (fun a b => (first_index a ks < first_index b ks)%nat)
                 (map fst (count_keys ks))
  /\ Forall (fun a => occurs a ks = true) (map fst (count_keys ks))
  /\ (forall k, occurs k ks = true -> occurs k (map fst (count_keys ks)) = true).
Proof.
  induction ks as [| k p (S & I & M)] using rev_ind.
  - simpl. repeat split; [constructor | constructor | discriminate].
  - unfold count_keys in *. rewrite count_from_app.
    change (count_from (count_from [] p) [k]) with (counter_add k (count_from [] p)).
    rewrite keys_counter_add.
    set (K := map fst (count_from [] p)) in *.
    assert (I' : Forall (fun a => occurs a (p ++ [k]) = true) K).
    { rewrite Forall_forall in *. intros a Ha. unfold occurs.
      rewrite existsb_app. apply orb_true_iff. left. now apply I. }
    assert (S' : StronglySorted
                   (fun a b => (first_index a (p ++ [k]) < first_index b (p ++ [k]))%nat) K).
    { eapply StronglySorted_weaken; [exact S |]. rewrite Forall_forall in I.
      intros a b Ha Hb. rewrite !first_index_app_in by now apply I. trivial. }
    destruct (occurs k K) eqn:E.
    + repeat split; [exact S' | exact I' |].
      intros x Hx. unfold occurs in Hx. rewrite existsb_app in Hx.
      apply orb_true_iff in Hx. destruct Hx as [Hx | Hx]; [now apply M |].
      simpl in Hx. rewrite orb_false_r in Hx.
      now rewrite (occurs_congr _ _ K Hx).
    + assert (N : occurs k p = false).
      { destruct (occurs k p) eqn:O; [| reflexivity].
        apply M in O. congruence. }
      repeat split.
      * apply StronglySorted_snoc; [exact S' |].
        rewrite Forall_forall in *. intros a Ha.
        rewrite (first_index_app_in a p [k]) by now apply I.
        rewrite (first_index_app_out k p [k] N). simpl.
        rewrite key_eqb_refl. specialize (I a Ha).
        apply first_index_in in I. lia.
      * apply Forall_app. split; [exact I' |]. constructor; [| constructor].
        unfold occurs. rewrite existsb_app. simpl. rewrite key_eqb_refl.
        now rewrite orb_true_r.
      * intros x Hx. unfold occurs in *. rewrite existsb_app in *.
        apply orb_true_iff in Hx. apply orb_true_iff.
        destruct Hx as [Hx | Hx]; [left; now apply M | right; exact Hx].
Qed.

Lemma Forall_insert_desc (P : pykey * Z -> Prop) (x : pykey * Z) (l : counter) :
  P x -> Forall P l -> Forall P (insert_desc x l).
Proof.
  intros Hx. induction 1 as [| y l Hy Hl IH]; simpl.
  - now repeat constructor.
  - destruct (- snd x <=? - snd y); repeat constructor; assumption.
Qed.

Lemma Forall_sorted_desc (P : pykey * Z -> Prop) (c : counter) :
  Forall P c -> Forall P (sorted_desc c).
Proof.
  induction 1 as [| x c Hx Hc IH]; simpl; [constructor |].
  now apply Forall_insert_desc.
Qed.

Section FrequencyOrder.

Variable ks : list pykey.

Lemma insert_desc_sorted (x : pykey * Z) (l : counter) :
  StronglySorted (freq_order ks) l ->
  Forall (met_before ks x) l ->
  StronglySorted (freq_order ks) (insert_desc x l).
Proof.
  induction 1 as [| y l S IH F]; intro B; simpl.
  - repeat constructor.
  - inversion B as [| ? ? Bxy Bl]; subst.
    destruct (- snd x <=? - snd y) eqn:C.
    + apply Z.leb_le in C. constructor; [now constructor |].
      constructor.
      * unfold freq_order. unfold met_before in Bxy. lia.
      * rewrite Forall_forall in *. intros z Hz.
        specialize (F z Hz). specialize (Bl z Hz).
        unfold freq_order, met_before in *. lia.
    + apply Z.leb_gt in C. constructor; [now apply IH |].
      apply Forall_insert_desc; [| exact F].
      unfold freq_order. lia.
Qed.

Lemma sorted_desc_sorted (c : counter) :
  StronglySorted (met_before ks) c ->
  StronglySorted (freq_order ks) (sorted_desc c).
Proof.
  induction 1 as [| x c S IH F]; simpl; [constructor |].
  apply insert_desc_sorted; [exact IH |].
  now apply Forall_sorted_desc.
Qed.

End FrequencyOrder.

(** A frequency table is in descending order of count, and keys with the
    same count are in the order of their first occurrence. *)
Lemma frequency_table_order (ks : list pykey) :
  StronglySorted (freq_order ks) (sorted_desc (count_keys ks)).
Proof.
  apply sorted_desc_sorted.
  apply StronglySorted_map_inv
    with (R := fun a b => (first_index a ks < first_index b ks)%nat).
  apply count_keys_first_occurrence.
Qed.

Lemma build_essays_index_tables (today : string) (corpus : list essay_data)
      (index : essays_index) :
  build_essays_index today corpus = Ok index ->
  categories index = sorted_desc (count_keys (category_trace corpus))
  /\ tag_frequency index = sorted_desc (count_keys (tag_trace corpus)).
Proof.
  unfold build_essays_index.
  destruct (for_each index_essay corpus _) as [st |] eqn:E; simpl; [| discriminate].
  intro H. injection H as <-. simpl.
  destruct (index_loop _ _ E) as (Ic & It & _). simpl in Ic, It.
  now rewrite Ic, It.
Qed.

(** C8. The date enters the output of the indexer through the [updated]
    fields only: the run for another date is the same run with those three
    fields changed (and a run that raises does so for every date).  The two
    frequency tables are in descending order of count, keys of equal count in
    the order in which the traversal of the corpus met them first. *)
Theorem index_run_function_of_corpus
        (today today' : string) (posts : list (string * string)) :
  index_all safe_load nan_sorted today' posts
  = map_result (restamp today') (index_all safe_load nan_sorted today posts)
  /\ forall run : index_run,
      index_all safe_load nan_sorted today posts = Ok run ->
      exists corpus : list essay_data,
        collect_essays safe_load posts = Ok corpus
        /\ StronglySorted (freq_order (category_trace corpus))
                          (categories (essays_index_json run))
        /\ StronglySorted (freq_order (tag_trace corpus))
                          (tag_frequency (essays_index_json run)).
Proof.
  split.
  - unfold index_all, build_essays_index, build_cross_references,
      build_publication_calendar.
    destruct (collect_essays safe_load posts) as [corpus |]; simpl; [| reflexivity].
    destruct (for_each index_essay _ _); simpl; [| reflexivity].
    destruct (for_each xref_essay _ _); simpl; [| reflexivity].
    destruct (for_each calendar_essay _ _); simpl; [| reflexivity].
    destruct (sorted_items _ _); simpl; [| reflexivity].
    unfold json_dumps. cbn.
    repeat match goal with
           | |- context [if ?b then _ else _] => destruct b; cbn; try reflexivity
           end.
  - intros run H. unfold index_all in H.
    destruct (collect_essays safe_load posts) as [corpus |]; simpl in H;
      [| discriminate].
    destruct (build_essays_index today _) as [index |] eqn:E; simpl in H;
      [| discriminate].
    destruct (build_cross_references today _); simpl in H; [| discriminate].
    destruct (build_publication_calendar nan_sorted today _); simpl in H;
      [| discriminate].
    destruct (json_dumps _); simpl in H; [| discriminate].
    destruct (json_dumps _); simpl in H; [| discriminate].
    destruct (json_dumps _); simpl in H; [| discriminate].
    injection H as <-. simpl. exists corpus. split; [reflexivity |].
    destruct (build_essays_index_tables _ _ E) as [-> ->].
    split; apply frequency_table_order.
Qed.

(** ** The publication calendar *)

Lemma string_ltb_trans (a b c : string) :
  String.ltb a b = true -> String.ltb b c = true -> String.ltb a c = true.
Proof.
  unfold String.ltb. intros H1 H2.
  destruct (String.compare a b) eqn:E1; try discriminate.
  destruct (String.compare b c) eqn:E2; try discriminate.
  apply String_as_OT.cmp_lt in E1, E2.
  pose proof (@String_as_OT.lt_trans a b c E1 E2) as L.
  apply String_as_OT.cmp_lt in L. unfold String_as_OT.cmp in L. now rewrite L.
Qed.

Lemma string_ltb_total (a b : string) :
  String.ltb a b = false -> a <> b -> String.ltb b a = true.
Proof.
  unfold String.ltb. intros H N.
  rewrite String.compare_antisym.
  destruct (String.compare a b) eqn:E; try discriminate.
  - apply String.compare_eq_iff in E. contradiction.
  - reflexivity.
Qed.

Lemma counter_get_add (k k' : pykey) (c : counter) :
  counter_get k (counter_add k' c)
  = counter_get k c + (if key_eqb k k' then 1 else 0).
Proof.
  unfold counter_get. induction c as [| [k2 n] c IH]; simpl.
  - destruct (key_eqb k k'); reflexivity.
  - destruct (key_eqb k' k2) eqn:E; simpl.
    + rewrite key_eqb_sym in E. rewrite (key_eqb_sym k k').
      rewrite <- (key_eqb_congr _ _ k E). rewrite (key_eqb_sym k2 k).
      destruct (key_eqb k k2); [reflexivity | lia].
    + destruct (key_eqb k k2) eqn:E2; [| exact IH].
      assert (N : key_eqb k k' = false).
      { rewrite (key_eqb_congr _ _ k' E2). now rewrite key_eqb_sym. }
      rewrite N. lia.
Qed.

Lemma counter_get_count_from (k : pykey) (ks : list pykey) (c : counter) :
  counter_get k (count_from c ks)
  = counter_get k c + Z.of_nat (List.length (filter (key_eqb k) ks)).
Proof.
  revert c. induction ks as [| k' ks IH]; intro c.
  - simpl. lia.
  - change (count_from c (k' :: ks)) with (count_from (counter_add k' c) ks).
    rewrite IH, counter_get_add. simpl.
    destruct (key_eqb k k'); simpl List.length; lia.
Qed.

Lemma counter_add_positive (k : pykey) (c : counter) :
  Forall (fun kv => 1 <= snd kv) c ->
  Forall (fun kv => 1 <= snd kv) (counter_add k c).
Proof.
  induction 1 as [| [k' n] c H F IH]; simpl.
  - repeat constructor. simpl. lia.
  - destruct (key_eqb k k'); constructor; simpl in *; try assumption. lia.
Qed.

Lemma count_from_positive (ks : list pykey) (c : counter) :
  Forall (fun kv => 1 <= snd kv) c ->
  Forall (fun kv => 1 <= snd kv) (count_from c ks).
Proof.
  revert c. induction ks as [| k ks IH]; intros c H; [exact H |].
  change (count_from c (k :: ks)) with (count_from (counter_add k c) ks).
  apply IH. now apply counter_add_positive.
Qed.

Lemma dict_lookup_positive (k : pykey) (c : counter) :
  Forall (fun kv => 1 <= snd kv) c ->
  dict_lookup k c
  = if counter_get k c =? 0 then None else Some (counter_get k c).
Proof.
  unfold counter_get. induction 1 as [| [k' n] c H F IH]; simpl; [reflexivity |].
  destruct (key_eqb k k'); [| exact IH].
  simpl in H. destruct (n =? 0) eqn:E; [| reflexivity].
  apply Z.eqb_eq in E. lia.
Qed.

(** The loop of [build_publication_calendar] on string dates. *)
Lemma calendar_loop (corpus : list essay_data) :
  forallb string_dated corpus = true ->
  forall c : counter,
    for_each calendar_essay corpus c
    = Ok (count_from c (map (fun e => KStr (date_of e)) corpus)).
Proof.
  induction corpus as [| e corpus IH]; intros H c; simpl; [reflexivity |].
  simpl in H. apply andb_true_iff in H. destruct H as [He Hc].
  unfold calendar_essay at 1, counter_incr. unfold string_dated in He.
  unfold date_of at 1.
  destruct (frontmatter e) as [| | | | | fm | |]; try discriminate. simpl.
  destruct (dict_get fm "date" (VStr "unknown")); try discriminate. simpl.
  now apply IH.
Qed.

Lemma insert_item_sorted (x : pykey * Z) (l : counter) :
  has_str_key x ->
  Forall has_str_key l ->
  Forall (other_key x) l ->
  StronglySorted date_before l ->
  exists l' : counter,
    insert_item x l = Ok l'
    /\ StronglySorted date_before l'
    /\ (forall Q : pykey * Z -> Prop, Q x -> Forall Q l -> Forall Q l')
    /\ (forall k, dict_lookup k l'
                  = if key_eqb k (fst x) then Some (snd x) else dict_lookup k l)
    /\ sum_counts l' = snd x + sum_counts l.
Proof.
  intros [s Hs]. induction l as [| y l IH]; intros K D S.
  - exists [x]. repeat split.
    + repeat constructor.
    + intros Q Hx _. now repeat constructor.
    + intro k. simpl. destruct x as [kx nx]. reflexivity.
  - inversion K as [| ? ? [t Ht] Kl]; subst.
    inversion D as [| ? ? Dy Dl]; subst.
    inversion S as [| ? ? Sl Fy]; subst.
    unfold other_key in Dy.
    assert (Nst : s <> t).
    { intro E. subst t. rewrite Hs, Ht, key_eqb_refl in Dy. discriminate. }
    assert (Lt : item_lt y x = Ok (String.ltb t s)).
    { unfold item_lt. rewrite key_eqb_sym, Dy, Hs, Ht. reflexivity. }
    simpl. rewrite Lt. simpl.
    destruct (String.ltb t s) eqn:L.
    + destruct (IH Kl Dl Sl) as (l' & E & S' & Q' & G' & U').
      rewrite E. simpl. exists (y :: l'). repeat split.
      * constructor; [exact S' |].
        apply Q'; [| exact Fy].
        unfold date_before. now rewrite Hs, Ht.
      * intros Q Hx HQ. inversion HQ; subst. constructor; [assumption |].
        now apply Q'.
      * intro k. destruct y as [ky ny]. simpl in *. rewrite G'.
        destruct (key_eqb k ky) eqn:Ey; [| reflexivity].
        assert (N : key_eqb k (fst x) = false).
        { rewrite (key_eqb_congr _ _ (fst x) Ey). now rewrite key_eqb_sym. }
        now rewrite N.
      * rewrite !sum_counts_cons, U'. lia.
    + exists (x :: y :: l). repeat split.
      * assert (Lst : String.ltb s t = true) by (apply string_ltb_total; auto).
        constructor; [exact S |].
        constructor.
        -- unfold date_before. now rewrite Hs, Ht.
        -- rewrite Forall_forall in *. intros z Hz.
           specialize (Fy z Hz). unfold date_before in *.
           rewrite Hs. rewrite Ht in Fy.
           destruct (fst z); try contradiction.
           eapply string_ltb_trans; eassumption.
      * intros Q Hx HQ. now constructor.
      * intro k. destruct x as [kx nx]. reflexivity.
Qed.

Lemma insertion_sorted_sorted (c : counter) :
  Forall has_str_key c ->
  StronglySorted other_key c ->
  exists l : counter,
    insertion_sorted c = Ok l
    /\ StronglySorted date_before l
    /\ (forall Q : pykey * Z -> Prop, Forall Q c -> Forall Q l)
    /\ (forall k, dict_lookup k l = dict_lookup k c)
    /\ sum_counts l = sum_counts c.
Proof.
  induction c as [| x c IH]; intros K D.
  - exists []. repeat split; [constructor | trivial].
  - inversion K as [| ? ? Kx Kc]; subst.
    inversion D as [| ? ? Dc Dx]; subst.
    destruct (IH Kc Dc) as (l & E & S & Q & G & U).
    destruct (@insert_item_sorted x l Kx (Q _ Kc) (Q _ Dx) S)
      as (l' & E' & S' & Q' & G' & U').
    simpl. rewrite E. simpl. exists l'. repeat split.
    + exact E'.
    + exact S'.
    + intros P HP. inversion HP; subst. apply Q'; [assumption |].
      now apply Q.
    + intro k. rewrite G', G. destruct x as [kx nx]. reflexivity.
    + rewrite U', U. reflexivity.
Qed.

Lemma str_keys_no_nan (c : counter) :
  Forall has_str_key c -> existsb is_nan_key (map fst c) = false.
Proof.
  induction 1 as [| x c [s Hs] F IH]; simpl; [reflexivity |].
  now rewrite Hs, IH.
Qed.

(** On string keys [sorted] is the insertion sort. *)
Lemma sorted_items_sorted (c : counter) :
  Forall has_str_key c ->
  StronglySorted other_key c ->
  exists l : counter,
    sorted_items nan_sorted c = Ok l
    /\ StronglySorted date_before l
    /\ (forall Q : pykey * Z -> Prop, Forall Q c -> Forall Q l)
    /\ (forall k, dict_lookup k l = dict_lookup k c)
    /\ sum_counts l = sum_counts c.
Proof.
  intros K D. destruct (insertion_sorted_sorted K D) as (l & E & R).
  exists l. split; [| exact R].
  unfold sorted_items. rewrite E. cbn [bind].
  now rewrite (str_keys_no_nan K).
Qed.

Lemma string_keys_counted (ds : list string) :
  Forall has_str_key (count_keys (map KStr ds))
  /\ StronglySorted other_key (count_keys (map KStr ds)).
Proof.
  destruct (count_keys_first_occurrence (map KStr ds)) as (S & I & _).
  split.
  - rewrite Forall_map in I. rewrite Forall_forall in *. intros kv H.
    specialize (I kv H). unfold occurs in I. apply existsb_exists in I.
    destruct I as (k & Hk & E). apply in_map_iff in Hk.
    destruct Hk as (d & <- & _). exists d.
    now apply key_eqb_str_inv.
  - apply StronglySorted_map_inv in S.
    eapply StronglySorted_weaken; [exact S |].
    intros a b _ _ L. cbv beta in L. unfold other_key.
    destruct (key_eqb (fst a) (fst b)) eqn:E; [| reflexivity].
    rewrite (first_index_congr _ _ (map KStr ds) E) in L. lia.
Qed.

Lemma count_date_keys (d : string) (corpus : list essay_data) :
  List.length (filter (key_eqb (KStr d)) (map (fun e => KStr (date_of e)) corpus))
  = List.length (filter (fun e => String.eqb d (date_of e)) corpus).
Proof.
  induction corpus as [| e es IH]; [reflexivity |].
  cbn [map filter]. rewrite key_eqb_str.
  destruct (String.eqb d (date_of e)); cbn [List.length]; now rewrite IH.
Qed.

(** C9, as the code has it.  On a corpus whose documents all have a mapping as
    metadata with a string, or nothing, under [date],
    [build_publication_calendar] returns a calendar whose [dates] map every
    date, "unknown" standing for an absent one, to the number of documents
    filed under it and hold no other date, in ascending order of the date
    strings; the counts sum to [total_essays], the number of documents. *)
Theorem calendar_of_string_dates (today : string) (corpus : list essay_data) :
  forallb string_dated corpus = true ->
  exists calendar : publication_calendar,
    build_publication_calendar nan_sorted today corpus = Ok calendar
    /\ calendar_total_essays calendar = Z.of_nat (List.length corpus)
    /\ sum_counts (calendar_dates calendar) = calendar_total_essays calendar
    /\ StronglySorted date_before (calendar_dates calendar)
    /\ forall d : string,
        dict_lookup (KStr d) (calendar_dates calendar)
        = if essays_on d corpus =? 0 then None else Some (essays_on d corpus).
Proof.
  intro H. unfold build_publication_calendar.
  rewrite (calendar_loop corpus H).
  set (ds := map date_of corpus).
  assert (M : map (fun e => KStr (date_of e)) corpus = map KStr ds).
  { unfold ds. now rewrite map_map. }
  rewrite M. change (count_from [] (map KStr ds)) with (count_keys (map KStr ds)).
  destruct (string_keys_counted ds) as [K D].
  destruct (sorted_items_sorted K D) as (l & E & S & Q & G & U).
  cbn [bind]. rewrite E. cbn [bind]. eexists. split; [reflexivity |]. simpl.
  repeat split.
  - rewrite U. unfold count_keys. rewrite sum_counts_count_from.
    unfold ds. rewrite !length_map. reflexivity.
  - exact S.
  - intro d. rewrite G.
    assert (P : Forall (fun kv => 1 <= snd kv) (count_keys (map KStr ds))).
    { apply count_from_positive. constructor. }
    rewrite (dict_lookup_positive _ P).
    assert (C : counter_get (KStr d) (count_keys (map KStr ds))
                = essays_on d corpus).
    { unfold count_keys. rewrite counter_get_count_from.
      unfold counter_get, essays_on, ds. simpl.
      now rewrite map_map, count_date_keys. }
    now rewrite C.
Qed.

(* ------------------------------------------------------------------ *)
(** * Further properties of the code *)

(** ** Splitting on the delimiter *)

Lemma find_sub_unfold (sep s : string) :
  find_sub sep s
  = if String.prefix sep s then Some (EmptyString, drop (String.length sep) s)
    else match s with
         | EmptyString => None
         | String c s' =>
             match find_sub sep s' with
             | Some (before, after) => Some (String c before, after)
             | None => None
             end
         end.
Proof. destruct s; reflexivity. Qed.

Lemma prefix_drop (p s : string) :
  String.prefix p s = true -> s = p ++ drop (String.length p) s.
Proof.
  revert s. induction p as [| a p IH]; intros s H.
  - reflexivity.
  - destruct s as [| b s]; cbn [String.prefix] in H; [discriminate |].
    destruct (ascii_dec a b) as [-> |]; [| discriminate].
    cbn [String.length drop append]. now rewrite <- IH.
Qed.

Lemma prefix_app (p x y : string) :
  String.prefix p x = true -> String.prefix p (x ++ y) = true.
Proof.
  revert x. induction p as [| a p IH]; intros x H; [now destruct (x ++ y) |].
  destruct x as [| b x]; cbn [String.prefix append] in *; [discriminate |].
  destruct (ascii_dec a b); [now apply IH | discriminate].
Qed.

Lemma find_sub_sound (sep s a b : string) :
  find_sub sep s = Some (a, b) -> s = a ++ sep ++ b.
Proof.
  revert a b. induction s as [| c s IH]; intros a b H; rewrite find_sub_unfold in H.
  - destruct (String.prefix sep "") eqn:P; [| discriminate].
    injection H as <- <-. simpl. now apply prefix_drop.
  - destruct (String.prefix sep (String c s)) eqn:P.
    + injection H as <- <-. simpl. now apply prefix_drop.
    + destruct (find_sub sep s) as [[before after] |]; [| discriminate].
      injection H as <- <-. simpl. now rewrite <- (IH before after).
Qed.

Lemma find_sub_first (sep s a b : string) :
  sep <> EmptyString -> find_sub sep s = Some (a, b) -> find_sub sep a = None.
Proof.
  intro N. revert a b. induction s as [| c s IH]; intros a b H;
    rewrite find_sub_unfold in H.
  - destruct (String.prefix sep "") eqn:P; [| discriminate].
    destruct sep; [contradiction | discriminate].
  - destruct (String.prefix sep (String c s)) eqn:P.
    + injection H as <- <-. destruct sep; [contradiction | reflexivity].
    + destruct (find_sub sep s) as [[before after] |] eqn:F; [| discriminate].
      injection H as <- <-. rewrite find_sub_unfold.
      destruct (String.prefix sep (String c before)) eqn:Q.
      * pose proof (find_sub_sound _ _ F) as E. rewrite E in P.
        apply (prefix_app _ _ (sep ++ after)) in Q. cbn [append] in Q.
        congruence.
      * now rewrite (IH before after).
Qed.

Lemma split_max_nonempty (sep : string) (n : nat) (s : string) :
  split_max sep n s <> [].
Proof.
  destruct n; simpl; [discriminate |].
  destruct (find_sub sep s) as [[before after] |]; discriminate.
Qed.

(** [sep.join(s.split(sep, n)) == s]: splitting loses nothing, gives at least
    one part and at most [n + 1]. *)
Lemma split_join_roundtrip (sep : string) (n : nat) (s : string) :
  join sep (split_max sep n s) = s
  /\ (1 <= List.length (split_max sep n s) <= S n)%nat.
Proof.
  revert s. induction n as [| n IH]; intro s; simpl.
  - split; [reflexivity | lia].
  - destruct (find_sub sep s) as [[before after] |] eqn:F.
    + destruct (IH after) as [J L]. split; [| simpl; lia].
      pose proof (split_max_nonempty sep n after) as NE.
      simpl. destruct (split_max sep n after) as [| p ps]; [contradiction |].
      rewrite J. symmetry. now apply find_sub_sound.
    + split; [reflexivity | simpl; lia].
Qed.

(** ** What a successful extraction read *)

Lemma split_three (text : string) :
  String.prefix "---" text = true ->
  (List.length (split_max "---" 2 text) <? 3)%nat = false ->
  exists block rest : string,
    split_max "---" 2 text = [EmptyString; block; rest]
    /\ text = "---" ++ block ++ "---" ++ rest
    /\ str_contains "---" block = false.
Proof.
  intros P L.
  assert (F : find_sub "---" text = Some (EmptyString, drop 3 text)).
  { rewrite find_sub_unfold, P. reflexivity. }
  unfold split_max in L |- *. rewrite F in L |- *.
  destruct (find_sub "---" (drop 3 text)) as [[block rest] |] eqn:G;
    [| simpl in L; discriminate].
  exists block, rest. split; [reflexivity |]. split.
  - rewrite (prefix_drop _ _ P) at 1. simpl String.length.
    now rewrite (find_sub_sound _ _ G).
  - unfold str_contains.
    assert (N : "---" <> EmptyString) by discriminate.
    now rewrite (@find_sub_first "---" (drop 3 text) block rest N G).
Qed.

(** When [extract_essay_data] returns a record, the text is the delimiter,
    a block, the delimiter and a rest; the block holds no delimiter (the
    first [---] after the opening one closes it), the metadata are what the
    loader makes of the block, and the word count is the one of the rest. *)
Theorem extraction_success_shape (name text : string) (data : essay_data) :
  extract_essay_data safe_load name text = Ok (Some data) ->
  exists block rest : string,
    text = "---" ++ block ++ "---" ++ rest
    /\ str_contains "---" block = false
    /\ safe_load block = Ok (frontmatter data)
    /\ filename data = name
    /\ computed_word_count data = word_count rest
    /\ extract_frontmatter safe_load text = Ok (frontmatter data).
Proof.
  intro H.
  pose proof (extract_frontmatter_of_essay_data name text) as V. rewrite H in V.
  unfold extract_essay_data in H.
  destruct (String.prefix "---" text) eqn:P; cbn [negb] in H; [| discriminate].
  destruct (List.length (split_max "---" 2 text) <? 3)%nat eqn:L; [discriminate |].
  destruct (split_three text P L) as (block & rest & S & T & C).
  rewrite S in H. cbn [nth] in H.
  destruct (safe_load block) as [fm | e] eqn:Y; [| destruct e; discriminate].
  injection H as <-. exists block, rest. simpl. repeat split; assumption.
Qed.

Lemma prefix_short_app (p x y : string) :
  (String.length p <= String.length x)%nat ->
  String.prefix p (x ++ y) = String.prefix p x.
Proof.
  revert x. induction p as [| a p IH]; intros x L;
    [now destruct x, y |].
  destruct x as [| b x]; cbn [String.prefix append String.length] in *; [lia |].
  destruct (ascii_dec a b); [apply IH; lia | reflexivity].
Qed.

Lemma str_app_assoc (x y z : string) : (x ++ y) ++ z = x ++ y ++ z.
Proof. induction x as [| c x IH]; simpl; congruence. Qed.

Lemma str_length_app (x y : string) :
  String.length (x ++ y) = (String.length x + String.length y)%nat.
Proof. induction x as [| c x IH]; simpl; congruence. Qed.

Lemma prefix_self_app (p y : string) : String.prefix p (p ++ y) = true.
Proof.
  induction p as [| a p IH]; cbn [append String.prefix].
  - now destruct y.
  - destruct (ascii_dec a a); [exact IH | contradiction].
Qed.

Lemma find_sub_at_start (sep y : string) :
  find_sub sep (sep ++ y) = Some (EmptyString, drop (String.length sep) (sep ++ y)).
Proof. rewrite find_sub_unfold. now rewrite prefix_self_app. Qed.

Lemma find_sub_delimiter (block rest : string) :
  str_contains "---" (block ++ "--") = false ->
  find_sub "---" (block ++ "---" ++ rest) = Some (block, rest).
Proof.
  unfold str_contains. induction block as [| c block IH]; intro H.
  - change ("" ++ "---" ++ rest) with ("---" ++ rest).
    now rewrite (find_sub_at_start "---" rest).
  - rewrite find_sub_unfold in H.
    destruct (String.prefix "---" (String c block ++ "--")) eqn:P; [discriminate |].
    cbn [append] in H. cbv beta iota in H.
    destruct (find_sub "---" (block ++ "--")) as [[x y] |] eqn:F; [discriminate |].
    rewrite find_sub_unfold.
    assert (Q : String.prefix "---" (String c block ++ "---" ++ rest) = false).
    { change (String c block ++ "---" ++ rest)
        with (String c block ++ "--" ++ String "-" rest).
      rewrite <- (str_app_assoc (String c block) "--" (String "-" rest)).
      rewrite prefix_short_app; [exact P |].
      rewrite str_length_app. simpl. lia. }
    rewrite Q.
    change (String c block ++ "---" ++ rest)
      with (String c (block ++ "---" ++ rest)).
    cbv beta iota. now rewrite (IH eq_refl).
Qed.

(** A document put together from a block and a rest extracts to them, as
    long as no [---] shows up in the block or across its end: the validator
    gets the loaded block, the indexer a record with it and the word count of
    the rest. *)
Theorem assembled_document_extracts (name block rest : string) (fm : pyval) :
  str_contains "---" (block ++ "--") = false ->
  safe_load block = Ok fm ->
  extract_essay_data safe_load name ("---" ++ block ++ "---" ++ rest)
  = Ok (Some {| filename := name; frontmatter := fm;
                computed_word_count := word_count rest |})
  /\ extract_frontmatter safe_load ("---" ++ block ++ "---" ++ rest) = Ok fm.
Proof.
  intros C Y.
  assert (E : extract_essay_data safe_load name ("---" ++ block ++ "---" ++ rest)
              = Ok (Some {| filename := name; frontmatter := fm;
                            computed_word_count := word_count rest |})).
  { unfold extract_essay_data.
    rewrite (prefix_self_app "---" (block ++ "---" ++ rest)). cbn [negb].
    assert (S : split_max "---" 2 ("---" ++ block ++ "---" ++ rest)
                = [EmptyString; block; rest]).
    { unfold split_max.
      rewrite (find_sub_at_start "---" (block ++ "---" ++ rest)).
      change (drop (String.length "---") ("---" ++ block ++ "---" ++ rest))
        with (block ++ "---" ++ rest).
      now rewrite (find_sub_delimiter block rest C). }
    rewrite S. cbn [List.length Nat.ltb Nat.leb nth]. now rewrite Y. }
  split; [exact E |].
  rewrite (extract_frontmatter_of_essay_data name). now rewrite E.
Qed.

(** ** The word count *)

Lemma space_not_markup (c : ascii) : is_space c = true -> is_markup c = false.
Proof.
  destruct c as [[] [] [] [] [] [] [] []]; intro H; try reflexivity;
    discriminate H.
Qed.

Lemma url_here_head (c : ascii) (s : string) :
  url_here (String c s) = true -> c = "h"%char.
Proof.
  unfold url_here. intro H. apply orb_true_iff in H.
  destruct H as [H | H]; apply andb_true_iff in H; destruct H as [H _];
    cbn [String.prefix] in H;
    destruct (ascii_dec "h" c) as [E | E]; congruence.
Qed.

Lemma space_no_url (c : ascii) (s : string) :
  is_space c = true -> url_here (String c s) = false.
Proof.
  intro H. destruct (url_here (String c s)) eqn:U; [| reflexivity].
  apply url_here_head in U. subst c. discriminate H.
Qed.

Lemma count_words_lstrip (t : string) :
  count_words false (lstrip t) = count_words false t.
Proof.
  induction t as [| c t IH]; simpl; [reflexivity |].
  destruct (is_space c) eqn:S; [exact IH |].
  simpl. now rewrite S.
Qed.

Lemma count_words_rstrip (t : string) :
  forall b : bool, count_words b (rstrip t) = count_words b t.
Proof.
  induction t as [| c t IH]; intro b; [reflexivity |].
  cbn [rstrip]. destruct (rstrip t) as [| c' r] eqn:R.
  - destruct (is_space c) eqn:S; cbn [count_words]; rewrite S.
    + rewrite <- IH. reflexivity.
    + rewrite <- IH. reflexivity.
  - cbn [count_words]. destruct (is_space c); now rewrite <- IH.
Qed.

Lemma count_words_strip (t : string) :
  count_words false (strip t) = count_words false t.
Proof.
  unfold strip. now rewrite count_words_rstrip, count_words_lstrip.
Qed.

Lemma count_words_sub_spaces (t : string) :
  forall f b : bool,
    (f = true -> b = false) ->
    count_words b (sub_spaces f t) = count_words b t.
Proof.
  induction t as [| c t IH]; intros f b H; [reflexivity |].
  cbn [sub_spaces]. destruct (is_space c) eqn:S.
  - destruct f.
    + rewrite (H eq_refl). cbn [count_words]. rewrite S. now apply IH.
    + cbn [count_words]. rewrite S.
      change (is_space " ") with true. cbv iota. now apply IH.
  - cbn [count_words]. rewrite S. f_equal. apply IH. discriminate.
Qed.

(** The two [strip] after the substitutions and the collapse of white space
    do not change the count. *)
Lemma word_count_unfold (s : string) :
  word_count s = count_words false (sub_urls false (sub_markup (strip s))).
Proof.
  unfold word_count.
  set (u := sub_urls false (sub_markup (strip s))).
  assert (E : count_words false (strip (sub_spaces false u)) = count_words false u).
  { rewrite count_words_strip. apply count_words_sub_spaces. discriminate. }
  destruct (String.eqb (strip (sub_spaces false u)) "") eqn:Q.
  - apply String.eqb_eq in Q. rewrite Q in E. simpl in E. now rewrite <- E.
  - exact E.
Qed.

Lemma count_words_bounds (s : string) :
  forall b : bool, 0 <= count_words b s <= strlen s.
Proof.
  unfold strlen. induction s as [| c s IH]; intro b; cbn [count_words String.length].
  - lia.
  - destruct (is_space c).
    + specialize (IH false). lia.
    + specialize (IH true). destruct b; lia.
Qed.

Lemma length_lstrip (s : string) : (String.length (lstrip s) <= String.length s)%nat.
Proof.
  induction s as [| c s IH]; simpl; [lia |].
  destruct (is_space c); simpl; lia.
Qed.

Lemma length_rstrip (s : string) : (String.length (rstrip s) <= String.length s)%nat.
Proof.
  induction s as [| c s IH]; cbn [rstrip]; [simpl; lia |].
  destruct (rstrip s) as [| c' r]; [destruct (is_space c) |]; simpl in *; lia.
Qed.

Lemma length_sub_markup (s : string) :
  String.length (sub_markup s) = String.length s.
Proof. induction s as [| c s IH]; simpl; congruence. Qed.

Lemma length_sub_urls (s : string) :
  forall f : bool, (String.length (sub_urls f s) <= String.length s)%nat.
Proof.
  induction s as [| c s IH]; intro f; cbn [sub_urls]; [simpl; lia |].
  destruct f.
  - destruct (is_space c); [specialize (IH false) | specialize (IH true)];
      simpl; lia.
  - destruct (url_here (String c s));
      [specialize (IH true) | specialize (IH false)]; simpl; lia.
Qed.

(** The word count is never negative and never more than the number of
    characters of the body. *)
Theorem word_count_bounds (body : string) :
  0 <= word_count body <= strlen body.
Proof.
  rewrite word_count_unfold.
  pose proof (count_words_bounds (sub_urls false (sub_markup (strip body))) false)
    as [L U].
  split; [exact L |].
  eapply Z.le_trans; [exact U |]. unfold strlen. apply Nat2Z.inj_le.
  eapply Nat.le_trans; [apply length_sub_urls |].
  rewrite length_sub_markup. unfold strip.
  eapply Nat.le_trans; [apply length_rstrip | apply length_lstrip].
Qed.

Lemma all_chars_lstrip (p : ascii -> bool) (s : string) :
  all_chars p s = true -> all_chars p (lstrip s) = true.
Proof.
  induction s as [| c s IH]; simpl; [trivial |].
  intro H. apply andb_true_iff in H. destruct H as [Hc Hs].
  destruct (is_space c); [now apply IH |]. simpl. now rewrite Hc, Hs.
Qed.

Lemma all_chars_rstrip (p : ascii -> bool) (s : string) :
  all_chars p s = true -> all_chars p (rstrip s) = true.
Proof.
  induction s as [| c s IH]; [trivial |].
  cbn [rstrip all_chars]. intro H. apply andb_true_iff in H. destruct H as [Hc Hs].
  specialize (IH Hs).
  destruct (rstrip s) as [| c' r].
  - destruct (is_space c); simpl; [reflexivity | now rewrite Hc].
  - cbn [all_chars] in *. now rewrite Hc, IH.
Qed.

Lemma sub_markup_blank (s : string) :
  all_chars is_blank s = true -> all_chars is_space (sub_markup s) = true.
Proof.
  induction s as [| c s IH]; simpl; [trivial |].
  intro H. apply andb_true_iff in H. destruct H as [Hc Hs].
  rewrite (IH Hs), andb_true_r. unfold is_blank in Hc.
  destruct (is_markup c); [reflexivity |]. now rewrite orb_false_r in Hc.
Qed.

Lemma sub_urls_spaces (s : string) :
  all_chars is_space s = true -> forall f : bool, sub_urls f s = s.
Proof.
  induction s as [| c s IH]; [reflexivity |].
  cbn [all_chars]. intro H. apply andb_true_iff in H. destruct H as [Hc Hs].
  intro f. cbn [sub_urls]. rewrite Hc, (space_no_url c s Hc).
  destruct f; now rewrite (IH Hs).
Qed.

Lemma count_words_spaces (s : string) :
  all_chars is_space s = true -> forall b : bool, count_words b s = 0.
Proof.
  induction s as [| c s IH]; [reflexivity |].
  cbn [all_chars]. intro H. apply andb_true_iff in H. destruct H as [Hc Hs].
  intro b. cbn [count_words]. rewrite Hc. now apply IH.
Qed.

(** A body of nothing but white space and markup characters has no word. *)
Theorem word_count_blank (body : string) :
  all_chars is_blank body = true -> word_count body = 0.
Proof.
  intro H. rewrite word_count_unfold.
  assert (B : all_chars is_blank (strip body) = true).
  { unfold strip. now apply all_chars_rstrip, all_chars_lstrip. }
  apply sub_markup_blank in B.
  rewrite (sub_urls_spaces _ B). now apply count_words_spaces.
Qed.

Lemma lstrip_decompose (s : string) :
  exists ws : string, s = ws ++ lstrip s /\ all_chars is_space ws = true.
Proof.
  induction s as [| c s (ws & E & A)]; cbn [lstrip].
  - now exists EmptyString.
  - destruct (is_space c) eqn:S.
    + exists (String c ws). split.
      * cbn [append]. now rewrite <- E.
      * simpl. now rewrite S, A.
    + now exists EmptyString.
Qed.

Lemma rstrip_decompose (s : string) :
  exists ws : string, s = rstrip s ++ ws /\ all_chars is_space ws = true.
Proof.
  induction s as [| c s (ws & E & A)]; cbn [rstrip].
  - now exists EmptyString.
  - destruct (rstrip s) as [| c' r] eqn:R.
    + destruct (is_space c) eqn:S.
      * exists (String c ws). split.
        -- cbn [append] in *. now rewrite <- E.
        -- simpl. now rewrite S, A.
      * exists ws. split; [| exact A]. cbn [append] in *. now rewrite <- E.
    + exists ws. split; [| exact A]. cbn [append] in *. now rewrite <- E.
Qed.

Lemma sub_markup_app (x y : string) :
  sub_markup (x ++ y) = sub_markup x ++ sub_markup y.
Proof. induction x as [| c x IH]; simpl; congruence. Qed.

Lemma sub_markup_spaces (s : string) :
  all_chars is_space s = true -> sub_markup s = s.
Proof.
  induction s as [| c s IH]; [reflexivity |].
  cbn [all_chars sub_markup]. intro H. apply andb_true_iff in H.
  destruct H as [Hc Hs]. now rewrite (space_not_markup c Hc), (IH Hs).
Qed.

Lemma prefix_app_spaces (p x ws : string) :
  all_chars (fun c => negb (is_space c)) p = true ->
  all_chars is_space ws = true ->
  String.prefix p (x ++ ws) = String.prefix p x.
Proof.
  intros P W. revert x. induction p as [| a p IH]; intro x.
  - now destruct x, ws.
  - cbn [all_chars] in P. apply andb_true_iff in P. destruct P as [Pa Pp].
    destruct x as [| b x]; cbn [append String.prefix].
    + destruct ws as [| w ws]; [reflexivity |].
      cbn [String.prefix]. destruct (ascii_dec a w) as [-> |]; [| reflexivity].
      cbn [all_chars] in W. apply andb_true_iff in W. destruct W as [Ww _].
      rewrite Ww in Pa. discriminate.
    + destruct (ascii_dec a b); [now apply IH | reflexivity].
Qed.

Lemma starts_nonspace_app_spaces (y ws : string) :
  all_chars is_space ws = true ->
  starts_nonspace (y ++ ws) = starts_nonspace y.
Proof.
  intro W. destruct y as [| c y]; [| reflexivity].
  destruct ws as [| w ws]; [reflexivity |].
  cbn [all_chars] in W. apply andb_true_iff in W. destruct W as [Ww _].
  simpl. now rewrite Ww.
Qed.

Lemma drop_app_prefix (p x ws : string) :
  String.prefix p x = true ->
  drop (String.length p) (x ++ ws) = drop (String.length p) x ++ ws.
Proof.
  revert x. induction p as [| a p IH]; intros x H; [reflexivity |].
  destruct x as [| b x]; cbn [String.prefix] in H; [discriminate |].
  destruct (ascii_dec a b); [| discriminate].
  cbn [String.length append drop]. now apply IH.
Qed.

Lemma drop_app_prefix_at (p x ws : string) (n : nat) :
  n = String.length p ->
  String.prefix p x = true ->
  drop n (x ++ ws) = drop n x ++ ws.
Proof. intros ->. apply drop_app_prefix. Qed.

Lemma url_here_app_spaces (x ws : string) :
  all_chars is_space ws = true -> url_here (x ++ ws) = url_here x.
Proof.
  intro W. unfold url_here.
  rewrite !(prefix_app_spaces _ x ws) by (reflexivity || exact W).
  destruct (String.prefix "http://" x) eqn:P1;
    destruct (String.prefix "https://" x) eqn:P2; cbn [andb orb];
    try reflexivity.
  - rewrite (@drop_app_prefix_at "http://" x ws 7 eq_refl P1).
    rewrite (@drop_app_prefix_at "https://" x ws 8 eq_refl P2).
    now rewrite !starts_nonspace_app_spaces.
  - rewrite (@drop_app_prefix_at "http://" x ws 7 eq_refl P1).
    now rewrite !starts_nonspace_app_spaces.
  - rewrite (@drop_app_prefix_at "https://" x ws 8 eq_refl P2).
    now rewrite !starts_nonspace_app_spaces.
Qed.

(** White space after the text adds no token. *)
Lemma tokens_app_spaces (r ws : string) :
  all_chars is_space ws = true ->
  forall f b : bool,
    count_words b (sub_urls f (sub_markup (r ++ ws)))
    = count_words b (sub_urls f (sub_markup r)).
Proof.
  intro W. induction r as [| c r IH]; intros f b.
  - cbn [append]. rewrite (sub_markup_spaces _ W), (sub_urls_spaces _ W).
    rewrite (count_words_spaces _ W). now destruct f.
  - cbn [append sub_markup].
    set (c' := if is_markup c then " "%char else c).
    assert (U : url_here (String c' (sub_markup (r ++ ws)))
                = url_here (String c' (sub_markup r))).
    { rewrite sub_markup_app, (sub_markup_spaces _ W).
      apply (url_here_app_spaces (String c' (sub_markup r)) ws W). }
    cbn [sub_urls]. rewrite U.
    destruct f.
    + destruct (is_space c') eqn:S; [| apply IH].
      cbn [count_words]. rewrite S. apply IH.
    + destruct (url_here (String c' (sub_markup r))); [apply IH |].
      cbn [count_words]. destruct (is_space c'); [apply IH |].
      f_equal. apply IH.
Qed.

(** White space before the text adds no token. *)
Lemma tokens_spaces_app (ws s : string) :
  all_chars is_space ws = true -> token_count (ws ++ s) = token_count s.
Proof.
  unfold token_count. induction ws as [| c ws IH]; [reflexivity |].
  cbn [all_chars]. intro H. apply andb_true_iff in H. destruct H as [Hc Hs].
  cbn [append sub_markup]. rewrite (space_not_markup c Hc).
  cbn [sub_urls]. rewrite (space_no_url c _ Hc).
  cbn [count_words]. rewrite Hc. now apply IH.
Qed.

Lemma word_count_token_count (body : string) :
  word_count body = token_count body.
Proof.
  rewrite word_count_unfold. unfold strip.
  destruct (lstrip_decompose body) as (ws & E & W).
  destruct (rstrip_decompose (lstrip body)) as (ws' & E' & W').
  rewrite E at 2. rewrite (tokens_spaces_app ws (lstrip body) W).
  unfold token_count. rewrite E' at 2.
  now rewrite (tokens_app_spaces (rstrip (lstrip body)) ws' W').
Qed.

(** The word count is the number of tokens left once the markup characters
    are blanked and the URLs removed: the [strip] calls and the collapse of
    white space do not change it. *)
Theorem word_count_tokens (body : string) :
  word_count body = token_count body.
Proof. apply word_count_token_count. Qed.

Lemma sub_markup_plain (s : string) :
  all_chars (fun c => negb (is_markup c)) s = true -> sub_markup s = s.
Proof.
  induction s as [| c s IH]; [reflexivity |].
  cbn [all_chars sub_markup]. intro H. apply andb_true_iff in H.
  destruct H as [Hc Hs]. rewrite (IH Hs).
  now destruct (is_markup c).
Qed.

Lemma sub_urls_none (s : string) : no_url s = true -> sub_urls false s = s.
Proof.
  induction s as [| c s IH]; [reflexivity |].
  cbn [no_url sub_urls]. intro H. apply andb_true_iff in H.
  destruct H as [Hu Hs]. apply negb_true_iff in Hu. rewrite Hu.
  now rewrite (IH Hs).
Qed.

(** For a body without markup characters and without URLs the word count
    is the number of runs of characters that are not white space. *)
Theorem word_count_plain_text (body : string) :
  all_chars (fun c => negb (is_markup c)) body = true ->
  no_url body = true ->
  word_count body = count_words false body.
Proof.
  intros M U. rewrite word_count_token_count. unfold token_count.
  now rewrite (sub_markup_plain _ M), (sub_urls_none _ U).
Qed.

Lemma sub_urls_inside (s : string) :
  all_chars (fun c => negb (is_space c)) s = true -> sub_urls true s = EmptyString.
Proof.
  induction s as [| c s IH]; [reflexivity |].
  cbn [all_chars sub_urls]. intro H. apply andb_true_iff in H.
  destruct H as [Hc Hs]. apply negb_true_iff in Hc. rewrite Hc. now apply IH.
Qed.

Lemma not_blank_plain (s : string) :
  all_chars (fun c => negb (is_blank c)) s = true ->
  all_chars (fun c => negb (is_space c)) s = true
  /\ all_chars (fun c => negb (is_markup c)) s = true.
Proof.
  unfold is_blank. induction s as [| c s IH]; [now split |].
  cbn [all_chars]. intro H. apply andb_true_iff in H. destruct H as [Hc Hs].
  destruct (IH Hs) as [I1 I2]. apply negb_true_iff in Hc.
  apply orb_false_iff in Hc. destruct Hc as [C1 C2].
  split; [rewrite C1 | rewrite C2]; simpl; assumption.
Qed.

(** A body that is one URL, [http://] or [https://] followed by at least one
    character and holding neither white space nor markup characters, has no
    word. *)
Theorem word_count_url (rest : string) :
  rest <> EmptyString ->
  all_chars (fun c => negb (is_blank c)) rest = true ->
  word_count ("http://" ++ rest) = 0 /\ word_count ("https://" ++ rest) = 0.
Proof.
  intros N B. destruct (not_blank_plain rest B) as [S M].
  assert (P : starts_nonspace rest = true).
  { destruct rest as [| c rest]; [contradiction |].
    cbn [all_chars] in S. apply andb_true_iff in S. destruct S as [Sc _].
    exact Sc. }
  rewrite !word_count_token_count. unfold token_count. split.
  - rewrite sub_markup_app, (sub_markup_plain _ M).
    change (sub_markup "http://") with "http://".
    change ("http://" ++ rest) with (String "h" ("ttp://" ++ rest)).
    cbn [sub_urls].
    assert (U : url_here (String "h" ("ttp://" ++ rest)) = true).
    { unfold url_here. change (String "h" ("ttp://" ++ rest)) with ("http://" ++ rest).
      rewrite prefix_self_app.
      change (drop 7 ("http://" ++ rest)) with rest. now rewrite P. }
    rewrite U. rewrite sub_urls_inside; [reflexivity |].
    change ("ttp://" ++ rest) with (String "t" (String "t" (String "p"
           (String ":" (String "/" (String "/" rest)))))).
    cbn [all_chars]. exact S.
  - rewrite sub_markup_app, (sub_markup_plain _ M).
    change (sub_markup "https://") with "https://".
    change ("https://" ++ rest) with (String "h" ("ttps://" ++ rest)).
    cbn [sub_urls].
    assert (U : url_here (String "h" ("ttps://" ++ rest)) = true).
    { unfold url_here.
      change (String "h" ("ttps://" ++ rest)) with ("https://" ++ rest).
      rewrite (prefix_self_app "https://" rest).
      change (drop 8 ("https://" ++ rest)) with rest. rewrite P.
      now rewrite orb_true_r. }
    rewrite U. rewrite sub_urls_inside; [reflexivity |].
    change ("ttps://" ++ rest) with (String "t" (String "t" (String "p"
           (String "s" (String ":" (String "/" (String "/" rest))))))).
    cbn [all_chars]. exact S.
Qed.

(** ** How the errors of validation add up *)

Lemma map_m_Forall2 {X Y : Type} (f : X -> result Y) (xs : list X) (ys : list Y) :
  map_m f xs = Ok ys <-> Forall2 (fun x y => f x = Ok y) xs ys.
Proof.
  revert ys. induction xs as [| x xs IH]; intro ys; simpl.
  - split; intro H.
    + injection H as <-. constructor.
    + inversion H. reflexivity.
  - split; intro H.
    + destruct (f x) as [y |] eqn:E; simpl in H; [| discriminate].
      destruct (map_m f xs) as [ys' |] eqn:M; simpl in H; [| discriminate].
      injection H as <-. constructor; [exact E | now apply IH].
    + inversion H as [| ? y ? ys' E F]; subst.
      rewrite E. simpl. apply IH in F. rewrite F. reflexivity.
Qed.

Lemma validate_required_report (name : string) (fm : pyval)
      (errors : list string) (item : pykey * pyval) :
  validate_required re_compile repr_str repr_float time_text name fm errors item
  = (r <- field_report re_compile repr_str repr_float time_text name fm item ;; Ok (List.app errors r)).
Proof.
  unfold field_report, validate_required. destruct item as [field_name spec].
  destruct (key_in field_name fm) as [present |]; simpl; [| reflexivity].
  destruct present; simpl; [| reflexivity].
  destruct (py_getitem fm field_name) as [value |]; simpl; [| reflexivity].
  destruct (validate_field re_compile repr_str repr_float time_text field_name value spec);
    reflexivity.
Qed.

(** The errors of a document are the reports of the required fields, one
    after the other in the order of the schema; the first field whose check
    raises ends the validation of the document. *)
Theorem essay_errors_by_field (name text : string) (schema fm : pyval) :
  extract_frontmatter safe_load text = Ok fm ->
  fm <> VNone ->
  validate_essay safe_load re_compile repr_str repr_float time_text name text schema
  = (required <- py_getitem schema (KStr "required_fields") ;;
     fields <- as_dict required ;;
     reports <- map_m (field_report re_compile repr_str repr_float time_text name fm) fields ;;
     Ok (List.concat reports)).
Proof.
  intros E N. unfold validate_essay. rewrite E. cbn [bind].
  destruct fm; try contradiction;
    (destruct (py_getitem schema (KStr "required_fields")) as [required |];
     simpl; [| reflexivity];
     destruct (as_dict required) as [fields |]; simpl; [| reflexivity];
     now rewrite (for_each_reports _ _ (validate_required_report name _))).
Qed.

Lemma absent_field_report (name : string) (fm : pydict) (item : pykey * pyval) :
  dict_mem (fst item) fm = false ->
  field_report re_compile repr_str repr_float time_text name (VDict fm) item
  = Ok [missing_field_error repr_str repr_float time_text name (fst item)].
Proof.
  intro A. destruct item as [field_name spec]. simpl in A.
  unfold field_report, validate_required. simpl. now rewrite A.
Qed.

(** A document whose mapping has none of the required fields gets exactly
    one "missing required field" error for each, in the order of the schema,
    and no specification is looked at. *)
Theorem absent_fields_reported (name text : string) (schema : pyval)
        (fm fields : pydict) :
  extract_frontmatter safe_load text = Ok (VDict fm) ->
  py_getitem schema (KStr "required_fields") = Ok (VDict fields) ->
  forallb (fun item => negb (dict_mem (fst item) fm)) fields = true ->
  validate_essay safe_load re_compile repr_str repr_float time_text name text schema
  = Ok (map (fun item => missing_field_error repr_str repr_float time_text name (fst item)) fields).
Proof.
  intros E R A. unfold validate_essay. rewrite E, R. simpl.
  rewrite (for_each_reports _ _ (validate_required_report name (VDict fm))).
  assert (M : map_m (field_report re_compile repr_str repr_float time_text name (VDict fm)) fields
              = Ok (map (fun item => [missing_field_error repr_str repr_float time_text name (fst item)])
                        fields)).
  { clear E R. induction fields as [| item fields IH]; simpl in *; [reflexivity |].
    apply andb_true_iff in A. destruct A as [Ai Af]. apply negb_true_iff in Ai.
    rewrite (absent_field_report name fm item Ai). simpl.
    rewrite (IH Af). reflexivity. }
  rewrite M. simpl. f_equal.
  clear. induction fields as [| item fields IH]; simpl; congruence.
Qed.

Lemma field_report_empty (name : string) (fm : pydict) (item : pykey * pyval) :
  field_report re_compile repr_str repr_float time_text name (VDict fm) item = Ok []
  <-> field_passes re_compile repr_str repr_float time_text fm item.
Proof.
  destruct item as [field_name spec].
  unfold field_report, field_passes, validate_required. cbn [fst snd key_in bind].
  destruct (dict_lookup field_name fm) as [value |] eqn:L.
  - assert (M : dict_mem field_name fm = true) by (unfold dict_mem; now rewrite L).
    rewrite M. cbn [negb py_getitem]. rewrite L. cbn [bind].
    destruct (validate_field re_compile repr_str repr_float time_text field_name value spec)
      as [errs |] eqn:V; cbn [bind].
    + split.
      * intro H. injection H as H. exists value. split; [reflexivity |].
        destruct errs; [exact V | discriminate].
      * intros (v & Lv & P). injection Lv as <-. rewrite V in P.
        injection P as ->. reflexivity.
    + split; [discriminate |].
      intros (v & Lv & P). injection Lv as <-. rewrite V in P. discriminate.
  - assert (M : dict_mem field_name fm = false) by (unfold dict_mem; now rewrite L).
    rewrite M. cbn [negb]. split; [discriminate |].
    intros (v & Lv & _). discriminate.
Qed.

Lemma concat_nil_Forall {A : Type} (ls : list (list A)) :
  List.concat ls = [] <-> Forall (fun l => l = []) ls.
Proof.
  induction ls as [| l ls IH]; simpl.
  - split; [constructor | reflexivity].
  - split.
    + intro H. apply app_eq_nil in H. destruct H as [-> H].
      constructor; [reflexivity | now apply IH].
    + intro H. inversion H; subst. simpl. now apply IH.
Qed.

Lemma map_m_all_empty {X Y : Type} (f : X -> result (list Y)) (xs : list X) :
  (exists rs, map_m f xs = Ok rs /\ List.concat rs = [])
  <-> Forall (fun x => f x = Ok []) xs.
Proof.
  induction xs as [| x xs IH]; simpl.
  - split; [constructor |]. intros _. now exists [].
  - split.
    + intros (rs & M & C).
      destruct (f x) as [r |] eqn:Fx; simpl in M; [| discriminate].
      destruct (map_m f xs) as [rs' |]; simpl in M; [| discriminate].
      injection M as <-. simpl in C. apply app_eq_nil in C. destruct C as [-> C].
      constructor; [exact Fx |]. apply IH. now exists rs'.
    + intro H. inversion H as [| ? ? Hx Hxs]; subst.
      apply IH in Hxs. destruct Hxs as (rs & M & C).
      rewrite Hx, M. simpl. now exists ([] :: rs).
Qed.

(** A document whose metadata are a mapping passes exactly when every
    required field is present and [validate_field] has nothing to say
    about it. *)
Theorem essay_passes_iff (name text : string) (schema : pyval) (fm fields : pydict) :
  extract_frontmatter safe_load text = Ok (VDict fm) ->
  py_getitem schema (KStr "required_fields") = Ok (VDict fields) ->
  validate_essay safe_load re_compile repr_str repr_float time_text name text schema = Ok []
  <-> Forall (field_passes re_compile repr_str repr_float time_text fm) fields.
Proof.
  intros E R. unfold validate_essay. rewrite E, R. simpl.
  rewrite (for_each_reports _ _ (validate_required_report name (VDict fm))).
  simpl.
  assert (Q : Forall (field_passes re_compile repr_str repr_float time_text fm) fields
              <-> Forall (fun item => field_report re_compile repr_str repr_float time_text name (VDict fm) item
                                      = Ok []) fields).
  { split; intro H; eapply Forall_impl; try exact H;
      intros item Hi; now apply (field_report_empty name fm item). }
  rewrite Q, <- map_m_all_empty. split.
  - intro H.
    destruct (map_m (field_report re_compile repr_str repr_float time_text name (VDict fm)) fields)
      as [rs |]; simpl in H; [| discriminate].
    injection H as H. now exists rs.
  - intros (rs & M & C). rewrite M. simpl. now rewrite C.
Qed.

(** The errors of a corpus that has files are the errors of its documents,
    one document after the other in the order of the posts; a schema that
    does not load raises before any document is read, and the first document
    that raises ends the run. *)
Theorem corpus_errors_by_document
        (posts_dir : string) (schema_file : option string)
        (post : string * string) (posts : list (string * string)) :
  validate_all safe_load re_compile repr_str repr_float time_text posts_dir schema_file (post :: posts)
  = (schema <- load_schema safe_load schema_file ;;
     reports <- map_m (fun p => validate_essay safe_load re_compile repr_str repr_float time_text
                                               (fst p) (snd p) schema)
                      (post :: posts) ;;
     Ok (List.concat reports)).
Proof. apply validate_all_by_document. Qed.

(** The validator command exits with status 0 exactly when the schema loads,
    there is at least one file and every document passes; an empty
    directory never passes. *)
Theorem validator_passes_iff
        (posts_dir : string) (schema_file : option string)
        (posts : list (string * string)) :
  (exists out : string,
      validator_main safe_load re_compile repr_str repr_float time_text posts_dir schema_file posts
      = Ok (out, 0))
  <-> exists schema : pyval,
      load_schema safe_load schema_file = Ok schema
      /\ posts <> []
      /\ Forall (essay_passes safe_load re_compile repr_str repr_float time_text schema) posts.
Proof.
  unfold validator_main. destruct posts as [| post posts].
  - unfold validate_all. split.
    + intros (out & H).
      destruct (load_schema safe_load schema_file); simpl in H; discriminate.
    + intros (schema & _ & N & _). contradiction.
  - rewrite validate_all_by_document.
    destruct (load_schema safe_load schema_file) as [schema |]; cbn [bind].
    + split.
      * intros (out & H).
        destruct (map_m _ (post :: posts)) as [rs |] eqn:M; cbn [bind] in H;
          [| discriminate].
        destruct (List.concat rs) eqn:C; [| discriminate].
        exists schema. split; [reflexivity |]. split; [discriminate |].
        unfold essay_passes. apply map_m_all_empty. now exists rs.
      * intros (schema' & L & _ & P). injection L as <-.
        unfold essay_passes in P. apply map_m_all_empty in P.
        destruct P as (rs & M & C).
        rewrite M. cbn [bind]. rewrite C. eexists. reflexivity.
    + split; [intros (out & H); discriminate |].
      intros (schema & L & _). discriminate.
Qed.

(** ** How many errors a field can get *)

Lemma length_append_error (errors : list string) (msg : string) :
  List.length (append_error errors msg) = S (List.length errors).
Proof. unfold append_error. rewrite length_app. simpl. lia. Qed.

Ltac split_result H :=
  repeat first
    [ match type of H with
      | Ok _ = Ok ?a => is_var a; injection H as <-
      end
    | match type of H with
      | context [match ?x with _ => _ end] =>
          destruct x eqn:?; cbn [bind] in H; try discriminate H
      end
    | match type of H with
      | context [bind ?m _] =>
          let E := fresh "E" in
          destruct m eqn:E; cbn [bind] in H; [split_result E | discriminate H]
      end ].

Ltac count_errors :=
  repeat match goal with
         | |- context [List.length (if ?b then _ else _)] => destruct b
         end;
  rewrite ?length_append_error; simpl; lia.

Lemma validate_items_length (item_type item_pattern : pyval) (items : list pyval) :
  forall (i : Z) (errors out : list string),
    validate_items re_compile repr_str repr_float time_text item_type item_pattern i items errors = Ok out ->
    (List.length out <= List.length errors + List.length items)%nat.
Proof.
  induction items as [| item items IH]; intros i errors out H; cbn [validate_items] in H.
  - injection H as <-. simpl. lia.
  - match type of H with
    | bind ?step _ = _ => destruct step as [errors' |] eqn:St
    end; cbn [bind] in H; [| discriminate].
    apply IH in H.
    assert (L : (List.length errors' <= S (List.length errors))%nat).
    { clear H IH. split_result St; count_errors. }
    simpl. lia.
Qed.

(** A field gets at most four errors when its value is a string, at most
    two and one for each item when it is a list, and at most one
    otherwise. *)
Theorem field_errors_bounded (field_name : pykey) (value spec : pyval)
        (errors : list string) :
  validate_field re_compile repr_str repr_float time_text field_name value spec = Ok errors ->
  (List.length errors
   <= match value with
      | VStr _ => 4
      | VList items => 2 + List.length items
      | _ => 1
      end)%nat.
Proof.
  unfold validate_field. intro H.
  destruct (as_dict spec) as [sp |]; cbn [bind] in H; [| discriminate].
  destruct (is_str_lit (dict_get sp "type" VNone) "string").
  { destruct value; try (injection H as <-; simpl; lia).
    unfold validate_string in H. split_result H; count_errors. }
  destruct (is_str_lit (dict_get sp "type" VNone) "integer").
  { destruct value; try (injection H as <-; simpl; lia).
    unfold validate_integer in H. split_result H; count_errors. }
  destruct (is_str_lit (dict_get sp "type" VNone) "list");
    [| injection H as <-; destruct value; simpl; lia].
  destruct value; try (injection H as <-; simpl; lia).
  unfold validate_list in H.
  match type of H with
  | bind ?m _ = _ => destruct m as [e1 |] eqn:S1
  end; cbn [bind] in H; [| discriminate].
  match type of H with
  | bind ?m _ = _ => destruct m as [e2 |] eqn:S2
  end; cbn [bind] in H; [| discriminate].
  apply validate_items_length in H.
  assert (L1 : (List.length e1 <= 1)%nat).
  { clear H S2. split_result S1; count_errors. }
  assert (L2 : (List.length e2 <= S (List.length e1))%nat).
  { clear H S1 L1. split_result S2; count_errors. }
  lia.
Qed.

Lemma validate_items_typed (item_type item_pattern : pyval) (items : list pyval) :
  is_str_lit item_type "string" = true ->
  truthy item_pattern = false ->
  forall (i : Z) (errors : list string),
  exists out : list string,
    validate_items re_compile repr_str repr_float time_text item_type item_pattern i items errors = Ok out
    /\ List.length out
       = (List.length errors
          + List.length (filter (fun v => negb (is_str v)) items))%nat.
Proof.
  intros T P. induction items as [| item items IH]; intros i errors;
    cbn [validate_items filter].
  - exists errors. split; [reflexivity | simpl; lia].
  - rewrite T, P. cbn [andb].
    destruct (negb (is_str item)); cbn [bind].
    + destruct (IH (i + 1) (append_error errors
                              ("item [" ++ str_of_Z i ++ "] expected string, got "
                                        ++ type_name item)))
        as (out & E & L).
      exists out. split; [exact E |].
      rewrite L, length_append_error. simpl. lia.
    + destruct (IH (i + 1) errors) as (out & E & L).
      exists out. split; [exact E | exact L].
Qed.

(** Against a list specification that declares string items and neither
    bounds nor an item pattern, a list gets one error for each item that is
    not a string and nothing else: it passes exactly when all its items are
    strings. *)
Theorem list_items_must_be_strings (field_name : pykey) (spec : pydict)
        (items : list pyval) :
  dict_lookup (KStr "type") spec = Some (VStr "list") ->
  dict_lookup (KStr "item_type") spec = Some (VStr "string") ->
  dict_lookup (KStr "min_items") spec = None ->
  dict_lookup (KStr "max_items") spec = None ->
  dict_lookup (KStr "item_pattern") spec = None ->
  exists errors : list string,
    validate_field re_compile repr_str repr_float time_text field_name (VList items) (VDict spec)
    = Ok errors
    /\ List.length errors
       = List.length (filter (fun v => negb (is_str v)) items)
    /\ (errors = [] <-> forallb is_str items = true).
Proof.
  intros T IT Mn Mx IP.
  unfold validate_field, validate_list, dict_get. cbn [as_dict bind].
  rewrite T, IT, Mn, Mx, IP. cbn [is_str_lit String.eqb Ascii.eqb Bool.eqb bind].
  destruct (@validate_items_typed (VStr "string") VNone items eq_refl eq_refl 0 [])
    as (out & E & L).
  exists out. split; [exact E |]. split; [exact L |].
  simpl in L. split.
  - intros ->. simpl in L. clear E.
    induction items as [| item items IH]; [reflexivity |].
    simpl in L |- *. destruct (is_str item); simpl in L; [now apply IH | lia].
  - intro A.
    assert (Z0 : List.length (filter (fun v => negb (is_str v)) items) = O).
    { clear E L. induction items as [| item items IH]; [reflexivity |].
      simpl in A |- *. apply andb_true_iff in A. destruct A as [Ai As].
      rewrite Ai. simpl. now apply IH. }
    rewrite Z0 in L. now destruct out.
Qed.

(** ** What the frequency tables hold *)

Lemma count_keys_distinct (ks : list pykey) :
  StronglySorted other_key (count_keys ks).
Proof.
  destruct (count_keys_first_occurrence ks) as (S & _ & _).
  apply StronglySorted_map_inv in S.
  eapply StronglySorted_weaken; [exact S |].
  intros a b _ _ L. cbv beta in L. unfold other_key.
  destruct (key_eqb (fst a) (fst b)) eqn:E; [| reflexivity].
  rewrite (first_index_congr _ _ ks E) in L. lia.
Qed.

Lemma lookup_insert_desc (x : pykey * Z) (l : counter) :
  Forall (other_key x) l ->
  forall k : pykey,
    dict_lookup k (insert_desc x l)
    = if key_eqb k (fst x) then Some (snd x) else dict_lookup k l.
Proof.
  induction 1 as [| y l Hy Hl IH]; intro k.
  - destruct x as [kx nx]. reflexivity.
  - cbn [insert_desc]. destruct (- snd x <=? - snd y).
    + destruct x as [kx nx]. reflexivity.
    + destruct y as [ky ny]. cbn [dict_lookup]. rewrite IH.
      destruct (key_eqb k ky) eqn:Ey; [| reflexivity].
      unfold other_key in Hy. cbn [fst] in Hy.
      assert (N : key_eqb k (fst x) = false).
      { rewrite (key_eqb_congr _ _ (fst x) Ey). now rewrite key_eqb_sym. }
      now rewrite N.
Qed.

Lemma lookup_sorted_desc (c : counter) :
  StronglySorted other_key c ->
  forall k : pykey, dict_lookup k (sorted_desc c) = dict_lookup k c.
Proof.
  induction 1 as [| x c S IH F]; intro k; [reflexivity |].
  cbn [sorted_desc]. rewrite lookup_insert_desc.
  - rewrite IH. destruct x as [kx nx]. reflexivity.
  - now apply Forall_sorted_desc.
Qed.

Lemma table_lookup (k : pykey) (ks : list pykey) :
  dict_lookup k (sorted_desc (count_keys ks))
  = table_entry (Z.of_nat (List.length (filter (key_eqb k) ks))).
Proof.
  rewrite (lookup_sorted_desc (count_keys_distinct ks)).
  assert (P : Forall (fun kv => 1 <= snd kv) (count_keys ks)).
  { apply count_from_positive. constructor. }
  rewrite (dict_lookup_positive _ P). unfold count_keys.
  rewrite counter_get_count_from. reflexivity.
Qed.

Lemma category_trace_count (k : pykey) (corpus : list essay_data) :
  List.length (filter (key_eqb k) (category_trace corpus))
  = List.length (filter (in_category k) corpus).
Proof.
  unfold category_trace, in_category.
  induction corpus as [| e corpus IH]; simpl; [reflexivity |].
  destruct (essay_category e) as [k' |]; simpl; [| exact IH].
  destruct (key_eqb k k'); simpl; now rewrite IH.
Qed.

Lemma tag_trace_count (k : pykey) (corpus : list essay_data) :
  Z.of_nat (List.length (filter (key_eqb k) (tag_trace corpus)))
  = fold_right (fun e acc => tag_uses k e + acc) 0 corpus.
Proof.
  unfold tag_trace, tag_uses.
  induction corpus as [| e corpus IH]; simpl; [reflexivity |].
  rewrite filter_app, length_app, Nat2Z.inj_add, IH.
  destruct (essay_tags e); reflexivity.
Qed.

(** In the essays index, [categories] maps every category to the number of
    documents counted under it, and [tag_frequency] every tag to the number
    of times the documents use it; a key nobody has is not in the table. *)
Theorem frequency_tables_count (today : string) (corpus : list essay_data)
        (index : essays_index) :
  build_essays_index today corpus = Ok index ->
  forall k : pykey,
    dict_lookup k (categories index)
    = table_entry (Z.of_nat (List.length (filter (in_category k) corpus)))
    /\ dict_lookup k (tag_frequency index)
       = table_entry (fold_right (fun e acc => tag_uses k e + acc) 0 corpus).
Proof.
  intros H k. destruct (build_essays_index_tables _ _ H) as [-> ->].
  rewrite !table_lookup. now rewrite category_trace_count, tag_trace_count.
Qed.

Lemma index_essay_entry (st st' : index_state) (e : essay_data) :
  index_essay st e = Ok st' ->
  exists entry : index_entry,
    st_entries st' = (st_entries st ++ [entry])%list
    /\ entry_filename entry = filename e
    /\ entry_word_count entry = computed_word_count e
    /\ st_total_words st' = st_total_words st + computed_word_count e.
Proof.
  unfold index_essay. intro H.
  destruct (as_dict (frontmatter e)) as [fm |]; cbn [bind] in H; [| discriminate].
  destruct (counter_incr _ _) as [cats |]; cbn [bind] in H; [| discriminate].
  destruct (py_iter _) as [items |]; cbn [bind] in H; [| discriminate].
  destruct (for_each counter_incr items _) as [tags |]; cbn [bind] in H;
    [| discriminate].
  injection H as <-. cbn. eexists. split; [reflexivity |]. now cbn.
Qed.

Lemma index_loop_entries (corpus : list essay_data) :
  forall st st' : index_state,
    for_each index_essay corpus st = Ok st' ->
    map entry_filename (st_entries st')
    = (map entry_filename (st_entries st) ++ map filename corpus)%list
    /\ map entry_word_count (st_entries st')
       = (map entry_word_count (st_entries st) ++ map computed_word_count corpus)%list
    /\ st_total_words st'
       = st_total_words st
         + fold_right (fun e acc => computed_word_count e + acc) 0 corpus.
Proof.
  induction corpus as [| e corpus IH]; intros st st' H; simpl in H.
  - injection H as <-. simpl. rewrite !app_nil_r. repeat split. lia.
  - destruct (index_essay st e) as [st1 |] eqn:E; cbn [bind] in H; [| discriminate].
    destruct (index_essay_entry _ _ E) as (entry & En & Ef & Ew & Et).
    destruct (IH _ _ H) as (If & Iw & It).
    rewrite If, Iw, It, En, Et, !map_app. simpl.
    rewrite Ef, Ew, <- !app_assoc. simpl. repeat split. lia.
Qed.

(** The essays index has one entry for each essay, in the order of the
    corpus, with the file name and the computed word count of the essay;
    [total_words] is the sum of the word counts. *)
Theorem index_entries_follow_corpus (today : string) (corpus : list essay_data)
        (index : essays_index) :
  build_essays_index today corpus = Ok index ->
  map entry_filename (essays index) = map filename corpus
  /\ map entry_word_count (essays index) = map computed_word_count corpus
  /\ total_words index
     = fold_right (fun e acc => computed_word_count e + acc) 0 corpus
  /\ total_essays index = Z.of_nat (List.length (essays index)).
Proof.
  unfold build_essays_index. intro H.
  destruct (for_each index_essay corpus _) as [st |] eqn:E; cbn [bind] in H;
    [| discriminate].
  injection H as <-. cbn.
  destruct (index_loop_entries _ _ E) as (If & Iw & It). simpl in If, Iw, It.
  repeat split; try assumption.
  rewrite <- (length_map entry_filename), If, length_map. reflexivity.
Qed.

(** ** The cross-reference table *)

Lemma lookup_dict_set {V : Type} (k k' : pykey) (v : V) (d : list (pykey * V)) :
  dict_lookup k (dict_set k' v d)
  = if key_eqb k k' then Some v else dict_lookup k d.
Proof.
  induction d as [| [k2 v2] d IH]; cbn [dict_set dict_lookup]; [reflexivity |].
  destruct (key_eqb k' k2) eqn:E; cbn [dict_lookup].
  - rewrite (key_eqb_sym k k'), (key_eqb_congr _ _ k E), (key_eqb_sym k2 k).
    now destruct (key_eqb k k2).
  - rewrite IH. destruct (key_eqb k k2) eqn:E2; [| reflexivity].
    assert (N : key_eqb k k' = false).
    { rewrite (key_eqb_congr _ _ k' E2). now rewrite key_eqb_sym. }
    now rewrite N.
Qed.

Lemma length_dict_set {V : Type} (k : pykey) (v : V) (d : list (pykey * V)) :
  List.length (dict_set k v d)
  = if dict_mem k d then List.length d else S (List.length d).
Proof.
  unfold dict_mem. induction d as [| [k2 v2] d IH]; cbn [dict_set dict_lookup];
    [reflexivity |].
  destruct (key_eqb k k2); cbn [List.length]; [reflexivity |].
  rewrite IH. now destruct (dict_lookup k d).
Qed.

Lemma keys_dict_set_new {V : Type} (k : pykey) (v : V) (d : list (pykey * V)) :
  dict_mem k d = false ->
  map fst (dict_set k v d) = (map fst d ++ [k])%list.
Proof.
  unfold dict_mem. induction d as [| [k2 v2] d IH]; cbn [dict_set dict_lookup];
    [reflexivity |].
  destruct (key_eqb k k2); [discriminate |].
  intro H. cbn [map fst app]. now rewrite IH.
Qed.

Lemma xref_essay_step (refs : list (pykey * xref_entry)) (e : essay_data)
      (refs' : list (pykey * xref_entry)) :
  xref_essay refs e = Ok refs' ->
  exists x : xref_entry,
    essay_xref e = Some x /\ refs' = dict_set (KStr (filename e)) x refs.
Proof.
  unfold essay_xref, xref_essay.
  destruct (as_dict (frontmatter e)) as [fm |]; cbn [bind]; [| discriminate].
  intro H. injection H as <-. eexists. split; reflexivity.
Qed.

Lemma xref_loop (corpus : list essay_data) (refs : list (pykey * xref_entry)) :
  for_each xref_essay corpus [] = Ok refs ->
  (forall name : string,
      dict_lookup (KStr name) refs
      = match last_named name corpus with
        | Some e => essay_xref e
        | None => None
        end)
  /\ (List.length refs <= List.length corpus)%nat
  /\ (NoDup (map filename corpus) ->
      map fst refs = map (fun e => KStr (filename e)) corpus).
Proof.
  revert refs. induction corpus as [| e corpus IH] using rev_ind; intros refs H.
  - injection H as <-. split; [| split]; [reflexivity | simpl; lia | reflexivity].
  - rewrite for_each_app in H.
    destruct (for_each xref_essay corpus []) as [refs0 |]; cbn [bind] in H;
      [| discriminate].
    simpl in H.
    destruct (xref_essay refs0 e) as [refs1 |] eqn:E; cbn [bind] in H;
      [| discriminate].
    injection H as <-.
    destruct (xref_essay_step _ _ E) as (x & Ex & ->).
    destruct (IH refs0 eq_refl) as (Il & In & Ik).
    split; [| split].
    + intro name. rewrite lookup_dict_set. unfold last_named in *.
      rewrite rev_app_distr. simpl. rewrite key_eqb_str.
      destruct (String.eqb name (filename e)); [now rewrite Ex | apply Il].
    + rewrite length_dict_set, length_app. simpl.
      destruct (dict_mem _ refs0); lia.
    + rewrite !map_app. simpl. intro N.
      apply NoDup_remove in N. destruct N as [N Nin].
      rewrite app_nil_r in N, Nin.
      assert (M : dict_mem (KStr (filename e)) refs0 = false).
      { unfold dict_mem. rewrite Il. unfold last_named.
        destruct (find _ (rev corpus)) as [e' |] eqn:F; [| reflexivity].
        apply find_some in F. destruct F as [Fi Fe].
        apply String.eqb_eq in Fe. exfalso. apply Nin.
        rewrite Fe. apply in_map. now apply in_rev. }
      rewrite (keys_dict_set_new _ _ _ M). now rewrite (Ik N).
Qed.

(** In the cross-reference table a file name leads to the entry of the last
    essay of the corpus with that name (an earlier one is overwritten), and
    to nothing when no essay has it. *)
Theorem xrefs_last_essay_wins (today : string) (corpus : list essay_data)
        (xrefs : cross_references) (name : string) :
  build_cross_references today corpus = Ok xrefs ->
  dict_lookup (KStr name) (xrefs_entries xrefs)
  = match last_named name corpus with
    | Some e => essay_xref e
    | None => None
    end.
Proof.
  unfold build_cross_references. intro H.
  destruct (for_each xref_essay corpus []) as [refs |] eqn:E; cbn [bind] in H;
    [| discriminate].
  injection H as <-. cbn. now apply (xref_loop corpus).
Qed.

(** [total] of the cross-references never exceeds the number of essays, and
    with file names that are all different it is that number, the entries
    standing in the order of the corpus. *)
Theorem xrefs_total_counts_names (today : string) (corpus : list essay_data)
        (xrefs : cross_references) :
  build_cross_references today corpus = Ok xrefs ->
  xrefs_total xrefs = Z.of_nat (List.length (xrefs_entries xrefs))
  /\ xrefs_total xrefs <= Z.of_nat (List.length corpus)
  /\ (NoDup (map filename corpus) ->
      xrefs_total xrefs = Z.of_nat (List.length corpus)
      /\ map fst (xrefs_entries xrefs) = map (fun e => KStr (filename e)) corpus).
Proof.
  unfold build_cross_references. intro H.
  destruct (for_each xref_essay corpus []) as [refs |] eqn:E; cbn [bind] in H;
    [| discriminate].
  injection H as <-. cbn.
  destruct (xref_loop corpus E) as (_ & L & K).
  split; [reflexivity |]. split; [lia |].
  intro N. specialize (K N). split; [| exact K].
  rewrite <- (length_map fst), K, length_map. reflexivity.
Qed.

(** ** What the calendar never mixes *)

Lemma insert_item_perm (x : pykey * Z) (l l' : counter) :
  insert_item x l = Ok l' -> Permutation (x :: l) l'.
Proof.
  revert l'. induction l as [| y l IH]; intros l' H; cbn [insert_item] in H.
  - injection H as <-. apply Permutation_refl.
  - destruct (item_lt y x) as [before |]; cbn [bind] in H; [| discriminate].
    destruct before.
    + destruct (insert_item x l) as [l'' |]; cbn [bind] in H; [| discriminate].
      injection H as <-.
      eapply perm_trans; [apply perm_swap |]. apply perm_skip. now apply IH.
    + injection H as <-. apply Permutation_refl.
Qed.

Lemma insertion_sorted_perm (c l : counter) :
  insertion_sorted c = Ok l -> Permutation c l.
Proof.
  revert l. induction c as [| x c IH]; intros l H; cbn [insertion_sorted] in H.
  - injection H as <-. constructor.
  - destruct (insertion_sorted c) as [l0 |]; cbn [bind] in H; [| discriminate].
    eapply perm_trans; [apply perm_skip, IH; reflexivity |].
    now apply insert_item_perm.
Qed.

Lemma key_lt_same_kind (a b : pykey) (r : bool) :
  key_lt a b = Ok r -> kind_of a = kind_of b.
Proof.
  unfold key_lt, kind_of.
  destruct (view a), (view b); simpl; intro H; try discriminate; reflexivity.
Qed.

Lemma key_eqb_same_kind (a b : pykey) :
  key_eqb a b = true -> kind_of a = kind_of b.
Proof.
  unfold key_eqb, kind_of.
  destruct (view a), (view b); simpl; intro H; try discriminate; reflexivity.
Qed.

(** The insertion sort compares every key but the last with a key it has
    placed before: it returns only when all keys are of one kind. *)
Lemma insertion_sorted_one_kind (c l : counter) :
  StronglySorted other_key c ->
  insertion_sorted c = Ok l ->
  exists kind : key_kind, Forall (fun kv => kind_of (fst kv) = kind) c.
Proof.
  intro D. revert l. induction D as [| x c D IH F]; intros l H.
  - exists NoneKind. constructor.
  - cbn [insertion_sorted] in H.
    destruct (insertion_sorted c) as [l0 |] eqn:E; cbn [bind] in H; [| discriminate].
    pose proof (insertion_sorted_perm c E) as P.
    destruct l0 as [| y l0].
    + apply Permutation_sym, Permutation_nil in P. subst c.
      exists (kind_of (fst x)). now repeat constructor.
    + cbn [insert_item] in H.
      assert (Yin : In y c).
      { apply (Permutation_in y (Permutation_sym P)). now left. }
      assert (O : key_eqb (fst y) (fst x) = false).
      { rewrite Forall_forall in F. specialize (F y Yin).
        unfold other_key in F. now rewrite key_eqb_sym. }
      unfold item_lt in H. rewrite O in H.
      destruct (key_lt (fst y) (fst x)) as [r |] eqn:K; cbn [bind] in H;
        [| discriminate].
      apply key_lt_same_kind in K.
      destruct (IH (y :: l0) eq_refl) as (kind & A).
      exists kind. constructor; [| exact A].
      rewrite Forall_forall in A. rewrite <- K. now apply A.
Qed.

Lemma calendar_loop_trace (corpus : list essay_data) :
  forall c c' : counter,
    for_each calendar_essay corpus c = Ok c' ->
    c' = count_from c (date_trace corpus)
    /\ List.length (date_trace corpus) = List.length corpus.
Proof.
  unfold date_trace.
  induction corpus as [| e corpus IH]; intros c c' H; simpl in H.
  - injection H as <-. now split.
  - destruct (calendar_essay c e) as [c1 |] eqn:E; cbn [bind] in H; [| discriminate].
    assert (Ed : exists k, essay_date e = Ok k /\ c1 = counter_add k c).
    { unfold calendar_essay, counter_incr in E. unfold essay_date.
      destruct (as_dict (frontmatter e)) as [fm |]; cbn [bind] in E |- *;
        [| discriminate].
      destruct (to_key _) as [k |]; [| discriminate].
      injection E as <-. now exists k. }
    destruct Ed as (k & Ed & ->). cbn [flat_map]. rewrite Ed.
    destruct (IH _ _ H) as (-> & L).
    split; [reflexivity | simpl; now rewrite L].
Qed.

(** A calendar is returned only when [sorted] could compare the dates: the
    dates of the essays, "unknown" for an essay without one, are then all of
    one kind, all numbers, all strings, all dates, all naive datetimes or
    all aware datetimes, and every essay has one. *)
Theorem calendar_dates_of_one_kind (today : string) (corpus : list essay_data)
        (calendar : publication_calendar) :
  build_publication_calendar nan_sorted today corpus = Ok calendar ->
  List.length (date_trace corpus) = List.length corpus
  /\ exists kind : key_kind,
      Forall (fun d => kind_of d = kind) (date_trace corpus).
Proof.
  unfold build_publication_calendar, sorted_items. intro H.
  destruct (for_each calendar_essay corpus []) as [by_date |] eqn:L;
    cbn [bind] in H; [| discriminate].
  destruct (insertion_sorted by_date) as [dates |] eqn:S; cbn [bind] in H;
    [| discriminate].
  clear H. destruct (calendar_loop_trace _ _ L) as (-> & N).
  split; [exact N |].
  destruct (insertion_sorted_one_kind (count_keys_distinct (date_trace corpus)) S)
    as (kind & A).
  exists kind. rewrite Forall_forall in *. intros d Hd.
  destruct (count_keys_first_occurrence (date_trace corpus)) as (_ & _ & M).
  assert (O : occurs d (date_trace corpus) = true).
  { unfold occurs. apply existsb_exists. exists d. split; [exact Hd |].
    apply key_eqb_refl. }
  apply M in O. unfold occurs in O. apply existsb_exists in O.
  destruct O as (k & Hk & E). apply in_map_iff in Hk.
  destruct Hk as (kv & <- & Hkv).
  rewrite (key_eqb_same_kind _ _ E). now apply A.
Qed.

(** ** The run of the indexer *)

Lemma length_insert_desc (x : pykey * Z) (l : counter) :
  List.length (insert_desc x l) = S (List.length l).
Proof.
  induction l as [| y l IH]; cbn [insert_desc]; [reflexivity |].
  destruct (- snd x <=? - snd y); simpl; congruence.
Qed.

Lemma length_sorted_desc (c : counter) :
  List.length (sorted_desc c) = List.length c.
Proof.
  induction c as [| x c IH]; cbn [sorted_desc]; [reflexivity |].
  rewrite length_insert_desc. simpl. congruence.
Qed.

Lemma length_counter_add (k : pykey) (c : counter) :
  (List.length (counter_add k c) <= S (List.length c))%nat.
Proof.
  induction c as [| [k' n] c IH]; cbn [counter_add]; [simpl; lia |].
  destruct (key_eqb k k'); simpl; lia.
Qed.

Lemma length_count_from (ks : list pykey) :
  forall c : counter,
    (List.length (count_from c ks) <= List.length c + List.length ks)%nat.
Proof.
  induction ks as [| k ks IH]; intro c; [simpl; lia |].
  change (count_from c (k :: ks)) with (count_from (counter_add k c) ks).
  specialize (IH (counter_add k c)). pose proof (length_counter_add k c).
  simpl. lia.
Qed.

Lemma extract_essay_data_name (name text : string) (data : essay_data) :
  extract_essay_data safe_load name text = Ok (Some data) -> filename data = name.
Proof.
  unfold extract_essay_data.
  destruct (negb (String.prefix "---" text)); [discriminate |].
  destruct (List.length (split_max "---" 2 text) <? 3)%nat; [discriminate |].
  destruct (safe_load _) as [fm | e]; [| destruct e; discriminate].
  intro H. now injection H as <-.
Qed.

Lemma collect_essays_filter (posts : list (string * string)) :
  forall corpus : list essay_data,
    collect_essays safe_load posts = Ok corpus ->
    map filename corpus = map fst (filter (extracts safe_load) posts).
Proof.
  unfold extracts. induction posts as [| p posts IH]; intros corpus H; simpl in H.
  - now injection H as <-.
  - cbn [filter].
    destruct (extract_essay_data safe_load (fst p) (snd p)) as [data | e] eqn:E;
      cbn [bind] in H; [| discriminate].
    destruct (collect_essays safe_load posts) as [essays |]; cbn [bind] in H;
      [| discriminate].
    injection H as <-. destruct data as [d |]; simpl.
    + rewrite (IH essays eq_refl). now rewrite (extract_essay_data_name _ _ E).
    + now apply IH.
Qed.

(** A run of [index_all] that returns keeps the posts whose extraction
    succeeds, in their order; the three indexes and the summary agree on
    their number, which is at most the number of posts, and there are at
    most as many categories and cross-references as essays. *)
Theorem index_run_counts (today : string) (posts : list (string * string))
        (run : index_run) :
  index_all safe_load nan_sorted today posts = Ok run ->
  map entry_filename (essays (essays_index_json run))
  = map fst (filter (extracts safe_load) posts)
  /\ summary_essays (summary run)
     = Z.of_nat (List.length (filter (extracts safe_load) posts))
  /\ summary_essays (summary run) <= Z.of_nat (List.length posts)
  /\ total_essays (essays_index_json run) = summary_essays (summary run)
  /\ calendar_total_essays (publication_calendar_json run)
     = summary_essays (summary run)
  /\ xrefs_total (cross_references_json run) <= summary_essays (summary run)
  /\ summary_categories (summary run)
     = Z.of_nat (List.length (categories (essays_index_json run)))
  /\ summary_categories (summary run) <= summary_essays (summary run)
  /\ summary_total_words (summary run) = total_words (essays_index_json run).
Proof.
  unfold index_all. intro H.
  destruct (collect_essays safe_load posts) as [corpus |] eqn:Cl; cbn [bind] in H;
    [| discriminate].
  destruct (build_essays_index today corpus) as [index |] eqn:B; cbn [bind] in H;
    [| discriminate].
  destruct (build_cross_references today corpus) as [xrefs |] eqn:X;
    cbn [bind] in H; [| discriminate].
  destruct (build_publication_calendar nan_sorted today corpus) as [calendar |] eqn:C;
    cbn [bind] in H; [| discriminate].
  destruct (json_dumps _); cbn [bind] in H; [| discriminate].
  destruct (json_dumps _); cbn [bind] in H; [| discriminate].
  destruct (json_dumps _); cbn [bind] in H; [| discriminate].
  injection H as <-. cbn.
  assert (N : List.length corpus = List.length (filter (extracts safe_load) posts)).
  { rewrite <- (length_map filename), <- (length_map fst).
    now rewrite (collect_essays_filter posts Cl). }
  assert (Ti : total_essays index = Z.of_nat (List.length corpus)).
  { unfold build_essays_index in B.
    destruct (for_each index_essay corpus _); cbn [bind] in B; [| discriminate].
    now injection B as <-. }
  assert (Tc : calendar_total_essays calendar = Z.of_nat (List.length corpus)).
  { unfold build_publication_calendar in C.
    destruct (for_each calendar_essay corpus _); cbn [bind] in C; [| discriminate].
    destruct (sorted_items _ _); cbn [bind] in C; [| discriminate].
    now injection C as <-. }
  assert (Tx : xrefs_total xrefs <= Z.of_nat (List.length corpus)).
  { unfold build_cross_references in X.
    destruct (for_each xref_essay corpus []) as [refs |] eqn:E; cbn [bind] in X;
      [| discriminate].
    injection X as <-. cbn. destruct (xref_loop corpus E) as (_ & L & _). lia. }
  assert (Tk : (List.length (categories index) <= List.length corpus)%nat).
  { destruct (build_essays_index_tables _ _ B) as [-> _].
    rewrite length_sorted_desc. unfold count_keys.
    pose proof (length_count_from (category_trace corpus) []) as L.
    unfold build_essays_index in B.
    destruct (for_each index_essay corpus _) as [st |] eqn:E; cbn [bind] in B;
      [| discriminate].
    destruct (index_loop _ _ E) as (_ & _ & Il & _). simpl in L. lia. }
  assert (Fi : map entry_filename (essays index) = map filename corpus).
  { unfold build_essays_index in B.
    destruct (for_each index_essay corpus _) as [st |] eqn:E; cbn [bind] in B;
      [| discriminate].
    injection B as <-. cbn. now destruct (index_loop_entries _ _ E) as (If & _). }
  pose proof (filter_length_le (extracts safe_load) posts) as Fl.
  split; [rewrite Fi; now apply collect_essays_filter |].
  repeat split; try lia.
Qed.

(** ** Dates the indexer cannot write *)

Lemma index_essay_date (st st' : index_state) (e : essay_data) :
  index_essay st e = Ok st' ->
  exists (fm : pydict) (entry : index_entry),
    frontmatter e = VDict fm
    /\ st_entries st' = (st_entries st ++ [entry])%list
    /\ entry_date entry = dict_get fm "date" (VStr "").
Proof.
  unfold index_essay. intro H.
  destruct (frontmatter e) as [| | | | | fm | |]; cbn [as_dict bind] in H;
    try discriminate.
  destruct (counter_incr _ _) as [cats |]; cbn [bind] in H; [| discriminate].
  destruct (py_iter _) as [items |]; cbn [bind] in H; [| discriminate].
  destruct (for_each counter_incr items _) as [tags |]; cbn [bind] in H;
    [| discriminate].
  injection H as <-. cbn. exists fm. eexists. now repeat split.
Qed.

Lemma index_loop_dates (corpus : list essay_data) :
  forall st st' : index_state,
    for_each index_essay corpus st = Ok st' ->
    (forall x, In x (st_entries st) -> In x (st_entries st'))
    /\ forall e, In e corpus ->
        exists (fm : pydict) (entry : index_entry),
          frontmatter e = VDict fm
          /\ In entry (st_entries st')
          /\ entry_date entry = dict_get fm "date" (VStr "").
Proof.
  induction corpus as [| e0 corpus IH]; intros st st' H; simpl in H.
  - injection H as <-. split; [trivial | intros e []].
  - destruct (index_essay st e0) as [st1 |] eqn:E; cbn [bind] in H; [| discriminate].
    destruct (index_essay_date _ _ E) as (fm & entry & F & A & D).
    destruct (IH _ _ H) as (K & I).
    split.
    + intros x Hx. apply K. rewrite A. apply in_or_app. now left.
    + intros e [<- | He]; [| now apply I].
      exists fm, entry. split; [exact F |]. split; [| exact D].
      apply K. rewrite A. apply in_or_app. right. now left.
Qed.

Lemma json_dumps_entry_dates (index : essays_index) (u : unit) :
  json_dumps (essays_index_value index) = Ok u ->
  forall x, In x (essays index) -> json_serializable (entry_date x) = true.
Proof.
  unfold json_dumps. intros H x Hx.
  destruct (json_serializable (essays_index_value index)) eqn:J; [| discriminate].
  cbn in J. rewrite !andb_true_iff in J.
  destruct J as (_ & _ & J & _).
  rewrite forallb_forall in J. specialize (J (entry_value x) (in_map _ _ _ Hx)).
  cbn in J. rewrite !andb_true_iff in J.
  tauto.
Qed.

(** A date that is no string stops the indexer.  When one of the essays it
    keeps has a [datetime.date] or a [datetime.datetime] under [date], which
    is what an unquoted YAML date loads as, [index_all] returns nothing: the
    date goes into the entry of the essay as it is, and [json.dumps] cannot
    serialise it. *)
Theorem date_objects_stop_the_indexer
        (today : string) (posts : list (string * string))
        (corpus : list essay_data) (e : essay_data) (fm : pydict) (t : pytime) :
  collect_essays safe_load posts = Ok corpus ->
  In e corpus ->
  frontmatter e = VDict fm ->
  dict_lookup (KStr "date") fm = Some (VTime t) ->
  is_ok (index_all safe_load nan_sorted today posts) = false.
Proof.
  intros C I F D. unfold index_all. rewrite C. cbn [bind].
  destruct (build_essays_index today corpus) as [index |] eqn:B; cbn [bind];
    [| reflexivity].
  destruct (build_cross_references today corpus) as [xrefs |]; cbn [bind];
    [| reflexivity].
  destruct (build_publication_calendar nan_sorted today corpus) as [calendar |];
    cbn [bind]; [| reflexivity].
  destruct (json_dumps (essays_index_value index)) as [u |] eqn:J; cbn [bind];
    [| reflexivity].
  exfalso. unfold build_essays_index in B.
  destruct (for_each index_essay corpus _) as [st |] eqn:L; cbn [bind] in B;
    [| discriminate].
  injection B as <-.
  destruct (index_loop_dates _ _ L) as (_ & A).
  destruct (A e I) as (fm' & entry & F' & Hin & Ed).
  rewrite F in F'. injection F' as <-.
  pose proof (json_dumps_entry_dates _ J entry Hin) as S.
  rewrite Ed in S. unfold dict_get in S. rewrite D in S. discriminate S.
Qed.
End Properties.

(* ------------------------------------------------------------------ *)
(** * Concrete runs *)

Module Runs.

Import Sample.

(** C4 on a document dated the 30th of February: the loader raises
    [ValueError], and so do both extractions. *)
Lemma loader_exception_escapes_extraction_run :
  safe_load (metadata_block bad_date_text) = Raise ValueError
  /\ extract_frontmatter safe_load bad_date_text = Raise ValueError
  /\ extract_essay_data safe_load "bad.md" bad_date_text = Raise ValueError.
Proof.
  split; [reflexivity |].
  apply (@loader_exception_escapes_extraction safe_load "bad.md" bad_date_text
           ValueError);
    [reflexivity | vm_compute; lia | reflexivity | discriminate].
Defined.

(** C2 on the posts [a.md], [bad.md], [b.md], where [bad.md] is dated the
    30th of February: the two valid essays alone are indexed and validated,
    with [bad.md] between them both runs raise [ValueError]; and on
    [empty.md], whose block is empty, followed by [b.md]. *)
Lemma malformed_metadata_stops_the_run_run :
  (is_ok (index_all safe_load nan_sorted "2026-01-01"
            [("a.md", essay_text); ("b.md", essay_text)]) = true
   /\ validate_all safe_load re_compile repr_str repr_float time_text "_posts" (Some schema_text)
        [("a.md", essay_text); ("b.md", essay_text)] = Ok [])
  /\ (index_all safe_load nan_sorted "2026-01-01"
        ([("a.md", essay_text)] ++ ("bad.md", bad_date_text) :: [("b.md", essay_text)])
      = Raise ValueError
      /\ validate_essay safe_load re_compile repr_str repr_float time_text "bad.md" bad_date_text schema
         = Raise ValueError
      /\ validate_all safe_load re_compile repr_str repr_float time_text "_posts" (Some schema_text)
           ([("a.md", essay_text)] ++ ("bad.md", bad_date_text) :: [("b.md", essay_text)])
         = Raise ValueError)
  /\ (validate_essay safe_load re_compile repr_str repr_float time_text "empty.md" null_block_text schema
      = Ok ["empty.md: no valid frontmatter found"]
      /\ index_all safe_load nan_sorted "2026-01-01"
           (("empty.md", null_block_text) :: [("b.md", essay_text)])
         = Raise AttributeError).
Proof.
  split; [split; reflexivity |]. split.
  - eapply (proj1 (@malformed_metadata_stops_the_run
                     safe_load re_compile repr_str repr_float time_text nan_sorted
                     "bad.md" bad_date_text "2026-01-01" "_posts" (Some schema_text)
                     schema [("a.md", essay_text)] [("b.md", essay_text)]
                     eq_refl (le_n 3))).
    + reflexivity.
    + discriminate.
    + reflexivity.
    + reflexivity.
    + reflexivity.
  - eapply (proj2 (@malformed_metadata_stops_the_run
                     safe_load re_compile repr_str repr_float time_text nan_sorted
                     "empty.md" null_block_text "2026-01-01" "_posts" (Some schema_text)
                     schema [] [("b.md", essay_text)]
                     eq_refl (le_n 3))).
    + reflexivity.
    + reflexivity.
Defined.

(** C3 with the sample loader. *)
Lemma null_block_splits_the_extractions_run :
  safe_load nl = Ok VNone
  /\ extract_frontmatter safe_load null_block_text = Ok VNone
  /\ extract_essay_data safe_load "empty.md" null_block_text
     = Ok (Some {| filename := "empty.md"; frontmatter := VNone;
                   computed_word_count := 1 |})
  /\ validate_essay safe_load re_compile repr_str repr_float time_text "empty.md" null_block_text schema
     = Ok ["empty.md: no valid frontmatter found"]
  /\ index_all safe_load nan_sorted "2026-01-01" [("empty.md", null_block_text)]
     = Raise AttributeError.
Proof.
  split; [reflexivity |].
  apply (@null_block_splits_the_extractions safe_load re_compile repr_str repr_float time_text
           nan_sorted "empty.md" "2026-01-01" schema).
  reflexivity.
Defined.

(** C1 with the sample loader and the sample schema file. *)
Lemma scalar_block_aborts_validation_run :
  load_schema safe_load (Some schema_text) = Ok schema
  /\ validate_essay safe_load re_compile repr_str repr_float time_text "a.md" scalar_block_text schema
     = Raise TypeError
  /\ validate_all safe_load re_compile repr_str repr_float time_text "_posts" (Some schema_text)
       [("b.md", essay_text)] = Ok []
  /\ validate_all safe_load re_compile repr_str repr_float time_text "_posts" (Some schema_text)
       [("a.md", scalar_block_text); ("b.md", essay_text)]
     = Raise TypeError.
Proof.
  split; [reflexivity |].
  apply (@scalar_block_aborts_validation safe_load re_compile repr_str repr_float time_text
           "_posts" (Some schema_text)); reflexivity.
Defined.

(** C5 on [True] against an integer with a minimum. *)
Lemma boolean_is_not_an_integer_run :
  validate_field re_compile repr_str repr_float time_text (KStr "word_count") (VBool true)
    (VDict [(KStr "type", VStr "integer"); (KStr "min", VInt 500)])
  = Ok ["expected integer, got bool"].
Proof.
  apply (@boolean_is_not_an_integer re_compile repr_str repr_float time_text (KStr "word_count") true
           [(KStr "type", VStr "integer"); (KStr "min", VInt 500)]).
  reflexivity.
Defined.

(** C6 on a string of three characters, the integer 500 and a list of two
    items, each at its bound. *)
Lemma bounds_are_inclusive_run :
  validate_field re_compile repr_str repr_float time_text (KStr "author") (VStr "abc") (VDict string_spec)
  = validate_field re_compile repr_str repr_float time_text (KStr "author") (VStr "abc")
      (VDict (without "min_length" string_spec))
  /\ validate_field re_compile repr_str repr_float time_text (KStr "author") (VStr "abc") (VDict string_spec)
     = validate_field re_compile repr_str repr_float time_text (KStr "author") (VStr "abc")
         (VDict (without "max_length" string_spec))
  /\ validate_field re_compile repr_str repr_float time_text (KStr "word_count") (VInt 500) (VDict integer_spec)
     = validate_field re_compile repr_str repr_float time_text (KStr "word_count") (VInt 500)
         (VDict (without "min" integer_spec))
  /\ validate_field re_compile repr_str repr_float time_text (KStr "tags") (VList [VStr "a"; VInt 1])
       (VDict list_spec)
     = validate_field re_compile repr_str repr_float time_text (KStr "tags") (VList [VStr "a"; VInt 1])
         (VDict (without "min_items" list_spec))
  /\ validate_field re_compile repr_str repr_float time_text (KStr "tags") (VList [VStr "a"; VInt 1])
       (VDict list_spec)
     = validate_field re_compile repr_str repr_float time_text (KStr "tags") (VList [VStr "a"; VInt 1])
         (VDict (without "max_items" list_spec)).
Proof.
  pose proof (@bounds_are_inclusive re_compile repr_str repr_float time_text (KStr "author") string_spec)
    as (S1 & S2 & _).
  pose proof (@bounds_are_inclusive re_compile repr_str repr_float time_text (KStr "word_count") integer_spec)
    as (_ & _ & I & _).
  pose proof (@bounds_are_inclusive re_compile repr_str repr_float time_text (KStr "tags") list_spec)
    as (_ & _ & _ & L1 & L2).
  split; [| split; [| split; [| split]]].
  - apply (S1 "abc"); reflexivity.
  - apply (S2 "abc"); reflexivity.
  - apply (I 500); reflexivity.
  - apply (L1 [VStr "a"; VInt 1]); reflexivity.
  - apply (L2 [VStr "a"; VInt 1]); reflexivity.
Defined.

(** At their bounds the three sample values get no error at all; one short of
    a minimum, or one past a maximum, they get the error of that bound. *)
Lemma values_at_their_bounds :
  validate_field re_compile repr_str repr_float time_text (KStr "author") (VStr "@bc") (VDict string_spec)
  = Ok []
  /\ validate_field re_compile repr_str repr_float time_text (KStr "word_count") (VInt 500) (VDict integer_spec)
     = Ok []
  /\ validate_field re_compile repr_str repr_float time_text (KStr "tags") (VList [VStr "a"; VStr "b"])
       (VDict list_spec) = Ok []
  /\ validate_field re_compile repr_str repr_float time_text (KStr "author") (VStr "@b") (VDict string_spec)
     = Ok ["too short (2 chars, min 3)"]
  /\ validate_field re_compile repr_str repr_float time_text (KStr "author") (VStr "@bcd") (VDict string_spec)
     = Ok ["too long (4 chars, max 3)"]
  /\ validate_field re_compile repr_str repr_float time_text (KStr "word_count") (VInt 499) (VDict integer_spec)
     = Ok ["value 499 below minimum 500"].
Proof. repeat split. Qed.

(** C7 on the sample corpus: four documents, five tag occurrences. *)
Lemma frequency_tables_sum_run :
  indexable corpus = true
  /\ exists index : essays_index,
      build_essays_index "2026-01-01" corpus = Ok index
      /\ total_essays index = 4
      /\ sum_counts (categories index) = total_essays index
      /\ sum_counts (tag_frequency index) = 5.
Proof.
  pose proof (@frequency_tables_sum "2026-01-01" corpus) as [R S].
  split; [reflexivity |].
  destruct (R eq_refl) as [index E].
  exists index. split; [exact E |].
  apply (S index E).
Defined.

(** C8 on the sample posts. *)
Lemma index_run_function_of_corpus_run :
  exists run : index_run,
    index_all safe_load nan_sorted "2026-01-01" posts = Ok run
    /\ index_all safe_load nan_sorted "2026-03-01" posts = Ok (restamp "2026-03-01" run)
    /\ exists corpus : list essay_data,
        collect_essays safe_load posts = Ok corpus
        /\ StronglySorted (freq_order (category_trace corpus))
                          (categories (essays_index_json run))
        /\ StronglySorted (freq_order (tag_trace corpus))
                          (tag_frequency (essays_index_json run)).
Proof.
  pose proof (@index_run_function_of_corpus safe_load nan_sorted
                "2026-01-01" "2026-03-01" posts)
    as [D O].
  eexists. split; [reflexivity |]. split.
  - exact D.
  - apply O. reflexivity.
Defined.

(** C9, amended, on the sample corpus. *)
Lemma calendar_of_string_dates_run :
  forallb string_dated corpus = true
  /\ exists calendar : publication_calendar,
      build_publication_calendar nan_sorted "2026-01-01" corpus = Ok calendar
      /\ calendar_total_essays calendar = 4
      /\ sum_counts (calendar_dates calendar) = calendar_total_essays calendar
      /\ StronglySorted date_before (calendar_dates calendar)
      /\ forall d : string,
          dict_lookup (KStr d) (calendar_dates calendar)
          = if essays_on d corpus =? 0 then None else Some (essays_on d corpus).
Proof.
  split; [reflexivity |].
  apply (@calendar_of_string_dates nan_sorted "2026-01-01" corpus). reflexivity.
Defined.

(** C9 as stated fails.  With one document dated by an integer and one
    without a date, the keys 2024 and "unknown" meet in [sorted] and the call
    raises: no calendar is returned.  With integer dates only, the calendar
    is in numeric order, 999 before 2024, which is not the order of the date
    strings. *)
Lemma calendar_mixed_dates_raise :
  (build_publication_calendar nan_sorted "2026-01-01" mixed_corpus = Raise TypeError
   /\ ~ exists calendar : publication_calendar,
         build_publication_calendar nan_sorted "2026-01-01" mixed_corpus = Ok calendar)
  /\ (build_publication_calendar nan_sorted "2026-01-01" numeric_corpus
      = Ok {| calendar_version := "1.1";
              calendar_updated := "2026-01-01";
              calendar_total_essays := 2;
              calendar_dates := [(KInt 999, 1); (KInt 2024, 1)] |}
      /\ String.ltb "2024" "999" = true).
Proof.
  split; split; try reflexivity.
  intros [calendar H]. discriminate H.
Qed.

(** The sample schema is well formed, and the sample posts validate. *)
Lemma validate_all_returns_run :
  is_ok (validate_all safe_load re_compile repr_str repr_float time_text "_posts" (Some schema_text) posts)
  = true.
Proof.
  apply (@validate_all_returns safe_load re_compile repr_str repr_float time_text "_posts"
           (Some schema_text) schema posts); reflexivity.
Qed.

(** C10 with the sample schema file. *)
Lemma empty_corpus_run :
  load_schema safe_load (Some schema_text) = Ok schema
  /\ validate_all safe_load re_compile repr_str repr_float time_text "_posts" (Some schema_text) []
     = Ok ["No .md files found in _posts"]
  /\ validate_all safe_load re_compile repr_str repr_float time_text "_posts" (Some schema_text) [] <> Ok []
  /\ exists run : index_run,
      index_all safe_load nan_sorted "2026-01-01" [] = Ok run
      /\ total_essays (essays_index_json run) = 0
      /\ total_words (essays_index_json run) = 0
      /\ categories (essays_index_json run) = []
      /\ tag_frequency (essays_index_json run) = []
      /\ essays (essays_index_json run) = []
      /\ xrefs_total (cross_references_json run) = 0
      /\ xrefs_entries (cross_references_json run) = []
      /\ calendar_total_essays (publication_calendar_json run) = 0
      /\ calendar_dates (publication_calendar_json run) = []
      /\ summary_essays (summary run) = 0.
Proof.
  split; [reflexivity |].
  apply (@empty_corpus safe_load re_compile repr_str repr_float time_text nan_sorted "_posts" "2026-01-01"
           (Some schema_text) schema).
  reflexivity.
Defined.

End Runs.

(* ------------------------------------------------------------------ *)
(** * Concrete runs of the further properties *)

Module FurtherRuns.

Import Sample.

Lemma extraction_success_shape_run :
  extract_essay_data safe_load "a.md" essay_text
  = Ok (Some {| filename := "a.md"; frontmatter := essay_fm;
                computed_word_count := 7 |})
  /\ exists block rest : string,
      essay_text = "---" ++ block ++ "---" ++ rest
      /\ str_contains "---" block = false
      /\ safe_load block = Ok essay_fm
      /\ "a.md" = "a.md"
      /\ 7 = word_count rest
      /\ extract_frontmatter safe_load essay_text = Ok essay_fm.
Proof.
  split; [reflexivity |].
  apply (@extraction_success_shape safe_load "a.md" essay_text
           {| filename := "a.md"; frontmatter := essay_fm;
              computed_word_count := 7 |}).
  reflexivity.
Defined.

Lemma assembled_document_extracts_run :
  str_contains "---" (essay_block ++ "--") = false
  /\ extract_essay_data safe_load "a.md" ("---" ++ essay_block ++ "---" ++ " two words")
     = Ok (Some {| filename := "a.md"; frontmatter := essay_fm;
                   computed_word_count := word_count " two words" |})
  /\ extract_frontmatter safe_load ("---" ++ essay_block ++ "---" ++ " two words")
     = Ok essay_fm.
Proof.
  split; [reflexivity |].
  apply (@assembled_document_extracts safe_load "a.md" essay_block " two words"
           essay_fm); reflexivity.
Defined.

Lemma word_count_blank_run : word_count " #  *_ (>) | " = 0.
Proof. apply (@word_count_blank " #  *_ (>) | "). reflexivity. Defined.

Lemma word_count_plain_text_run :
  word_count "  three plain   words " = count_words false "  three plain   words ".
Proof. apply (@word_count_plain_text "  three plain   words "); reflexivity. Defined.

Lemma word_count_url_run :
  word_count "http://example.org/x?y=1" = 0
  /\ word_count "https://example.org/x?y=1" = 0.
Proof. apply (@word_count_url "example.org/x?y=1"); [discriminate | reflexivity]. Defined.

Lemma essay_errors_by_field_run :
  validate_essay safe_load re_compile repr_str repr_float time_text "a.md" empty_mapping_text schema
  = (required <- py_getitem schema (KStr "required_fields") ;;
     fields <- as_dict required ;;
     reports <- map_m (field_report re_compile repr_str repr_float time_text "a.md" (VDict [])) fields ;;
     Ok (List.concat reports)).
Proof.
  apply (@essay_errors_by_field safe_load re_compile repr_str repr_float time_text "a.md"
           empty_mapping_text schema (VDict [])); [reflexivity | discriminate].
Defined.

Lemma absent_fields_reported_run :
  validate_essay safe_load re_compile repr_str repr_float time_text "a.md" empty_mapping_text schema
  = Ok ["a.md: missing required field 'title'";
        "a.md: missing required field 'tags'"].
Proof.
  apply (@absent_fields_reported safe_load re_compile repr_str repr_float time_text "a.md"
           empty_mapping_text schema []
           [(KStr "title",
             VDict [(KStr "type", VStr "string"); (KStr "min_length", VInt 1)]);
            (KStr "tags",
             VDict [(KStr "type", VStr "list"); (KStr "min_items", VInt 2)])]);
    reflexivity.
Defined.

Lemma essay_passes_iff_run :
  Forall (field_passes re_compile repr_str repr_float time_text
            [(KStr "title", VStr "T"); (KStr "category", VStr "meta-system");
             (KStr "tags", VList [VStr "governance"; VStr "ai"])])
         [(KStr "title",
           VDict [(KStr "type", VStr "string"); (KStr "min_length", VInt 1)]);
          (KStr "tags",
           VDict [(KStr "type", VStr "list"); (KStr "min_items", VInt 2)])].
Proof.
  apply (@essay_passes_iff safe_load re_compile repr_str repr_float time_text "a.md" essay_text schema);
    reflexivity.
Defined.

Lemma validator_passes_iff_run :
  (exists out : string,
      validator_main safe_load re_compile repr_str repr_float time_text "_posts" (Some schema_text)
        [("a.md", essay_text)] = Ok (out, 0))
  /\ ~ (exists out : string,
         validator_main safe_load re_compile repr_str repr_float time_text "_posts" (Some schema_text) []
         = Ok (out, 0)).
Proof.
  split.
  - apply (@validator_passes_iff safe_load re_compile repr_str repr_float time_text "_posts"
             (Some schema_text) [("a.md", essay_text)]).
    exists schema. split; [reflexivity |]. split; [discriminate |].
    constructor; [reflexivity | constructor].
  - intro H.
    apply (@validator_passes_iff safe_load re_compile repr_str repr_float time_text "_posts"
             (Some schema_text) []) in H.
    destruct H as (s & _ & N & _). now apply N.
Defined.

Lemma field_errors_bounded_run :
  (List.length ["too short (2 chars, min 3)"; "does not match pattern ^@"] <= 4)%nat.
Proof.
  apply (@field_errors_bounded re_compile repr_str repr_float time_text (KStr "author") (VStr "ab")
           (VDict string_spec)).
  reflexivity.
Defined.

Lemma list_items_must_be_strings_run :
  exists errors : list string,
    validate_field re_compile repr_str repr_float time_text (KStr "tags") (VList [VStr "a"; VInt 1; VNone])
      (VDict items_spec) = Ok errors
    /\ List.length errors = 2%nat
    /\ (errors = [] <-> false = true).
Proof.
  apply (@list_items_must_be_strings re_compile repr_str repr_float time_text (KStr "tags") items_spec
           [VStr "a"; VInt 1; VNone]); reflexivity.
Defined.

Lemma frequency_tables_count_run :
  exists index : essays_index,
    build_essays_index "2026-01-01" corpus = Ok index
    /\ dict_lookup (KStr "meta") (categories index) = Some 2
    /\ dict_lookup (KStr "ai") (tag_frequency index) = Some 2.
Proof.
  eexists. split; [reflexivity |]. split.
  - exact (proj1 (@frequency_tables_count "2026-01-01" corpus _ eq_refl (KStr "meta"))).
  - exact (proj2 (@frequency_tables_count "2026-01-01" corpus _ eq_refl (KStr "ai"))).
Defined.

Lemma index_entries_follow_corpus_run :
  exists index : essays_index,
    build_essays_index "2026-01-01" corpus = Ok index
    /\ map entry_filename (essays index) = ["a.md"; "b.md"; "c.md"; "d.md"]
    /\ map entry_word_count (essays index) = [120; 80; 10; 10]
    /\ total_words index = 220
    /\ total_essays index = 4.
Proof.
  eexists. split; [reflexivity |].
  exact (@index_entries_follow_corpus "2026-01-01" corpus _ eq_refl).
Defined.

Lemma xrefs_last_essay_wins_run :
  exists xrefs : cross_references,
    build_cross_references "2026-01-01" renamed_corpus = Ok xrefs
    /\ dict_lookup (KStr "a.md") (xrefs_entries xrefs)
       = Some {| xref_title := VStr "second"; xref_related_repos := VList [];
                 xref_tags := VList []; xref_category := VStr "" |}.
Proof.
  eexists. split; [reflexivity |].
  exact (@xrefs_last_essay_wins "2026-01-01" renamed_corpus _ "a.md" eq_refl).
Defined.

Lemma xrefs_total_counts_names_run :
  (exists xrefs : cross_references,
      build_cross_references "2026-01-01" renamed_corpus = Ok xrefs
      /\ xrefs_total xrefs = 2
      /\ xrefs_total xrefs <= 3)
  /\ NoDup (map filename corpus)
  /\ exists xrefs : cross_references,
      build_cross_references "2026-01-01" corpus = Ok xrefs
      /\ xrefs_total xrefs = 4
      /\ map fst (xrefs_entries xrefs)
         = [KStr "a.md"; KStr "b.md"; KStr "c.md"; KStr "d.md"].
Proof.
  assert (N : NoDup (map filename corpus)).
  { repeat constructor; simpl; intuition discriminate. }
  split; [| split; [exact N |]].
  - eexists. split; [reflexivity |].
    pose proof (@xrefs_total_counts_names "2026-01-01" renamed_corpus _ eq_refl)
      as (T & L & _).
    split; [exact T | exact L].
  - eexists. split; [reflexivity |].
    pose proof (@xrefs_total_counts_names "2026-01-01" corpus _ eq_refl)
      as (_ & _ & D).
    exact (D N).
Defined.

Lemma calendar_dates_of_one_kind_run :
  exists calendar : publication_calendar,
    build_publication_calendar nan_sorted "2026-01-01" dated_corpus = Ok calendar
    /\ calendar_dates calendar
       = [(KTime (Date 2026 1 5), 1); (KTime (Date 2026 2 10), 2)]
    /\ List.length (date_trace dated_corpus) = 3%nat
    /\ exists kind : key_kind,
        Forall (fun d => kind_of d = kind) (date_trace dated_corpus).
Proof.
  eexists. split; [reflexivity |]. split; [reflexivity |].
  exact (@calendar_dates_of_one_kind nan_sorted "2026-01-01" dated_corpus _ eq_refl).
Defined.

Lemma index_run_counts_run :
  exists run : index_run,
    index_all safe_load nan_sorted "2026-01-01" posts = Ok run
    /\ map entry_filename (essays (essays_index_json run)) = ["a.md"]
    /\ summary_essays (summary run) = 1
    /\ summary_essays (summary run) <= 2.
Proof.
  eexists. split; [reflexivity |].
  pose proof (@index_run_counts safe_load nan_sorted "2026-01-01" posts _ eq_refl)
    as (F & N & L & _).
  split; [exact F |]. split; [exact N | exact L].
Defined.

Lemma date_objects_stop_the_indexer_run :
  extract_essay_data safe_load "d.md" dated_text
  = Ok (Some {| filename := "d.md";
                frontmatter := VDict [(KStr "date", VTime (Date 2026 2 10))];
                computed_word_count := 1 |})
  /\ index_all safe_load nan_sorted "2026-01-01" [("a.md", essay_text); ("d.md", dated_text)]
     = Raise TypeError
  /\ is_ok (index_all safe_load nan_sorted "2026-01-01"
              [("a.md", essay_text); ("d.md", dated_text)]) = false.
Proof.
  split; [reflexivity |]. split; [reflexivity |].
  eapply (@date_objects_stop_the_indexer safe_load nan_sorted "2026-01-01"
            [("a.md", essay_text); ("d.md", dated_text)]).
  - reflexivity.
  - right. left. reflexivity.
  - reflexivity.
  - reflexivity.
Defined.

Lemma caught_failure_is_skipped_run :
  extraction_fails safe_load bare_text = true
  /\ collect_essays safe_load ([("a.md", essay_text)] ++ [("bare.md", bare_text)])
     = collect_essays safe_load ([("a.md", essay_text)] ++ [])
  /\ index_all safe_load nan_sorted "2026-01-01"
       ([("a.md", essay_text)] ++ [("bare.md", bare_text)])
     = index_all safe_load nan_sorted "2026-01-01" ([("a.md", essay_text)] ++ [])
  /\ validate_essay safe_load re_compile repr_str repr_float time_text "bare.md" bare_text schema
     = Ok ["bare.md: no valid frontmatter found"].
Proof.
  split; [reflexivity |].
  apply (@caught_failure_is_skipped safe_load re_compile repr_str repr_float time_text
           nan_sorted "bare.md" bare_text "2026-01-01" schema [("a.md", essay_text)] []).
  reflexivity.
Defined.

Lemma extraction_none_cases_run :
  (extract_frontmatter safe_load bare_text = Ok VNone
   /\ extract_essay_data safe_load "bare.md" bare_text = Ok None)
  /\ (extract_frontmatter safe_load unclosed_text = Ok VNone
      /\ extract_essay_data safe_load "unclosed.md" unclosed_text = Ok None)
  /\ (extract_frontmatter safe_load broken_text = Ok VNone
      /\ extract_essay_data safe_load "broken.md" broken_text = Ok None).
Proof.
  split; [| split].
  - apply (@extraction_none_cases safe_load "bare.md" bare_text).
    left. reflexivity.
  - apply (@extraction_none_cases safe_load "unclosed.md" unclosed_text).
    right. left. vm_compute. lia.
  - apply (@extraction_none_cases safe_load "broken.md" broken_text).
    right. right. reflexivity.
Defined.

End FurtherRuns.
